(** * agent-memory-server: the LLM client layer and the extraction pipeline

    A shallow embedding of [agent_memory_server/llms.py] and
    [agent_memory_server/extraction.py].

    Python values are modelled as the code uses them: [str] as [string]
    (its UTF-8 bytes), [int] as [Z], a [dict] as a [gmap] (or, inside JSON
    values, as an association list that keeps insertion order), [None] as
    [option]'s [None], an exception as a constructor of [exn].  Code that
    reads or writes process-wide state (the client cache, the extraction
    caches, the storage adapter, the model behind a client) is written in
    a state-and-exception monad; every call to an external collaborator is
    recorded in a trace so that theorems can speak about which calls were
    made. *)

From Stdlib Require Import ZArith Ascii String List Lia.
From Stdlib Require QArith_base.
From stdpp Require Import base option list gmap strings pretty.

Open Scope string_scope.
Open Scope list_scope.
Open Scope Z_scope.

Set Warnings "-register-all".

(** ** Python exceptions and outcomes *)

(** The exception classes the modelled code raises or lets through.
    [ProviderError] and [AdapterError] stand for whatever a provider SDK or
    the storage adapter raises (their payload tells them apart);
    [RetryError] is tenacity's wrapper around the last attempt's
    exception. *)
Inductive exn : Type :=
  | ValueError (msg : string)
  | ImportError (msg : string)
  | NotImplementedError (msg : string)
  | UnicodeEncodeError
  | TypeError
  | AttributeError
  | IndexError
  | KeyError (key : string)
  | AssertionError
  | JSONDecodeError
  | ValidationError
  | ProviderError (code : nat)
  | AdapterError (code : nat)
  | ModelError (code : nat)
  | RetryError (last_attempt : exn).

(** What running a piece of code gives: a value, a raised exception, or
    [Diverge] when an unbounded loop was cut by the fuel of the model. *)
Inductive outcome (A : Type) : Type :=
  | Ok (a : A)
  | Raise (e : exn)
  | Diverge.
Arguments Ok {A} a.
Arguments Raise {A} e.
Arguments Diverge {A}.

(** The state-and-exception monad: state changes made before an exception
    is raised persist, as they do in Python. *)
Definition M (S A : Type) : Type := S -> outcome A * S.

Definition ret {S A} (a : A) : M S A := fun s => (Ok a, s).
Definition raise {S A} (e : exn) : M S A := fun s => (Raise e, s).
Definition bind {S A B} (m : M S A) (k : A -> M S B) : M S B :=
  fun s =>
    match m s with
    | (Ok a, s') => k a s'
    | (Raise e, s') => (Raise e, s')
    | (Diverge, s') => (Diverge, s')
    end.
Definition get {S} : M S S := fun s => (Ok s, s).
Definition modify {S} (f : S -> S) : M S unit := fun s => (Ok tt, f s).
Definition lift {S A} (o : outcome A) : M S A := fun s => (o, s).

(** [try: m except: h] runs the handler on every exception ([except
    Exception]). *)
Definition try_except {S A} (m : M S A) (h : exn -> M S A) : M S A :=
  fun s =>
    match m s with
    | (Raise e, s') => h e s'
    | r => r
    end.

Notation "'let!' x ':=' m 'in' k" := (bind m (fun x => k))
  (at level 10, x name, m at level 100, k at level 200).
Notation "'let!' ' p ':=' m 'in' k" := (bind m (fun p => k))
  (at level 10, p strict pattern, m at level 100, k at level 200).

(** ** Python truthiness and [or] on optional strings *)

(** [bool(x)] for [x : str | None]. *)
Definition truthy (x : option string) : bool :=
  match x with
  | Some s => negb (String.eqb s EmptyString)
  | None => false
  end.

(** [x or y]: [x] when it is truthy, else [y]. *)
Definition py_or (x y : option string) : option string :=
  if truthy x then x else y.

(** ** Python strings *)

(** [s] without the prefix [p] when [s.startswith(p)]: for a prefix of
    [n] ASCII characters this is [s[n:]]. *)
Fixpoint strip_prefix (p s : string) : option string :=
  match p, s with
  | EmptyString, _ => Some s
  | String a p', String b s' =>
      if Ascii.eqb a b then strip_prefix p' s' else None
  | String _ _, EmptyString => None
  end.

(** [sep.join(parts)] for the empty separator. *)
Definition join (parts : list string) : string :=
  fold_right String.append EmptyString parts.

(** A [str] can hold surrogate code points (U+D800 to U+DFFF):
    [json.loads] gives one for an escape [\udXXX] that is not half of a
    pair. Such a code point is kept here in the three bytes that the
    scheme of UTF-8 gives it, [ED] then a byte from [A0] to [BF] then a
    continuation byte; no other character has [ED] followed by a byte
    above [9F]. *)
Fixpoint has_surrogate (s : string) : bool :=
  match s with
  | String a ((String b _) as rest) =>
      ((N_of_ascii a =? 237)%N && (160 <=? N_of_ascii b)%N
       && (N_of_ascii b <=? 191)%N)
      || has_surrogate rest
  | _ => false
  end.

(** [s.encode()], to UTF-8 and with strict errors: the bytes of the
    text, and a [UnicodeEncodeError] when the text holds a surrogate,
    which UTF-8 does not encode. *)
Definition str_encode (s : string) : outcome string :=
  if has_surrogate s then Raise UnicodeEncodeError else Ok s.

(** * llms.py *)
Module Llms.

(** [class ModelProvider(str, Enum)]. *)
Inductive ModelProvider : Type := OPENAI | ANTHROPIC.

#[global] Instance ModelProvider_eq_dec : EqDecision ModelProvider.
Proof. solve_decision. Defined.

#[global] Instance ModelProvider_countable : Countable ModelProvider.
Proof.
  refine (inj_countable'
            (fun p => match p with OPENAI => false | ANTHROPIC => true end)
            (fun b => if b then ANTHROPIC else OPENAI) _).
  intros []; reflexivity.
Defined.

(** The enum's values: [ModelProvider.OPENAI.value] and so on. *)
Definition ModelProvider_value (p : ModelProvider) : string :=
  match p with OPENAI => "openai" | ANTHROPIC => "anthropic" end.

(** [ModelProvider(s)]: the member whose value is [s]; no member, a
    [ValueError]. *)
Definition ModelProvider_of_value (s : string) : outcome ModelProvider :=
  if String.eqb s "openai" then Ok OPENAI
  else if String.eqb s "anthropic" then Ok ANTHROPIC
  else Raise (ValueError (s ++ " is not a valid ModelProvider")).

(** [class ModelConfig(BaseModel)]. *)
Record ModelConfig : Type := mkModelConfig {
  provider : ModelProvider;
  name : string;
  max_tokens : Z;
  embedding_dimensions : Z;
}.

(** [MODEL_CONFIGS], in the order of the dict literal. *)
Definition MODEL_CONFIGS_items : list (string * ModelConfig) :=
  [ ("gpt-3.5-turbo", mkModelConfig OPENAI "gpt-3.5-turbo" 4096 1536);
    ("gpt-3.5-turbo-16k", mkModelConfig OPENAI "gpt-3.5-turbo-16k" 16384 1536);
    ("gpt-4", mkModelConfig OPENAI "gpt-4" 8192 1536);
    ("gpt-4-32k", mkModelConfig OPENAI "gpt-4-32k" 32768 1536);
    ("gpt-4o", mkModelConfig OPENAI "gpt-4o" 128000 1536);
    ("gpt-4o-mini", mkModelConfig OPENAI "gpt-4o-mini" 128000 1536);
    ("o1", mkModelConfig OPENAI "o1" 200000 1536);
    ("o1-mini", mkModelConfig OPENAI "o1-mini" 128000 1536);
    ("o3-mini", mkModelConfig OPENAI "o3-mini" 200000 1536);
    ("text-embedding-ada-002",
       mkModelConfig OPENAI "text-embedding-ada-002" 8191 1536);
    ("text-embedding-3-small",
       mkModelConfig OPENAI "text-embedding-3-small" 8191 1536);
    ("text-embedding-3-large",
       mkModelConfig OPENAI "text-embedding-3-large" 8191 3072);
    ("claude-3-opus-20240229",
       mkModelConfig ANTHROPIC "claude-3-opus-20240229" 200000 1536);
    ("claude-3-sonnet-20240229",
       mkModelConfig ANTHROPIC "claude-3-sonnet-20240229" 200000 1536);
    ("claude-3-haiku-20240307",
       mkModelConfig ANTHROPIC "claude-3-haiku-20240307" 200000 1536);
    ("claude-3-5-sonnet-20240620",
       mkModelConfig ANTHROPIC "claude-3-5-sonnet-20240620" 200000 1536);
    ("claude-3-7-sonnet-20250219",
       mkModelConfig ANTHROPIC "claude-3-7-sonnet-20250219" 200000 1536);
    ("claude-3-5-sonnet-20241022",
       mkModelConfig ANTHROPIC "claude-3-5-sonnet-20241022" 200000 1536);
    ("claude-3-5-haiku-20241022",
       mkModelConfig ANTHROPIC "claude-3-5-haiku-20241022" 200000 1536);
    ("claude-3-7-sonnet-latest",
       mkModelConfig ANTHROPIC "claude-3-7-sonnet-20250219" 200000 1536);
    ("claude-3-5-sonnet-latest",
       mkModelConfig ANTHROPIC "claude-3-5-sonnet-20241022" 200000 1536);
    ("claude-3-5-haiku-latest",
       mkModelConfig ANTHROPIC "claude-3-5-haiku-20241022" 200000 1536);
    ("claude-3-opus-latest",
       mkModelConfig ANTHROPIC "claude-3-opus-20240229" 200000 1536) ].

Definition MODEL_CONFIGS : gmap string ModelConfig :=
  list_to_map MODEL_CONFIGS_items.

(** [MODEL_CONFIGS[key]]: a missing key is a [KeyError]. *)
Definition MODEL_CONFIGS_getitem (key : string) : outcome ModelConfig :=
  match MODEL_CONFIGS !! key with
  | Some cfg => Ok cfg
  | None => Raise (KeyError key)
  end.

(** [get_model_config]: the [logger.warning] has no effect on the result
    and is left out. *)
Definition get_model_config (model_name : string) : outcome ModelConfig :=
  if bool_decide (is_Some (MODEL_CONFIGS !! model_name))
  then MODEL_CONFIGS_getitem model_name
  else MODEL_CONFIGS_getitem "gpt-4o-mini".


(** *** Objects of the provider SDKs and of this module *)

(** An [openai.AsyncOpenAI] object: its identity and the arguments it was
    built from. *)
Record AsyncOpenAI : Type := mkAsyncOpenAI {
  ao_id : nat;
  ao_api_key : option string;
  ao_base_url : option string;
}.

(** An [anthropic.AsyncAnthropic] object. *)
Record AsyncAnthropic : Type := mkAsyncAnthropic {
  aa_id : nat;
  aa_api_key : option string;
}.

(** An [OpenAIClientWrapper] instance: its identity ([id(self)]) and its
    four attributes. *)
Record OpenAIClientWrapper : Type := mkOpenAIClientWrapper {
  ow_id : nat;
  ow_api_key : option string;
  ow_base_url : option string;
  completion_client : option AsyncOpenAI;
  embedding_client : option AsyncOpenAI;
}.

(** An [AnthropicClientWrapper] instance. *)
Record AnthropicClientWrapper : Type := mkAnthropicClientWrapper {
  aw_id : nat;
  aw_api_key : option string;
  aw_client : option AsyncAnthropic;
}.

(** [OpenAIClientWrapper | AnthropicClientWrapper]. *)
Inductive Client : Type :=
  | OpenAIClient (c : OpenAIClientWrapper)
  | AnthropicClient (c : AnthropicClientWrapper).

Definition Client_id (c : Client) : nat :=
  match c with
  | OpenAIClient w => ow_id w
  | AnthropicClient w => aw_id w
  end.

(** *** The process: environment, imports, the client cache *)

(** What the module's code reads and writes in the process:
    [os.environ]; whether the optional imports at the top of the module
    succeeded (the names [AsyncOpenAI] and [anthropic] are [None]
    otherwise); the global [_model_clients]; the allocator of object
    identities; and, for the theorems, the list of wrapper constructors
    that were called, latest first. *)
Record Process : Type := mkProcess {
  environ : gmap string string;
  AsyncOpenAI_imported : bool;
  anthropic_imported : bool;
  _model_clients : gmap ModelProvider Client;
  next_id : nat;
  constructor_calls : list ModelProvider;
}.

Definition set_model_clients (f : gmap ModelProvider Client -> gmap ModelProvider Client)
    (p : Process) : Process :=
  mkProcess (environ p) (AsyncOpenAI_imported p) (anthropic_imported p)
            (f (_model_clients p)) (next_id p) (constructor_calls p).

(** A new object: its identity is the allocator's next number. *)
Definition new_object : M Process nat :=
  fun p =>
    (Ok (next_id p),
     mkProcess (environ p) (AsyncOpenAI_imported p) (anthropic_imported p)
               (_model_clients p) (S (next_id p)) (constructor_calls p)).

Definition record_constructor_call (provider : ModelProvider) : M Process unit :=
  modify (fun p =>
    mkProcess (environ p) (AsyncOpenAI_imported p) (anthropic_imported p)
              (_model_clients p) (next_id p) (provider :: constructor_calls p)).

(** [os.environ.get(key)]. *)
Definition environ_get (key : string) : M Process (option string) :=
  let! p := get in ret (environ p !! key).

(** [AsyncOpenAI(api_key=..., base_url=...)]: calling the name when the
    import failed calls [None], a [TypeError]. *)
Definition AsyncOpenAI_call (api_key base_url : option string)
    : M Process AsyncOpenAI :=
  let! p := get in
  if AsyncOpenAI_imported p
  then let! i := new_object in ret (mkAsyncOpenAI i api_key base_url)
  else raise TypeError.

(** [anthropic.AsyncAnthropic(api_key=...)]: an attribute of [None] when
    the import failed, an [AttributeError]. *)
Definition AsyncAnthropic_call (api_key : option string)
    : M Process AsyncAnthropic :=
  let! p := get in
  if anthropic_imported p
  then let! i := new_object in ret (mkAsyncAnthropic i api_key)
  else raise AttributeError.

(** [OpenAIClientWrapper.__init__]. The attributes set by the first
    block ([if self.api_key:]) are overwritten by the last one; an
    attribute the first block leaves unset is never read, since the
    constructor then raises. *)
Definition OpenAIClientWrapper_init (api_key base_url : option string)
    : M Process OpenAIClientWrapper :=
  let! _ := record_constructor_call OPENAI in
  let! self := new_object in
  let! env_key := environ_get "OPENAI_API_KEY" in
  let self_api_key := py_or api_key env_key in
  let! env_base := environ_get "OPENAI_API_BASE" in
  let self_base_url := py_or base_url env_base in
  let! _ :=
    if truthy self_api_key then
      if truthy self_base_url then
        let! c := AsyncOpenAI_call self_api_key self_base_url in
        let! e := AsyncOpenAI_call self_api_key self_base_url in
        ret (Some c, Some e)
      else
        let! c := AsyncOpenAI_call self_api_key None in
        let! e := AsyncOpenAI_call self_api_key None in
        ret (Some c, Some e)
    else ret (None, None) in
  let! env_base' := environ_get "OPENAI_API_BASE" in
  let openai_api_base := py_or base_url env_base' in
  let! env_key' := environ_get "OPENAI_API_KEY" in
  let openai_api_key := py_or api_key env_key' in
  if negb (truthy openai_api_key) then
    raise (ValueError "OpenAI API key is required")
  else
    let! p := get in
    if negb (AsyncOpenAI_imported p) then
      raise (ImportError "openai package is required for OpenAIClientWrapper")
    else if truthy openai_api_base then
      let! c := AsyncOpenAI_call openai_api_key openai_api_base in
      let! e := AsyncOpenAI_call openai_api_key openai_api_base in
      ret (mkOpenAIClientWrapper self self_api_key self_base_url (Some c) (Some e))
    else
      ret (mkOpenAIClientWrapper self self_api_key self_base_url None None).

(** [AnthropicClientWrapper.__init__]. *)
Definition AnthropicClientWrapper_init (api_key : option string)
    : M Process AnthropicClientWrapper :=
  let! _ := record_constructor_call ANTHROPIC in
  let! self := new_object in
  let! env_key := environ_get "ANTHROPIC_API_KEY" in
  let self_api_key := py_or api_key env_key in
  let! _ :=
    if truthy self_api_key
    then let! c := AsyncAnthropic_call self_api_key in ret (Some c)
    else ret None in
  let! env_key' := environ_get "ANTHROPIC_API_KEY" in
  let anthropic_api_key := py_or api_key env_key' in
  if negb (truthy anthropic_api_key) then
    raise (ValueError "Anthropic API key is required")
  else
    let! p := get in
    if negb (anthropic_imported p) then
      raise (ImportError "anthropic package is required for AnthropicClientWrapper")
    else
      let! c := AsyncAnthropic_call anthropic_api_key in
      ret (mkAnthropicClientWrapper self self_api_key (Some c)).

(** [get_model_client]. [provider] is a member of the enum or a string;
    the final [else: raise ValueError] of the source is behind a test on
    an enum with two members and cannot be reached. *)
Definition get_model_client (provider : ModelProvider + string)
    : M Process Client :=
  let! provider_enum :=
    match provider with
    | inl p => ret p
    | inr s => lift (ModelProvider_of_value s)
    end in
  let! p := get in
  let! _ :=
    if negb (bool_decide (is_Some (_model_clients p !! provider_enum))) then
      let! client :=
        match provider_enum with
        | OPENAI =>
            let! key := environ_get "OPENAI_API_KEY" in
            let! w := OpenAIClientWrapper_init key None in
            ret (OpenAIClient w)
        | ANTHROPIC =>
            let! key := environ_get "ANTHROPIC_API_KEY" in
            let! w := AnthropicClientWrapper_init key in
            ret (AnthropicClient w)
        end in
      modify (set_model_clients <[provider_enum := client]>)
    else ret tt in
  let! p' := get in
  match _model_clients p' !! provider_enum with
  | Some client => ret client
  | None => raise (KeyError (ModelProvider_value provider_enum))
  end.

(** *** Calls through the OpenAI wrapper *)

(** One element of [ChatResponse.choices]. The OpenAI wrapper passes the
    SDK's choice objects through ([choice.message.content], which the SDK
    types as optional); the Anthropic wrapper builds dicts
    [{"message": {"content": content}}]. *)
Inductive Choice : Type :=
  | ChoiceObject (content : option string)
  | ChoiceDict (content : string).

(** [response.usage] of an SDK response: a dict, or an object (the
    payload is its [total_tokens] attribute, when it has one). *)
Inductive Usage : Type :=
  | UsageDict (d : gmap string Z)
  | UsageObject (total_tokens : option Z).

(** An SDK chat completion: [choices], and [usage] when the response has
    the attribute. *)
Record ChatCompletion : Type := mkChatCompletion {
  cc_choices : list Choice;
  cc_usage : option Usage;
}.

(** [class ChatResponse]. *)
Record ChatResponse : Type := mkChatResponse {
  choices : list Choice;
  usage : gmap string Z;
}.

(** [ChatResponse.__init__]: [choices or []] and
    [usage or {"total_tokens": 0}]. *)
Definition ChatResponse_init (choices : list Choice) (usage : gmap string Z)
    : ChatResponse :=
  mkChatResponse choices
    (if bool_decide (usage = ∅) then {["total_tokens" := 0]} else usage).

(** The [total_tokens] property. *)
Definition total_tokens (r : ChatResponse) : Z :=
  default 0 (usage r !! "total_tokens").

Section OpenAICalls.

(** [Any] is the type of the function schemas and the other untyped
    request parameters; [F] the type of an embedding's components;
    [N] the state of the network behind the SDK. *)
Context {Any F N : Type}.

(** The keyword arguments of [chat.completions.create]. *)
Record ChatRequest : Type := mkChatRequest {
  rq_model : string;
  rq_messages : list (string * string);
  rq_response_format : option (list (string * string));
  rq_functions : option (list Any);
  rq_function_call : option (list (string * string));
}.

(** The two SDK operations the wrapper calls. *)
Variable chat_completions_create :
  AsyncOpenAI -> ChatRequest -> M N ChatCompletion.
Variable embeddings_create :
  AsyncOpenAI -> string -> list string -> M N (list (list F)).

(** [if x:] for an optional list or dict: [None] and the empty ones are
    falsy. *)
Definition nonempty {A} (x : option (list A)) : option (list A) :=
  match x with
  | Some (_ :: _) => x
  | _ => None
  end.

(** [OpenAIClientWrapper.create_chat_completion]. The [except Exception]
    clause logs and re-raises, which leaves the outcome as it is. *)
Definition create_chat_completion (self : OpenAIClientWrapper)
    (model prompt : string)
    (response_format : option (list (string * string)))
    (functions : option (list Any))
    (function_call : option (list (string * string)))
    : M N ChatResponse :=
  match completion_client self with
  | None => raise (ValueError "OpenAI API key is not configured")
  | Some client =>
      let request_params :=
        mkChatRequest model [("user", prompt)]
          (nonempty response_format) (nonempty functions)
          (nonempty function_call) in
      let! response := chat_completions_create client request_params in
      let total_tokens :=
        match cc_usage response with
        | Some (UsageDict d) => default 0 (d !! "total_tokens")
        | Some (UsageObject t) => default 0 t
        | None => 0
        end in
      ret (ChatResponse_init (cc_choices response)
             {["total_tokens" := total_tokens]})
  end.

(** The loop of [create_embedding]: one SDK call per batch of
    [batch_size] texts. [fuel] bounds the number of batches. *)
Fixpoint embed_batches (fuel : nat) (client : AsyncOpenAI)
    (embedding_model : string) (batch_size : nat) (rest : list string)
    (embeddings : list (list F)) : M N (list (list F)) :=
  match rest with
  | [] => ret embeddings
  | _ :: _ =>
      match fuel with
      | O => lift Diverge
      | S fuel' =>
          let batch := take batch_size rest in
          let! batch_embeddings :=
            embeddings_create client embedding_model batch in
          embed_batches fuel' client embedding_model batch_size
            (drop batch_size rest) (embeddings ++ batch_embeddings)
      end
  end.

(** [OpenAIClientWrapper.create_embedding]; the result stands for the
    [float32] array whose rows are the embeddings. A list of [n] texts
    needs at most [n] batches. *)
Definition create_embedding (self : OpenAIClientWrapper)
    (query_vec : list string) : M N (list (list F)) :=
  match embedding_client self with
  | None => raise (ValueError "OpenAI API key is not configured")
  | Some client =>
      embed_batches (length query_vec) client "text-embedding-ada-002" 20
        query_vec []
  end.

End OpenAICalls.

(** *** For the statements about the registry and the cache *)

(** The config [get_model_config] falls back to. *)
Definition default_config : ModelConfig :=
  mkModelConfig OPENAI "gpt-4o-mini" 128000 1536.

(** The process of the test suite: only [OPENAI_API_KEY] is set. *)
Definition test_process : Process :=
  mkProcess {["OPENAI_API_KEY" := "test-key"]} true true ∅ 0 [].

(** The cache key a call of [get_model_client] uses. *)
Definition provider_enum_of (provider : ModelProvider + string)
    : outcome ModelProvider :=
  match provider with
  | inl p => Ok p
  | inr s => ModelProvider_of_value s
  end.

(** How often the constructor of [provider]'s wrapper was called. *)
Definition constructions (provider : ModelProvider) (p : Process) : nat :=
  length (filter (fun q => q = provider) (constructor_calls p)).

End Llms.

(** * JSON values and [json.loads] *)
Module Json.

(** What [json.loads] returns: [None], [bool], [int], [float], [str],
    [list] and [dict]. A float is kept as the decimal number its literal
    denotes, [mantissa * 10 ^ exponent]; [NaN], [Infinity] and
    [-Infinity], which the decoder accepts, have constructors of their
    own. A dict is the list of its items in insertion order, with no key
    twice. *)
Inductive json : Type :=
  | JNull
  | JBool (b : bool)
  | JInt (n : Z)
  | JFloat (mantissa exponent : Z)
  | JNaN
  | JInfinity (negative : bool)
  | JStr (s : string)
  | JList (items : list json)
  | JDict (items : list (string * json)).

(** [d.get(key)] on the items of a dict. *)
Fixpoint dict_get (d : list (string * json)) (key : string) : option json :=
  match d with
  | [] => None
  | (k, v) :: rest => if String.eqb k key then Some v else dict_get rest key
  end.

(** [d[key] = value]: a key already there keeps its place. *)
Fixpoint dict_set (d : list (string * json)) (key : string) (value : json)
    : list (string * json) :=
  match d with
  | [] => [(key, value)]
  | (k, v) :: rest =>
      if String.eqb k key then (k, value) :: rest
      else (k, v) :: dict_set rest key value
  end.

(** A decimal [m * 10 ^ e] that the nearest double does not round to
    zero: its magnitude is above [2 ^ -1075], half the least positive
    double. *)
Definition float_nonzero (m e : Z) : bool :=
  if 0 <=? e then negb (m =? 0)
  else 10 ^ (- e) <? Z.abs m * 2 ^ 1075.

(** [bool(v)]. *)
Definition json_truthy (v : json) : bool :=
  match v with
  | JNull => false
  | JBool b => b
  | JInt n => negb (n =? 0)
  | JFloat m e => float_nonzero m e
  | JNaN => true
  | JInfinity _ => true
  | JStr s => negb (String.eqb s EmptyString)
  | JList items => match items with [] => false | _ => true end
  | JDict items => match items with [] => false | _ => true end
  end.

(** [isinstance(v, dict)] and [isinstance(v, list)]. *)
Definition is_dict (v : json) : bool :=
  match v with JDict _ => true | _ => false end.
Definition is_list (v : json) : bool :=
  match v with JList _ => true | _ => false end.

(** [v[key]] for a string key: a [KeyError] on a dict without the key, a
    [TypeError] on every other value (a list or a string wants an integer
    index, the rest cannot be indexed). *)
Definition json_getitem (v : json) (key : string) : outcome json :=
  match v with
  | JDict d =>
      match dict_get d key with
      | Some x => Ok x
      | None => Raise (KeyError key)
      end
  | _ => Raise TypeError
  end.

(** [l[:n]] on a list: the first [n] items, or all but the last [-n]
    when [n] is negative. *)
Definition slice_to {A} (n : Z) (l : list A) : list A :=
  if 0 <=? n then take (Z.to_nat n) l
  else take (length l - Z.to_nat (- n)) l.

(** The characters of a [str]: a byte that is not a UTF-8 continuation
    byte ([10xxxxxx]) starts a new one. *)
Definition is_continuation_byte (c : ascii) : bool :=
  let n := N_of_ascii c in ((128 <=? n) && (n <? 192))%N.

Fixpoint characters_from (current : string) (s : string) : list string :=
  match s with
  | EmptyString => [current]
  | String c rest =>
      if is_continuation_byte c
      then characters_from (current ++ String c EmptyString) rest
      else current :: characters_from (String c EmptyString) rest
  end.

Definition characters (s : string) : list string :=
  match s with
  | EmptyString => []
  | String c rest => characters_from (String c EmptyString) rest
  end.

(** [v[:n]]: lists and strings are sliced; a dict takes the slice for a
    key and fails ([TypeError: unhashable type] before Python 3.12,
    [KeyError] since; the model says [TypeError]); nothing else can be
    indexed. *)
Definition json_slice_to (v : json) (n : Z) : outcome json :=
  match v with
  | JList items => Ok (JList (slice_to n items))
  | JStr s => Ok (JStr (join (slice_to n (characters s))))
  | _ => Raise TypeError
  end.

(** *** The decoder *)

(** The decoder follows [json.decoder] (the scanner in [json.scanner]):
    a value is a string, an object, an array, a literal or a number;
    white space is skipped between the tokens of arrays and objects and
    around the document; anything left after the document is an error. *)

Definition is_whitespace (c : ascii) : bool :=
  match N_of_ascii c with
  | 32%N | 9%N | 10%N | 13%N => true
  | _ => false
  end.

Fixpoint skip_whitespace (s : string) : string :=
  match s with
  | String c rest => if is_whitespace c then skip_whitespace rest else s
  | EmptyString => s
  end.

Definition digit_value (c : ascii) : option Z :=
  let n := N_of_ascii c in
  if ((48 <=? n) && (n <=? 57))%N then Some (Z.of_N n - 48) else None.

Definition hex_value (c : ascii) : option Z :=
  let n := N_of_ascii c in
  if ((48 <=? n) && (n <=? 57))%N then Some (Z.of_N n - 48)
  else if ((65 <=? n) && (n <=? 70))%N then Some (Z.of_N n - 55)
  else if ((97 <=? n) && (n <=? 102))%N then Some (Z.of_N n - 87)
  else None.

(** The digits at the start of [s]: their value after [acc], how many
    there are, and the rest. *)
Fixpoint scan_digits (s : string) (acc : Z) (count : Z) : Z * Z * string :=
  match s with
  | String c rest =>
      match digit_value c with
      | Some d => scan_digits rest (10 * acc + d) (count + 1)
      | None => (acc, count, s)
      end
  | EmptyString => (acc, count, s)
  end.

(** The integer part of a number: [0], or a digit from 1 to 9 and the
    digits after it. *)
Definition scan_integer (s : string) : option (Z * string) :=
  match s with
  | String c rest =>
      match digit_value c with
      | Some 0 => Some (0, rest)
      | Some d => let '(n, _, rest') := scan_digits rest d 1 in Some (n, rest')
      | None => None
      end
  | EmptyString => None
  end.

(** The fraction: a point and at least one digit; otherwise nothing is
    taken. The result is the digits' value and their number. *)
Definition scan_fraction (s : string) : option (Z * Z * string) :=
  match s with
  | String "."%char rest =>
      let '(n, count, rest') := scan_digits rest 0 0 in
      if 0 <? count then Some (n, count, rest') else None
  | _ => None
  end.

(** The exponent: [e] or [E], a sign if any, at least one digit. *)
Definition scan_exponent (s : string) : option (Z * string) :=
  match s with
  | String c rest =>
      if (Ascii.eqb c "e" || Ascii.eqb c "E")%bool then
        let '(negative, digits) :=
          match rest with
          | String "-"%char r => (true, r)
          | String "+"%char r => (false, r)
          | _ => (false, rest)
          end in
        let '(n, count, rest') := scan_digits digits 0 0 in
        if 0 <? count then Some (if negative then - n else n, rest') else None
      else None
  | EmptyString => None
  end.

(** A number: an [int] when it has neither fraction nor exponent, else a
    [float]. *)
Definition scan_number (s : string) : option (json * string) :=
  let '(negative, unsigned) :=
    match s with
    | String "-"%char r => (true, r)
    | _ => (false, s)
    end in
  match scan_integer unsigned with
  | None => None
  | Some (n, rest) =>
      let sign := if negative then -1 else 1 in
      match scan_fraction rest, scan_exponent rest with
      | None, None => Some (JInt (sign * n), rest)
      | None, Some (e, rest') => Some (JFloat (sign * n) e, rest')
      | Some (f, count, rest'), _ =>
          let m := sign * (n * 10 ^ count + f) in
          match scan_exponent rest' with
          | None => Some (JFloat m (- count), rest')
          | Some (e, rest'') => Some (JFloat m (e - count), rest'')
          end
      end
  end.

(** The UTF-8 bytes of a code point (a lone surrogate is written like
    any other code point of three bytes). *)
Definition byte (n : Z) : ascii := ascii_of_N (Z.to_N n).

Definition utf8_encode (cp : Z) : string :=
  if cp <? 128 then String (byte cp) EmptyString
  else if cp <? 2048 then
    String (byte (192 + cp / 64)) (String (byte (128 + cp mod 64)) EmptyString)
  else if cp <? 65536 then
    String (byte (224 + cp / 4096))
      (String (byte (128 + (cp / 64) mod 64))
         (String (byte (128 + cp mod 64)) EmptyString))
  else
    String (byte (240 + cp / 262144))
      (String (byte (128 + (cp / 4096) mod 64))
         (String (byte (128 + (cp / 64) mod 64))
            (String (byte (128 + cp mod 64)) EmptyString))).

(** The four hexadecimal digits of a [\uXXXX] escape. *)
Definition scan_hex4 (s : string) : option (Z * string) :=
  match s with
  | String a (String b (String c (String d rest))) =>
      match hex_value a, hex_value b, hex_value c, hex_value d with
      | Some x, Some y, Some z, Some w =>
          Some (4096 * x + 256 * y + 16 * z + w, rest)
      | _, _, _, _ => None
      end
  | _ => None
  end.

(** The one-letter escapes. *)
Definition escape_char (c : ascii) : option ascii :=
  match N_of_ascii c with
  | 34%N => Some c
  | 92%N => Some c
  | 47%N => Some c
  | 98%N => Some (ascii_of_N 8)
  | 102%N => Some (ascii_of_N 12)
  | 110%N => Some (ascii_of_N 10)
  | 114%N => Some (ascii_of_N 13)
  | 116%N => Some (ascii_of_N 9)
  | _ => None
  end.

Definition outcome_bind {A B} (o : outcome A) (k : A -> outcome B) : outcome B :=
  match o with
  | Ok a => k a
  | Raise e => Raise e
  | Diverge => Diverge
  end.

Notation "'let?' ' p ':=' o 'in' k" := (outcome_bind o (fun p => k))
  (at level 10, p strict pattern, o at level 100, k at level 200).

(** The body of a string, after the opening quote, up to the closing
    one (strict mode: a control character is an error). A high surrogate
    escape followed by a low surrogate escape is one code point. *)
Fixpoint scan_string (fuel : nat) (s : string) (acc : string)
    : outcome (string * string) :=
  match fuel with
  | O => Diverge
  | S fuel' =>
      match s with
      | EmptyString => Raise JSONDecodeError
      | String c rest =>
          if Ascii.eqb c "034" then Ok (acc, rest)
          else if Ascii.eqb c "\" then
            match rest with
            | EmptyString => Raise JSONDecodeError
            | String e rest' =>
                if Ascii.eqb e "u" then
                  match scan_hex4 rest' with
                  | None => Raise JSONDecodeError
                  | Some (uni, rest'') =>
                      let single :=
                        scan_string fuel' rest'' (acc ++ utf8_encode uni) in
                      if (55296 <=? uni) && (uni <=? 56319) then
                        match strip_prefix "\u" rest'' with
                        | None => single
                        | Some low =>
                            match scan_hex4 low with
                            | None => Raise JSONDecodeError
                            | Some (uni2, rest3) =>
                                if (56320 <=? uni2) && (uni2 <=? 57343) then
                                  scan_string fuel' rest3
                                    (acc ++ utf8_encode
                                       (65536 + (uni - 55296) * 1024
                                        + (uni2 - 56320)))
                                else single
                            end
                        end
                      else single
                  end
                else
                  match escape_char e with
                  | Some ch =>
                      scan_string fuel' rest' (acc ++ String ch EmptyString)
                  | None => Raise JSONDecodeError
                  end
            end
          else if (N_of_ascii c <? 32)%N then Raise JSONDecodeError
          else scan_string fuel' rest (acc ++ String c EmptyString)
      end
  end.

(** The items of an array, from the first character of an item. *)
Fixpoint scan_items (scan : string -> outcome (json * string)) (fuel : nat)
    (s : string) (acc : list json) : outcome (json * string) :=
  match fuel with
  | O => Diverge
  | S fuel' =>
      let? '(v, rest) := scan s in
      match skip_whitespace rest with
      | String "]"%char r => Ok (JList (acc ++ [v]), r)
      | String ","%char r =>
          scan_items scan fuel' (skip_whitespace r) (acc ++ [v])
      | _ => Raise JSONDecodeError
      end
  end.

(** An array, after its opening bracket. *)
Definition scan_array (scan : string -> outcome (json * string)) (fuel : nat)
    (s : string) : outcome (json * string) :=
  match skip_whitespace s with
  | String "]"%char r => Ok (JList [], r)
  | s' => scan_items scan fuel s' []
  end.

(** The members of an object, from the opening quote of a key. A key
    that comes again replaces the earlier value. *)
Fixpoint scan_members (scan : string -> outcome (json * string)) (fuel : nat)
    (s : string) (acc : list (string * json)) : outcome (json * string) :=
  match fuel with
  | O => Diverge
  | S fuel' =>
      match s with
      | String "034"%char r =>
          let? '(key, r1) := scan_string (S (String.length r)) r EmptyString in
          match skip_whitespace r1 with
          | String ":"%char r2 =>
              let? '(v, r3) := scan (skip_whitespace r2) in
              match skip_whitespace r3 with
              | String "}"%char r4 => Ok (JDict (dict_set acc key v), r4)
              | String ","%char r4 =>
                  scan_members scan fuel' (skip_whitespace r4)
                    (dict_set acc key v)
              | _ => Raise JSONDecodeError
              end
          | _ => Raise JSONDecodeError
          end
      | _ => Raise JSONDecodeError
      end
  end.

(** An object, after its opening brace. *)
Definition scan_object (scan : string -> outcome (json * string)) (fuel : nat)
    (s : string) : outcome (json * string) :=
  match skip_whitespace s with
  | String "}"%char r => Ok (JDict [], r)
  | s' => scan_members scan fuel s' []
  end.

(** The literals, tried when the value is no string, object or array:
    [null], [true], [false], a number, [NaN], [Infinity], [-Infinity]. *)
Definition scan_literal (s : string) : outcome (json * string) :=
  match strip_prefix "null" s with
  | Some r => Ok (JNull, r)
  | None =>
  match strip_prefix "true" s with
  | Some r => Ok (JBool true, r)
  | None =>
  match strip_prefix "false" s with
  | Some r => Ok (JBool false, r)
  | None =>
  match scan_number s with
  | Some (v, r) => Ok (v, r)
  | None =>
  match strip_prefix "NaN" s with
  | Some r => Ok (JNaN, r)
  | None =>
  match strip_prefix "Infinity" s with
  | Some r => Ok (JInfinity false, r)
  | None =>
  match strip_prefix "-Infinity" s with
  | Some r => Ok (JInfinity true, r)
  | None => Raise JSONDecodeError
  end end end end end end end.

(** One value at the start of [s]. [fuel] bounds the nesting. *)
Fixpoint scan_once (fuel : nat) (s : string) : outcome (json * string) :=
  match fuel with
  | O => Diverge
  | S fuel' =>
      match s with
      | String "034"%char r =>
          let? '(str, rest) := scan_string (S (String.length r)) r EmptyString in
          Ok (JStr str, rest)
      | String "{"%char r => scan_object (scan_once fuel') fuel' r
      | String "["%char r => scan_array (scan_once fuel') fuel' r
      | _ => scan_literal s
      end
  end.

(** [json.loads(s)] for a [str]: every nested value and every item
    takes at least one character, so the length of [s] is fuel enough. *)
Definition loads (s : string) : outcome json :=
  let? '(v, rest) := scan_once (S (String.length s)) (skip_whitespace s) in
  match skip_whitespace rest with
  | EmptyString => Ok v
  | _ => Raise JSONDecodeError
  end.

End Json.

(** * extraction.py *)
Module Extraction.
Import Json Llms.

(** ** tenacity *)

(** [async for attempt in AsyncRetrying(stop=stop_after_attempt(n)):
    with attempt: body], with tenacity's defaults: every exception of the
    body is retried, there is no wait, and when the attempt that fails is
    the [n]-th, a [RetryError] that wraps its exception is raised
    ([reraise] is off). An attempt that completes ends the loop with its
    value. [retry_attempts k] is the loop with [k] attempts left after the
    current one. *)
Fixpoint retry_attempts {S A} (remaining : nat) (body : M S A) : M S A :=
  fun s =>
    match body s with
    | (Raise e, s') =>
        match remaining with
        | O => (Raise (RetryError e), s')
        | S k => retry_attempts k body s'
        end
    | r => r
    end.

Definition AsyncRetrying {S A} (stop_after_attempt : nat) (body : M S A)
    : M S A :=
  retry_attempts (pred stop_after_attempt) body.

(** [try: m except (E1, E2): h]: the handler runs on the exceptions
    [catches] selects, the others propagate. *)
Definition try_except_only {S A} (catches : exn -> bool) (m : M S A)
    (h : exn -> M S A) : M S A :=
  fun s =>
    match m s with
    | (Raise e, s') => if catches e then h e s' else (Raise e, s')
    | r => r
    end.

(** ** Records *)

(** Modelled from the spec: the [MemoryRecord] model of
    [agent_memory_server.models], which is not among the sources; these
    are the fields of section 3 of the specification. *)
Inductive MemoryTypeEnum : Type := episodic | semantic | message.

Record MemoryRecord : Type := mkMemoryRecord {
  id : string;
  text : string;
  memory_type : MemoryTypeEnum;
  topics : list string;
  entities : list string;
  discrete_memory_extracted : string;
}.

(** [memory.model_copy(update={"discrete_memory_extracted": flag})]. *)
Definition model_copy_discrete_memory_extracted (memory : MemoryRecord)
    (flag : string) : MemoryRecord :=
  mkMemoryRecord (id memory) (text memory) (memory_type memory)
    (topics memory) (entities memory) flag.

(** Modelled from the spec: the validation the [MemoryRecord]
    constructor runs on its arguments. [memory_type] is one of the three
    members, [text] a string, [topics] and [entities] lists of strings. *)
Definition MemoryTypeEnum_of_json (v : json) : outcome MemoryTypeEnum :=
  match v with
  | JStr s =>
      if String.eqb s "episodic" then Ok episodic
      else if String.eqb s "semantic" then Ok semantic
      else if String.eqb s "message" then Ok message
      else Raise ValidationError
  | _ => Raise ValidationError
  end.

Fixpoint strings_of_json_items (items : list json) : outcome (list string) :=
  match items with
  | [] => Ok []
  | JStr s :: rest =>
      match strings_of_json_items rest with
      | Ok l => Ok (s :: l)
      | r => r
      end
  | _ :: _ => Raise ValidationError
  end.

Definition strings_of_json (v : json) : outcome (list string) :=
  match v with
  | JList items => strings_of_json_items items
  | _ => Raise ValidationError
  end.

Definition MemoryRecord_init (id : string) (text memory_type topics entities : json)
    (discrete_memory_extracted : string) : outcome MemoryRecord :=
  match text with
  | JStr text =>
      let? 'memory_type := MemoryTypeEnum_of_json memory_type in
      let? 'topics := strings_of_json topics in
      let? 'entities := strings_of_json entities in
      Ok (mkMemoryRecord id text memory_type topics entities
            discrete_memory_extracted)
  | _ => Raise ValidationError
  end.

(** [new_memory.get(key, default)]: on a dict; any other value has no
    [get] ([AttributeError]). *)
Definition json_get (v : json) (key : string) (fallback : json) : outcome json :=
  match v with
  | JDict d => Ok (default fallback (dict_get d key))
  | _ => Raise AttributeError
  end.

(** One token-classification result of the NER pipeline. *)
Record NerResult : Type := mkNerResult {
  word : string;
  entity : string;
}.

(** The fields of [settings] the module reads. *)
Record Settings : Type := mkSettings {
  generation_model : string;
  topic_model : string;
  topic_model_path : string;
  top_k_topics : Z;
  ner_model : string;
}.

(** ** Calls to the collaborators *)

(** The calls the module makes to what lies outside it: the client's
    chat completion, the storage adapter, the indexing routine, the topic
    model and the NER pipeline. *)
Inductive Event : Type :=
  | create_chat_completion_call (model prompt : string)
      (response_format : list (string * string))
  | search_memories_call (query memory_type discrete_memory_extracted : string)
      (limit offset : nat)
  | delete_memories_call (ids : list string)
  | update_memories_call (memories : list MemoryRecord)
  | index_long_term_memories_call (memories : list MemoryRecord)
      (deduplicate : bool)
  | BERTopic_load_call (path embedding_model : string)
  | transform_call (documents : list string)
  | get_topic_call (topic : Z)
  | from_pretrained_call (model : string)
  | pipeline_call (text : string).

(** [list(set(l))]: the order in which a set is iterated is not fixed
    by the language; what is known of the result is that it has no
    duplicates and the elements of [l]. *)
Class ListOfSet : Type := {
  list_set : list string -> list string;
  list_set_NoDup : forall l, NoDup (list_set l);
  elem_of_list_set : forall l x, x ∈ list_set l <-> x ∈ l;
}.

(** One order a set may be listed in: that of the last occurrences. *)
#[global] Instance ListOfSet_remove_dups : ListOfSet := {|
  list_set := remove_dups;
  list_set_NoDup := NoDup_remove_dups;
  elem_of_list_set := fun l x => elem_of_remove_dups l x;
|}.

(** ** Words and their pieces *)

(** A word of the text as the tokenizer cuts it: a first piece and the
    pieces that continue it. *)
Definition pieces : Type := string * list string.

(** The tokens of a word: the first piece, then each continuation under
    the [##] marker. *)
Definition tokens_of (w : pieces) : list string :=
  w.1 :: map (String.append "##") w.2.

(** The word the pieces spell. *)
Definition whole_word (w : pieces) : string := join (w.1 :: w.2).

(** A first piece carries no marker. *)
Definition unmarked (w : pieces) : Prop := strip_prefix "##" w.1 = None.

(** What the loop and the final [if] give, from the loop's variables. *)
Definition close_entity (r : list string * list string) : list string :=
  match r.1 with
  | [] => r.2
  | _ :: _ => r.2 ++ [join r.1]
  end.

Section Pipeline.

(** [W] is the state of everything outside the module (the provider
    behind the client, the storage, the loaded models); the other
    types are those of the objects the module holds on to; [F] is the
    type of a term's weight in a topic. *)
Context {W TopicModel NerModel Tokenizer Pipeline F : Type}.
Context `{ListOfSet}.

(** The state the module's code runs in: the outside world, the trace
    of the calls made to it (earliest first), and the module's
    globals. *)
Record State : Type := mkState {
  world : W;
  trace : list Event;
  _topic_model : option TopicModel;
  _ner_model : option NerModel;
  _ner_tokenizer : option Tokenizer;
  _entity_cache : gmap string (list string);
  _bertopic_cache : gmap (string * Z) (list string);
}.

Definition set_topic_model (m : option TopicModel) (st : State) : State :=
  mkState (world st) (trace st) m (_ner_model st) (_ner_tokenizer st)
          (_entity_cache st) (_bertopic_cache st).
Definition set_ner_model (m : option NerModel) (st : State) : State :=
  mkState (world st) (trace st) (_topic_model st) m (_ner_tokenizer st)
          (_entity_cache st) (_bertopic_cache st).
Definition set_ner_tokenizer (t : option Tokenizer) (st : State) : State :=
  mkState (world st) (trace st) (_topic_model st) (_ner_model st) t
          (_entity_cache st) (_bertopic_cache st).
Definition set_entity_cache (c : gmap string (list string)) (st : State)
    : State :=
  mkState (world st) (trace st) (_topic_model st) (_ner_model st)
          (_ner_tokenizer st) c (_bertopic_cache st).
Definition set_bertopic_cache (c : gmap (string * Z) (list string))
    (st : State) : State :=
  mkState (world st) (trace st) (_topic_model st) (_ner_model st)
          (_ner_tokenizer st) (_entity_cache st) c.

(** A call to a collaborator: it is recorded, then it runs on the
    world; the record stays when the call raises. *)
Definition call {A} (ev : Event) (op : M W A) : M State A :=
  fun st =>
    let '(r, w) := op (world st) in
    (r, mkState w (trace st ++ [ev]) (_topic_model st) (_ner_model st)
          (_ner_tokenizer st) (_entity_cache st) (_bertopic_cache st)).

(** Something computed outside the module that is no call to a
    collaborator (a fresh ULID). *)
Definition outside {A} (op : M W A) : M State A :=
  fun st =>
    let '(r, w) := op (world st) in
    (r, mkState w (trace st) (_topic_model st) (_ner_model st)
          (_ner_tokenizer st) (_entity_cache st) (_bertopic_cache st)).

(** What the module gets from outside itself: the settings, the
    libraries it imports and the objects it is handed.

    - [md5_hexdigest data] is [hashlib.md5(data).hexdigest()] on bytes;
      it raises (a [ValueError]) where the interpreter's build does
      not offer MD5;
    - [AutoTokenizer_from_pretrained],
      [AutoModelForTokenClassification_from_pretrained], [pipeline]
      (for [pipeline("ner", model=..., tokenizer=...)]) and
      [pipeline_run] (the call of the pipeline on a text) are the
      transformers library;
    - [BERTopic_load path embedding_model], [transform model docs]
      (the first component of [model.transform(docs)], the topic of
      each document) and [get_topic model topic] (the terms and
      weights of a topic, empty when the model has no such topic) are
      the topic model;
    - [create_chat_completion model prompt response_format] is the
      method of the client the function works with: the [client]
      argument of [extract_topics_llm] when there is one, and
      otherwise what [get_model_client] returned for the provider of
      the configured model; the code asks nothing of the client but
      this method;
    - [topics_prompt _num_topics text] is the f-string of
      [extract_topics_llm] and [DISCRETE_EXTRACTION_PROMPT_format
      message top_k_topics] is [DISCRETE_EXTRACTION_PROMPT.format];
    - [search_memories query memory_type discrete_memory_extracted
      limit offset] (the call and the [memories] attribute of its
      result), [update_memories] and [delete_memories] are the storage
      adapter, [index_long_term_memories] the routine of
      [agent_memory_server.long_term_memory], and [new_ulid] is
      [str(ulid.ULID())]. *)
Record Outside : Type := mkOutside {
  settings : Settings;
  md5_hexdigest : string -> outcome string;
  AutoTokenizer_from_pretrained : string -> M W Tokenizer;
  AutoModelForTokenClassification_from_pretrained : string -> M W NerModel;
  pipeline : option NerModel -> option Tokenizer -> M W Pipeline;
  pipeline_run : Pipeline -> string -> M W (list NerResult);
  BERTopic_load : string -> string -> M W TopicModel;
  transform : TopicModel -> list string -> M W (list Z);
  get_topic : TopicModel -> Z -> M W (list (string * F));
  create_chat_completion :
    string -> string -> list (string * string) -> M W ChatResponse;
  topics_prompt : Z -> string -> string;
  DISCRETE_EXTRACTION_PROMPT_format : string -> Z -> string;
  search_memories :
    string -> string -> string -> nat -> nat -> M W (list MemoryRecord);
  update_memories : list MemoryRecord -> M W unit;
  delete_memories : list string -> M W unit;
  index_long_term_memories : list MemoryRecord -> bool -> M W unit;
  new_ulid : M W string;
}.

Variable env : Outside.

(** *** Entities *)

(** [_entity_cache_key]: [hashlib.md5(text.encode()).hexdigest()]. *)
Definition _entity_cache_key (text : string) : outcome string :=
  let? 'data := str_encode text in
  md5_hexdigest env data.

(** [get_ner_model]. *)
Definition get_ner_model : M State Pipeline :=
  let! st := get in
  let! _ :=
    match _ner_model st with
    | None =>
        let! tokenizer :=
          call (from_pretrained_call (ner_model (settings env)))
               (AutoTokenizer_from_pretrained env (ner_model (settings env))) in
        let! _ := modify (set_ner_tokenizer (Some tokenizer)) in
        let! model :=
          call (from_pretrained_call (ner_model (settings env)))
               (AutoModelForTokenClassification_from_pretrained env
                  (ner_model (settings env))) in
        modify (set_ner_model (Some model))
    | Some _ => ret tt
    end in
  let! st' := get in
  outside (pipeline env (_ner_model st') (_ner_tokenizer st')).

(** The loop over the pipeline's results, of which it reads
    [result["word"]]: a word that starts with [##] is a continuation
    and goes, without the marker, to the end of the current entity;
    any other word closes the current entity, if there is one, and
    opens the next. *)
Fixpoint group_tokens (words : list string)
    (current_entity : list string) (entities : list string)
    : list string * list string :=
  match words with
  | [] => (current_entity, entities)
  | w :: rest =>
      match strip_prefix "##" w with
      | Some continuation =>
          group_tokens rest (current_entity ++ [continuation]) entities
      | None =>
          group_tokens rest [w]
            (match current_entity with
             | [] => entities
             | _ :: _ => entities ++ [join current_entity]
             end)
      end
  end.

(** The loop and the [if current_entity:] after it. *)
Definition group_entities (results : list NerResult) : list string :=
  let '(current_entity, entities) := group_tokens (map word results) [] [] in
  match current_entity with
  | [] => entities
  | _ :: _ => entities ++ [join current_entity]
  end.

(** [extract_entities]: the cache key is computed before the [try],
    so what it raises is raised by the function; a cached list is
    returned when it is not empty
    ([if cached := _entity_cache.get(cache_key)]). *)
Definition extract_entities (text : string) : M State (list string) :=
  let! cache_key := lift (_entity_cache_key text) in
  let! st := get in
  match _entity_cache st !! cache_key with
  | Some (e :: cached) => ret (e :: cached)
  | _ =>
      try_except
        (let! ner := get_ner_model in
         let! results := call (pipeline_call text) (pipeline_run env ner text) in
         let entities := group_entities results in
         let deduped := list_set entities in
         let! _ :=
           modify (fun st =>
             set_entity_cache (<[cache_key := deduped]> (_entity_cache st)) st) in
         ret deduped)
        (fun _ => ret [])
  end.

(** *** Topics, with BERTopic *)

(** [get_topic_model]. *)
Definition get_topic_model : M State TopicModel :=
  let! st := get in
  match _topic_model st with
  | None =>
      let! model :=
        call (BERTopic_load_call (topic_model_path (settings env)) "all-MiniLM-L6-v2")
             (BERTopic_load env (topic_model_path (settings env)) "all-MiniLM-L6-v2") in
      let! _ := modify (set_topic_model (Some model)) in
      ret model
  | Some model => ret model
  end.

(** The loop [for i, topic_idx in enumerate(topic_indices)]. *)
Fixpoint collect_topics (model : TopicModel) (_num_topics : Z)
    (topic_indices : list Z) (i : Z) (topics : list string)
    : M State (list string) :=
  match topic_indices with
  | [] => ret topics
  | topic_idx :: rest =>
      if negb (_num_topics =? 0) && (_num_topics <=? i) then ret topics
      else if negb (topic_idx =? -1) then
        let! topic_info :=
          call (get_topic_call topic_idx) (get_topic env model topic_idx) in
        collect_topics model _num_topics rest (i + 1)
          (topics ++ map fst topic_info)
      else collect_topics model _num_topics rest (i + 1) topics
  end.

(** [extract_topics_bertopic]. *)
Definition extract_topics_bertopic (text : string) (num_topics : option Z)
    : M State (list string) :=
  let _num_topics := default (top_k_topics (settings env)) num_topics in
  let cache_key := (text, _num_topics) in
  let! st := get in
  match _bertopic_cache st !! cache_key with
  | Some cached => ret cached
  | None =>
      let! model := get_topic_model in
      let! topic_indices := call (transform_call [text]) (transform env model [text]) in
      let! topics := collect_topics model _num_topics topic_indices 0 [] in
      let! _ :=
        modify (fun st =>
          set_bertopic_cache (<[cache_key := topics]> (_bertopic_cache st)) st) in
      ret topics
  end.

(** *** The client's responses *)

(** [response.choices[0].message.content]: an [IndexError] without
    choices; a choice that is a dict has no attribute [message]. *)
Definition first_message_content (response : ChatResponse)
    : outcome (option string) :=
  match choices response with
  | [] => Raise IndexError
  | ChoiceObject content :: _ => Ok content
  | ChoiceDict _ :: _ => Raise AttributeError
  end.

(** [json.loads(content)]: a [TypeError] on [None]. *)
Definition json_loads (content : option string) : outcome json :=
  match content with
  | Some s => loads s
  | None => Raise TypeError
  end.

(** *** Topics, with the LLM *)

(** The exceptions [except (json.JSONDecodeError, KeyError)] names. *)
Definition JSONDecodeError_or_KeyError (e : exn) : bool :=
  match e with
  | JSONDecodeError | KeyError _ => true
  | _ => false
  end.

(** What the [try] of [extract_topics_llm] assigns to [topics]. *)
Definition decode_topics (response : ChatResponse) : outcome json :=
  let? 'content := first_message_content response in
  let? 'document := json_loads content in
  json_getitem document "topics".

(** The body of [with attempt:] in [extract_topics_llm]; its value is
    the value of [topics] when it completes. *)
Definition topics_attempt (_num_topics : Z) (prompt : string) : M State json :=
  let! response :=
    call (create_chat_completion_call (generation_model (settings env)) prompt
            [("type", "json_object")])
         (create_chat_completion env (generation_model (settings env)) prompt
            [("type", "json_object")]) in
  let! topics :=
    try_except_only JSONDecodeError_or_KeyError
      (lift (decode_topics response))
      (fun _ => ret (JList [])) in
  if json_truthy topics then lift (json_slice_to topics _num_topics)
  else ret topics.

(** [extract_topics_llm]. The loop ends by an attempt that completes
    or by a [RetryError], so what is returned is always the [topics] of
    the attempt that completed. *)
Definition extract_topics_llm (text : string) (num_topics : option Z)
    : M State json :=
  let _num_topics := default (top_k_topics (settings env)) num_topics in
  let prompt := topics_prompt env _num_topics text in
  AsyncRetrying 3 (topics_attempt _num_topics prompt).

(** *** Discrete memories *)

(** The loop [while True:] that pages through the unprocessed
    messages; [fuel] bounds the number of pages. *)
Fixpoint search_loop (fuel : nat) (memories : list MemoryRecord)
    (offset : nat) : M State (list MemoryRecord) :=
  match fuel with
  | O => lift Diverge
  | S fuel' =>
      let! search_result :=
        call (search_memories_call EmptyString "message" "f" 25 offset)
             (search_memories env EmptyString "message" "f" 25 offset) in
      let memories := memories ++ search_result in
      if (length search_result <? 25)%nat then ret memories
      else search_loop fuel' memories (offset + 25)
  end.

(** [if not memories:] and its block: the records to work on. *)
Definition select_memories (fuel : nat) (memories : option (list MemoryRecord))
    : M State (list MemoryRecord) :=
  match memories with
  | Some (m :: ms) => ret (m :: ms)
  | _ => search_loop fuel [] 0
  end.

(** What one attempt reads in a response: the parsed document must be
    a dict whose [memories] is a list. *)
Definition decode_memories (response : ChatResponse) : outcome (list json) :=
  let? 'content := first_message_content response in
  let? 'new_message := json_loads content in
  if negb (is_dict new_message) then Raise AssertionError
  else
    let? 'memories := json_getitem new_message "memories" in
    match memories with
    | JList items => Ok items
    | _ => Raise AssertionError
    end.

(** The body of [with attempt:] in [extract_discrete_memories]; its
    value is [new_discrete_memories] after the [extend]. Both [except]
    clauses log and re-raise. *)
Definition extraction_attempt (memory : MemoryRecord)
    (new_discrete_memories : list json) : M State (list json) :=
  let prompt :=
    DISCRETE_EXTRACTION_PROMPT_format env (text memory) (top_k_topics (settings env)) in
  let! response :=
    call (create_chat_completion_call (generation_model (settings env)) prompt
            [("type", "json_object")])
         (create_chat_completion env (generation_model (settings env)) prompt
            [("type", "json_object")]) in
  let! memories := lift (decode_memories response) in
  ret (new_discrete_memories ++ memories).

(** The loop [for memory in memories:]. *)
Fixpoint process_memories (memories : list MemoryRecord)
    (new_discrete_memories : list json) (updated_memories : list MemoryRecord)
    : M State (list json * list MemoryRecord) :=
  match memories with
  | [] => ret (new_discrete_memories, updated_memories)
  | memory :: rest =>
      if String.eqb (text memory) EmptyString then
        let! _ :=
          call (delete_memories_call [id memory])
               (delete_memories env [id memory]) in
        process_memories rest new_discrete_memories updated_memories
      else
        let! new_discrete_memories :=
          AsyncRetrying 3 (extraction_attempt memory new_discrete_memories) in
        let updated_memory :=
          model_copy_discrete_memory_extracted memory "t" in
        process_memories rest new_discrete_memories
          (updated_memories ++ [updated_memory])
  end.

(** One element of the list comprehension that builds the new
    records. *)
Definition new_memory_record (new_memory : json) : M State MemoryRecord :=
  let! ulid := outside (new_ulid env) in
  let! text := lift (json_getitem new_memory "text") in
  let! memory_type := lift (json_get new_memory "type" (JStr "episodic")) in
  let! topics := lift (json_get new_memory "topics" (JList [])) in
  let! entities := lift (json_get new_memory "entities" (JList [])) in
  lift (MemoryRecord_init ulid text memory_type topics entities "t").

Fixpoint new_memory_records (new_discrete_memories : list json)
    : M State (list MemoryRecord) :=
  match new_discrete_memories with
  | [] => ret []
  | new_memory :: rest =>
      let! r := new_memory_record new_memory in
      let! rs := new_memory_records rest in
      ret (r :: rs)
  end.

(** The two [if] at the end of [extract_discrete_memories]. *)
Definition flush (new_discrete_memories : list json)
    (updated_memories : list MemoryRecord) (deduplicate : bool)
    : M State unit :=
  let! _ :=
    match updated_memories with
    | [] => ret tt
    | _ :: _ =>
        call (update_memories_call updated_memories)
             (update_memories env updated_memories)
    end in
  match new_discrete_memories with
  | [] => ret tt
  | _ :: _ =>
      let! long_term_memories := new_memory_records new_discrete_memories in
      call (index_long_term_memories_call long_term_memories deduplicate)
           (index_long_term_memories env long_term_memories deduplicate)
  end.

(** [extract_discrete_memories], from the client and the adapter it
    obtains in its first lines (they are in [env]). *)
Definition extract_discrete_memories (fuel : nat)
    (memories : option (list MemoryRecord)) (deduplicate : bool)
    : M State unit :=
  let! memories := select_memories fuel memories in
  let! '(new_discrete_memories, updated_memories) :=
    process_memories memories [] [] in
  flush new_discrete_memories updated_memories deduplicate.

(** *** For the statements: states, calls and traces *)

(** The state after a call [ev] made in [st] that left the world as
    [w]. *)
Definition after_call (ev : Event) (w : W) (st : State) : State :=
  mkState w (trace st ++ [ev]) (_topic_model st) (_ner_model st)
    (_ner_tokenizer st) (_entity_cache st) (_bertopic_cache st).

(** The cache has no list with an element under [key]. *)
Definition entity_cache_miss (key : string) (st : State) : Prop :=
  forall e cached, _entity_cache st !! key <> Some (e :: cached).

Definition is_transform_call (ev : Event) : bool :=
  match ev with
  | transform_call _ => true
  | _ => false
  end.

(** How often the topic model was run. *)
Definition transform_calls (st : State) : nat :=
  length (List.filter is_transform_call (trace st)).

(** The cache key of a call. *)
Definition bertopic_cache_key (text : string) (num_topics : option Z)
    : string * Z :=
  (text, default (top_k_topics (settings env)) num_topics).

Definition is_chat_call (ev : Event) : bool :=
  match ev with
  | create_chat_completion_call _ _ _ => true
  | _ => false
  end.

(** How often the client was called. *)
Definition chat_calls (st : State) : nat :=
  length (List.filter is_chat_call (trace st)).

(** The call an attempt of [extract_topics_llm] makes. *)
Definition topics_call (prompt : string) : Event :=
  create_chat_completion_call (generation_model (settings env)) prompt
    [("type", "json_object")].

(** [st'] comes from [st] by calls that all satisfy [p]. *)
Definition calls_only (p : Event -> bool) (st st' : State) : Prop :=
  exists added,
    trace st' = trace st ++ added /\ Forall (fun ev => p ev = true) added.

Definition is_search_call (ev : Event) : bool :=
  match ev with
  | search_memories_call _ _ _ _ _ => true
  | _ => false
  end.

Definition is_delete_call (ev : Event) : bool :=
  match ev with
  | delete_memories_call _ => true
  | _ => false
  end.

(** The calls that commit the work of a batch: the bulk update of the
    flags and the indexing of the new memories. *)
Definition is_commit_call (ev : Event) : bool :=
  match ev with
  | update_memories_call _ | index_long_term_memories_call _ _ => true
  | _ => false
  end.

(** The call an attempt of [extract_discrete_memories] makes for a
    record. *)
Definition extraction_call (memory : MemoryRecord) : Event :=
  create_chat_completion_call (generation_model (settings env))
    (DISCRETE_EXTRACTION_PROMPT_format env (text memory)
       (top_k_topics (settings env)))
    [("type", "json_object")].

(** The client answers the extraction prompt of [memory] in world [w]
    by [response] and leaves the world as [w']. *)
Definition answers (memory : MemoryRecord) (w : W) (response : ChatResponse)
    (w' : W) : Prop :=
  create_chat_completion env (generation_model (settings env))
    (DISCRETE_EXTRACTION_PROMPT_format env (text memory)
       (top_k_topics (settings env)))
    [("type", "json_object")] w = (Ok response, w').


(** The state after the calls [evs] that left the world as [w]. *)
Definition after_calls (evs : list Event) (w : W) (st : State) : State :=
  mkState w (trace st ++ evs) (_topic_model st) (_ner_model st)
    (_ner_tokenizer st) (_entity_cache st) (_bertopic_cache st).

(** The search the selection makes at [offset]. *)
Definition search_call (offset : nat) : Event :=
  search_memories_call EmptyString "message" "f" 25 offset.

(** From world [w], the adapter answers the successive searches of
    the selection, from [offset] on, by the pages [pages], and the world
    is then [w']. *)
Fixpoint serves (w : W) (offset : nat) (pages : list (list MemoryRecord))
    (w' : W) : Prop :=
  match pages with
  | [] => w' = w
  | page :: rest =>
      exists w1,
        search_memories env EmptyString "message" "f" 25 offset w = (Ok page, w1) /\
        serves w1 (offset + 25) rest w'
  end.

(** The searches of a scan of [n] pages from [offset]. *)
Definition search_calls_from (offset n : nat) : list Event :=
  map (fun k => search_call (offset + 25 * k)) (seq 0 n).

(** How often the adapter's search was called. *)
Definition search_calls (st : State) : nat :=
  length (List.filter is_search_call (trace st)).

End Pipeline.

End Extraction.

(** * Doubles for the collaborators *)

(** A scripted client, a store held in a list, a topic model and a NER
    pipeline with fixed answers: the collaborators as the tests of the
    repository set them up, for running the code on concrete inputs. *)
Module Doubles.
Import Json Llms Extraction.

(** The outside world of the doubles: what the client answers, call
    after call; the records in storage; how many ULIDs were drawn; what
    the topic model and the NER pipeline answer. *)
Record World : Type := mkWorld {
  responses : list (outcome ChatResponse);
  stored : list MemoryRecord;
  ulids : nat;
  topic_indices : list Z;
  ner_results : outcome (list NerResult);
}.

(** The scripted client: the next answer of the script; a provider
    error when the script is over. *)
Definition scripted_chat_completion (model prompt : string)
    (response_format : list (string * string)) : M World ChatResponse :=
  fun w =>
    match responses w with
    | [] => (Raise (ProviderError 0), w)
    | r :: rest =>
        (r, mkWorld rest (stored w) (ulids w) (topic_indices w) (ner_results w))
    end.

(** JSON text written with single quotes where JSON has double ones. *)
Fixpoint json_text (s : string) : string :=
  match s with
  | EmptyString => EmptyString
  | String c rest =>
      String (if Ascii.eqb c "'" then "034"%char else c) (json_text rest)
  end.

(** A response of the OpenAI wrapper with one choice. *)
Definition response_with (content : string) : outcome ChatResponse :=
  Ok (ChatResponse_init [ChoiceObject (Some content)] {["total_tokens" := 0]}).

Definition MemoryTypeEnum_value (t : MemoryTypeEnum) : string :=
  match t with
  | episodic => "episodic"
  | semantic => "semantic"
  | message => "message"
  end.

Definition set_stored (records : list MemoryRecord) (w : World) : World :=
  mkWorld (responses w) records (ulids w) (topic_indices w) (ner_results w).

(** Modelled from the spec: the storage adapter of
    [agent_memory_server.vectorstore_factory], which is not among the
    sources. [search_memories] returns the page of at most [limit]
    records from [offset] on among those the two filters keep (the empty
    query matches every record); [update_memories] overwrites the stored
    records by id; [delete_memories] removes the records with the given
    ids. *)
Definition store_search_memories
    (query memory_type discrete_memory_extracted : string)
    (limit offset : nat) : M World (list MemoryRecord) :=
  fun w =>
    (Ok (take limit (drop offset
           (filter (fun m =>
                      MemoryTypeEnum_value (Extraction.memory_type m) = memory_type /\
                      Extraction.discrete_memory_extracted m = discrete_memory_extracted)
                   (stored w)))), w).

Definition store_update_memories (memories : list MemoryRecord) : M World unit :=
  fun w =>
    (Ok tt,
     set_stored
       (map (fun m =>
               default m (list_find (fun u => id u = id m) memories
                          ≫= fun '(_, u) => Some u))
            (stored w)) w).

Definition store_delete_memories (ids : list string) : M World unit :=
  fun w =>
    (Ok tt, set_stored (filter (fun m => id m ∉ ids) (stored w)) w).

(** Modelled from the spec: the indexing routine of
    [agent_memory_server.long_term_memory]; it adds the records to the
    store, and with [deduplicate] leaves out those whose text is stored
    already. *)
Definition store_index_long_term_memories (memories : list MemoryRecord)
    (deduplicate : bool) : M World unit :=
  fun w =>
    (Ok tt,
     set_stored
       (stored w ++
        filter (fun m =>
                  deduplicate = false \/ text m ∉ map text (stored w))
               memories) w).

(** The ULIDs of the doubles are numbered. *)
Definition counted_ulid : M World string :=
  fun w =>
    (Ok ("ulid-" +:+ pretty (ulids w)),
     mkWorld (responses w) (stored w) (S (ulids w)) (topic_indices w)
             (ner_results w)).

(** The topic model of the caching tests: [transform] gives the topics
    of the world, and every topic is [("technology", 0.8)]. *)
Definition mock_transform (model : unit) (documents : list string)
    : M World (list Z) :=
  fun w => (Ok (topic_indices w), w).

Definition mock_get_topic (model : unit) (topic : Z)
    : M World (list (string * QArith_base.Q)) :=
  fun w => (Ok [("technology", QArith_base.Qmake 4 5)], w).

Definition mock_pipeline_run (ner : unit) (text : string)
    : M World (list NerResult) :=
  fun w => (ner_results w, w).

Definition default_settings : Settings :=
  mkSettings "gpt-4o-mini" "gpt-4o-mini" "MaartenGr/BERTopic_Wikipedia" 3
    "dbmdz/bert-large-cased-finetuned-conll03-english".

(** The doubles together. The digest of some bytes are the bytes
    themselves and the prompts are the message. *)
Definition doubles : @Outside World unit unit unit unit QArith_base.Q :=
  mkOutside default_settings
    (fun data => Ok data)
    (fun _ => ret tt) (fun _ => ret tt) (fun _ _ => ret tt)
    mock_pipeline_run
    (fun _ _ => ret tt) mock_transform mock_get_topic
    scripted_chat_completion
    (fun _ text => text) (fun message _ => message)
    store_search_memories store_update_memories store_delete_memories
    store_index_long_term_memories counted_ulid.

(** The state of a process that has called nothing yet. *)
Definition fresh (w : World) : @State World unit unit unit :=
  mkState w [] None None None ∅ ∅.

(** ** Worlds and records of the scenarios *)

(** The world of the caching tests: the model finds topic 1. *)
Definition caching_world : World := mkWorld [] [] 0 [1] (Ok []).

(** The client would answer "not json", then a document without
    [topics], then a good one. *)
Definition topics_world : World :=
  mkWorld [response_with "not json"; response_with "{}";
           response_with (json_text "{'topics': ['a', 'b']}")]
    [] 0 [] (Ok []).

Definition no_text : MemoryRecord :=
  mkMemoryRecord "m0" EmptyString message [] [] "f".

Definition window_seats : MemoryRecord :=
  mkMemoryRecord "m1" "I always take a window seat" message [] [] "f".

(** Three malformed responses: no JSON, no JSON, and JSON that is a list
    and no dict. *)
Definition malformed_world : World :=
  mkWorld [response_with "not json"; response_with "{bad}"; response_with "[1]"]
    [no_text; window_seats] 0 [] (Ok []).

(** A store that holds one record without text. *)
Definition no_text_world : World := mkWorld [] [no_text] 0 [] (Ok []).


(** Thirty messages not yet extracted, and a client that finds no memory
    in any of them. *)
Definition thirty_messages : list MemoryRecord :=
  map (fun k => mkMemoryRecord ("m" +:+ pretty k) "hello" message [] [] "f")
      (seq 0 30).

Definition thirty_world : World :=
  mkWorld (replicate 30 (response_with (json_text "{'memories': []}")))
    thirty_messages 0 [] (Ok []).

End Doubles.

(** * Proof tools *)

(** Unfolding of the monad's combinators. *)
Ltac unfold_monad :=
  unfold bind, ret, raise, get, modify, lift, try_except in *; simpl in *.


(** * llms.py: the calls of the Anthropic wrapper *)
Module AnthropicCalls.
Import Json Llms.

(** A line feed. *)
Definition line_feed : string := String "010"%char EmptyString.

(** [d.get(key)] on a dict of strings given by its items. *)
Fixpoint items_get (d : list (string * string)) (key : string) : option string :=
  match d with
  | [] => None
  | (k, v) :: rest => if String.eqb k key then Some v else items_get rest key
  end.

(** [response.usage] of the Anthropic SDK: a dict, or an object with the
    attributes it has among [input_tokens] and [output_tokens]. *)
Inductive MessageUsage : Type :=
  | MessageUsageDict (d : gmap string Z)
  | MessageUsageObject (input_tokens output_tokens : option Z).

(** What [messages.create] returns: [content], when the response has
    the attribute, is a list of parts, each with its [text] when it has
    one; [usage] when the response has the attribute. *)
Record Message : Type := mkMessage {
  msg_content : option (list (option string));
  msg_usage : option MessageUsage;
}.

(** The keyword arguments of [messages.create]. *)
Record MessagesRequest : Type := mkMessagesRequest {
  mq_model : string;
  mq_messages : list (string * string);
  mq_max_tokens : Z;
}.

Section Calls.

(** [N] is the state of the network behind the SDK. *)
Context {N : Type}.

(** [client.messages.create] and [json.dumps(schema, indent=2)]. *)
Variable messages_create : AsyncAnthropic -> MessagesRequest -> M N Message.
Variable json_dumps_indent_2 : json -> string.

(** The prompt after the first [if]: the instruction to answer in JSON
    is added for the response format [json_object]. *)
Definition with_json_instruction (prompt : string)
    (response_format : option (list (string * string))) : string :=
  match nonempty response_format with
  | Some d =>
      match items_get d "type" with
      | Some t =>
          if String.eqb t "json_object"
          then (prompt ++ line_feed ++ line_feed
                ++ "You must respond with a valid JSON object.")%string
          else prompt
      | None => prompt
      end
  | None => prompt
  end.

(** The prompt after the second [if]: with functions and a function
    call, the schema of the first function is added;
    [functions[0]["parameters"]] may raise. *)
Definition with_function_schema (prompt : string)
    (functions : option (list json))
    (function_call : option (list (string * string))) : outcome string :=
  match nonempty functions, nonempty function_call with
  | Some (f :: _), Some _ =>
      match json_getitem f "parameters" with
      | Ok schema =>
          Ok (prompt ++ line_feed ++ line_feed
              ++ "You must respond with a JSON object matching this schema:"
              ++ line_feed ++ json_dumps_indent_2 schema)%string
      | Raise e => Raise e
      | Diverge => Diverge
      end
  | _, _ => Ok prompt
  end.

(** The text of the first part of the content, when there is one with
    a text; the empty string otherwise. *)
Definition first_text (response : Message) : string :=
  match msg_content response with
  | Some (Some t :: _) => t
  | _ => EmptyString
  end.

(** [input_tokens + output_tokens], each 0 when the usage lacks it. *)
Definition usage_total (response : Message) : Z :=
  match msg_usage response with
  | Some (MessageUsageDict d) =>
      default 0 (d !! "input_tokens") + default 0 (d !! "output_tokens")
  | Some (MessageUsageObject i o) => default 0 i + default 0 o
  | None => 0
  end.

(** [AnthropicClientWrapper.create_chat_completion]. The [except
    Exception] clause logs and re-raises. *)
Definition create_chat_completion (self : AnthropicClientWrapper)
    (model prompt : string)
    (response_format : option (list (string * string)))
    (functions : option (list json))
    (function_call : option (list (string * string)))
    : M N ChatResponse :=
  match aw_client self with
  | None => raise (ValueError "Anthropic API key is not configured")
  | Some client =>
      let prompt := with_json_instruction prompt response_format in
      let! prompt := lift (with_function_schema prompt functions function_call) in
      let! response :=
        messages_create client (mkMessagesRequest model [("user", prompt)] 1024) in
      let content := first_text response in
      let choices := [ChoiceDict content] in
      let usage : gmap string Z := {["total_tokens" := usage_total response]} in
      ret (ChatResponse_init choices usage)
  end.

(** [AnthropicClientWrapper.create_embedding]. *)
Definition create_embedding {F : Type} (self : AnthropicClientWrapper)
    (query_vec : list string) : M N (list (list F)) :=
  raise (NotImplementedError
           "Anthropic does not provide an embedding API. Please use OpenAI for embeddings.").

End Calls.

End AnthropicCalls.

(** * llms.py: runs and recordings for the statements *)
Module LlmsRuns.
Import Llms.

(** A sequence of calls of [get_model_client], each run whatever the
    one before returned or raised; the outcomes, in order. *)
Fixpoint get_model_clients (providers : list (ModelProvider + string))
    : Process -> list (outcome Client) * Process :=
  fun p =>
    match providers with
    | [] => ([], p)
    | provider :: rest =>
        let '(r, p1) := get_model_client provider p in
        let '(rs, p2) := get_model_clients rest p1 in
        (r :: rs, p2)
    end.




(** A process with a key and a base URL for OpenAI, and a key for
    Anthropic. *)
Definition full_process : Process :=
  mkProcess
    (<["OPENAI_API_KEY" := "sk-test"]>
       (<["OPENAI_API_BASE" := "http://localhost:8080/v1"]>
          {["ANTHROPIC_API_KEY" := "ak-test"]}))
    true true ∅ 0 [].

(** A process with no credentials. *)
Definition bare_process : Process := mkProcess ∅ true true ∅ 0 [].

End LlmsRuns.

(** * extraction.py: the orchestrator, and clients for the module *)
Module ExtractionRuns.
Import Json Llms Extraction.

(** The fields of [settings] that [handle_extraction] reads. *)
Record Switches : Type := mkSwitches {
  enable_topic_extraction : bool;
  topic_model_source : string;
  enable_ner : bool;
}.

Section Runs.

(** [Any] is the type of the untyped request parameters of the OpenAI
    SDK. *)
Context {W TopicModel NerModel Tokenizer Pipeline F Any : Type}.
Context `{ListOfSet}.

(** [list(set(topics))] on what [extract_topics_llm] returned, a JSON
    value of any kind: it raises on a value that cannot be iterated or
    has an item that cannot be hashed. *)
Variable json_list_set : json -> outcome json.

(** The operations of the two SDKs and [json.dumps(schema, indent=2)],
    which the clients of [get_model_client] call. *)
Variable chat_completions_create :
  AsyncOpenAI -> @ChatRequest Any -> M W ChatCompletion.
Variable messages_create :
  AsyncAnthropic -> AnthropicCalls.MessagesRequest -> M W AnthropicCalls.Message.
Variable json_dumps_indent_2 : json -> string.

Variable env : @Outside W TopicModel NerModel Tokenizer Pipeline F.

(** [env] with another client. *)
Definition with_client
    (client : string -> string -> list (string * string) -> M W ChatResponse)
    : @Outside W TopicModel NerModel Tokenizer Pipeline F :=
  mkOutside (settings env) (md5_hexdigest env)
    (AutoTokenizer_from_pretrained env)
    (AutoModelForTokenClassification_from_pretrained env)
    (pipeline env) (pipeline_run env) (BERTopic_load env) (transform env)
    (get_topic env) client (topics_prompt env)
    (DISCRETE_EXTRACTION_PROMPT_format env) (search_memories env)
    (update_memories env) (delete_memories env)
    (index_long_term_memories env) (new_ulid env).

(** [env] with another [search_memories]. *)
Definition with_search_memories
    (search : string -> string -> string -> nat -> nat -> M W (list MemoryRecord))
    : @Outside W TopicModel NerModel Tokenizer Pipeline F :=
  mkOutside (settings env) (md5_hexdigest env)
    (AutoTokenizer_from_pretrained env)
    (AutoModelForTokenClassification_from_pretrained env)
    (pipeline env) (pipeline_run env) (BERTopic_load env) (transform env)
    (get_topic env) (create_chat_completion env) (topics_prompt env)
    (DISCRETE_EXTRACTION_PROMPT_format env) search
    (update_memories env) (delete_memories env)
    (index_long_term_memories env) (new_ulid env).

(** The method of an Anthropic wrapper, called as the module calls its
    client: with [model], [prompt] and [response_format]. *)
Definition anthropic_client (self : AnthropicClientWrapper)
    : string -> string -> list (string * string) -> M W ChatResponse :=
  fun model prompt response_format =>
    AnthropicCalls.create_chat_completion messages_create json_dumps_indent_2
      self model prompt (Some response_format) None None.

(** The method of an OpenAI wrapper, called in the same way. *)
Definition openai_client (self : OpenAIClientWrapper)
    : string -> string -> list (string * string) -> M W ChatResponse :=
  fun model prompt response_format =>
    Llms.create_chat_completion chat_completions_create self model prompt
      (Some response_format) None None.

(** [client.create_chat_completion] for a client of
    [get_model_client]. *)
Definition client_method (client : Client)
    : string -> string -> list (string * string) -> M W ChatResponse :=
  match client with
  | OpenAIClient self => openai_client self
  | AnthropicClient self => anthropic_client self
  end.

(** Code that uses both modules runs on the process of llms.py and the
    state of extraction.py. *)
Definition in_llms {A} (m : M Process A)
    : M (Process * @State W TopicModel NerModel Tokenizer) A :=
  fun s => let '(r, p) := m s.1 in (r, (p, s.2)).

Definition in_extraction {A} (m : M (@State W TopicModel NerModel Tokenizer) A)
    : M (Process * @State W TopicModel NerModel Tokenizer) A :=
  fun s => let '(r, st) := m s.2 in (r, (s.1, st)).

(** [extract_topics_llm(text, num_topics)], called without a
    [client]: the client is the one [get_model_client] returns for the
    provider of [settings.topic_model], obtained before the first
    attempt and outside the retry loop. *)
Definition extract_topics_llm_without_client (text : string)
    (num_topics : option Z)
    : M (Process * @State W TopicModel NerModel Tokenizer) json :=
  let! config := lift (get_model_config (topic_model (settings env))) in
  let! _client := in_llms (get_model_client (inl (provider config))) in
  in_extraction
    (extract_topics_llm (with_client (client_method _client)) text num_topics).

(** [handle_extraction]. The topics are a list of strings (none, or
    those of BERTopic) or the value the LLM strategy returned. *)
Definition handle_extraction (switches : Switches) (text : string)
    : M (Process * @State W TopicModel NerModel Tokenizer)
        ((list string + json) * list string) :=
  let! topics :=
    if enable_topic_extraction switches then
      if String.eqb (topic_model_source switches) "BERTopic" then
        let! topics := in_extraction (extract_topics_bertopic env text None) in
        ret (inl topics)
      else
        let! topics := extract_topics_llm_without_client text None in
        ret (inr topics)
    else ret (inl []) in
  let! entities :=
    if enable_ner switches then in_extraction (extract_entities env text)
    else ret [] in
  let! topics :=
    match topics with
    | inl [] => ret (inl [])
    | inl (t :: ts) => ret (inl (list_set (t :: ts)))
    | inr v =>
        if json_truthy v
        then let! deduped := lift (json_list_set v) in ret (inr deduped)
        else ret (inr v)
    end in
  let entities :=
    match entities with
    | [] => []
    | e :: es => list_set (e :: es)
    end in
  ret (topics, entities).

(** *** For the statements *)

(** The document in a response: [json.loads] of the content of its
    first choice. *)
Definition response_document (response : ChatResponse) : outcome json :=
  let? 'content := first_message_content response in
  json_loads content.

(** The client answers the topics prompt [prompt] in world [w] by
    [response] and leaves the world as [w']. *)
Definition answers_topics (prompt : string) (w : W) (response : ChatResponse)
    (w' : W) : Prop :=
  create_chat_completion env (generation_model (settings env)) prompt
    [("type", "json_object")] w = (Ok response, w').

Definition is_pipeline_call (ev : Event) : bool :=
  match ev with
  | pipeline_call _ => true
  | _ => false
  end.

(** How often the NER pipeline was run. *)
Definition pipeline_calls (st : @State W TopicModel NerModel Tokenizer) : nat :=
  length (List.filter is_pipeline_call (trace st)).

Definition is_from_pretrained_call (ev : Event) : bool :=
  match ev with
  | from_pretrained_call _ => true
  | _ => false
  end.



(** [bool(memory.text)]. *)
Definition has_text (memory : MemoryRecord) : bool :=
  negb (String.eqb (text memory) EmptyString).

(** The copy of a record that [update_memories] receives. *)
Definition flagged (memory : MemoryRecord) : MemoryRecord :=
  model_copy_discrete_memory_extracted memory "t".

End Runs.

End ExtractionRuns.

(** * More doubles *)
Module MoreDoubles.
Import Json Llms Extraction Doubles ExtractionRuns.

(** An Anthropic SDK that answers every request by [message] and
    records the request. *)
Definition recording_messages (message : AnthropicCalls.Message)
    (client : AsyncAnthropic) (request : AnthropicCalls.MessagesRequest)
    : M (list AnthropicCalls.MessagesRequest) AnthropicCalls.Message :=
  fun log => (Ok message, log ++ [request]).

(** A world of the doubles with these records in store and this script
    for the client. *)
Definition world_with (script : list (outcome ChatResponse))
    (records : list MemoryRecord) : World :=
  mkWorld script records 0 [] (Ok []).

(** The switches for BERTopic and NER. *)
Definition bertopic_and_ner : Switches := mkSwitches true "BERTopic" true.

(** The switches for topics by the LLM, and NER. *)
Definition llm_and_ner : Switches := mkSwitches true "LLM" true.

(** An Anthropic SDK that answers every request by [message]. *)
Definition constant_messages (message : AnthropicCalls.Message)
    (client : AsyncAnthropic) (request : AnthropicCalls.MessagesRequest)
    : M World AnthropicCalls.Message :=
  fun w => (Ok message, w).

(** An Anthropic wrapper with a client, and a message of the SDK with
    one part of text. *)
Definition anthropic_wrapper : AnthropicClientWrapper :=
  mkAnthropicClientWrapper 0 (Some "ak-test")
    (Some (mkAsyncAnthropic 1 (Some "ak-test"))).

Definition topics_message : AnthropicCalls.Message :=
  AnthropicCalls.mkMessage (Some [Some (json_text "{'topics': ['a']}")])
    (Some (AnthropicCalls.MessageUsageObject (Some 10) (Some 5))).

(** [json.dumps] is not needed where no function schema is sent. *)
Definition no_dumps (v : json) : string := EmptyString.

(** An OpenAI SDK that answers every request by a completion without
    choices. *)
Definition empty_completions (client : AsyncOpenAI) (request : @ChatRequest unit)
    : M World ChatCompletion :=
  fun w => (Ok (mkChatCompletion [] None), w).

(** The text of one surrogate, U+D800, as [json.loads] gives it for
    the escape of that code point alone. *)
Definition lone_surrogate : string :=
  String (Json.byte 237) (String (Json.byte 160) (String (Json.byte 128) EmptyString)).

(** A JSON string that holds the escape of U+D800. *)
Definition lone_surrogate_document : string := json_text "'\ud800'".

(** An adapter that does not honour the offset: every search returns
    the same page of 25 records. *)
Definition offset_blind_search
    (query memory_type discrete_memory_extracted : string)
    (limit offset : nat) : M World (list MemoryRecord) :=
  fun w => (Ok (replicate 25 window_seats), w).

(** The NER pipeline finds "Trek", "##520", "Paris", "Trek", "##520",
    and the topic model assigns topic 1 twice. *)
Definition trek_results : list NerResult :=
  [mkNerResult "Trek" "B-ORG"; mkNerResult "##520" "I-ORG";
   mkNerResult "Paris" "B-LOC";
   mkNerResult "Trek" "B-ORG"; mkNerResult "##520" "I-ORG"].

Definition trek_world : World := mkWorld [] [] 0 [1; 1] (Ok trek_results).

End MoreDoubles.

(** * The monad's laws *)

(** The monad's associativity and the congruence of [bind], on a
    state. *)
Lemma bind_assoc {S A B C} (m : M S A) (f : A -> M S B) (g : B -> M S C) (s : S) :
  bind (bind m f) g s = bind m (fun a => bind (f a) g) s.
Proof.
  unfold bind. destruct (m s) as [[a | e |] s']; reflexivity.
Qed.

Lemma bind_ext {S A B} (m : M S A) (f g : A -> M S B) (s : S) :
  (forall a s', f a s' = g a s') -> bind m f s = bind m g s.
Proof.
  intros Hfg. unfold bind. destruct (m s) as [[a | e |] s']; auto.
Qed.

(** * Theorems about llms.py *)
Module LlmsSpec.
Import Llms.

Lemma MODEL_CONFIGS_default : MODEL_CONFIGS !! "gpt-4o-mini" = Some default_config.
Proof. vm_compute. reflexivity. Qed.

Lemma get_model_config_present (model_name : string) (cfg : ModelConfig) :
  MODEL_CONFIGS !! model_name = Some cfg -> get_model_config model_name = Ok cfg.
Proof.
  intros Hin. unfold get_model_config, MODEL_CONFIGS_getitem.
  rewrite bool_decide_true by (rewrite Hin; eauto).
  rewrite Hin. reflexivity.
Qed.

Lemma get_model_config_absent (model_name : string) :
  MODEL_CONFIGS !! model_name = None -> get_model_config model_name = Ok default_config.
Proof.
  intros Hout. unfold get_model_config, MODEL_CONFIGS_getitem.
  rewrite bool_decide_false by (rewrite Hout; intros [? ?]; discriminate).
  rewrite MODEL_CONFIGS_default. reflexivity.
Qed.

Lemma MODEL_CONFIGS_keys_NoDup : NoDup (MODEL_CONFIGS_items.*1).
Proof. apply (bool_decide_unpack _). vm_compute. reflexivity. Qed.

(** C8: [get_model_config] always returns a config and never raises; a
    name absent from [MODEL_CONFIGS] gets the config of gpt-4o-mini, a
    name of the table gets the table's config (every item of the dict
    literal is found under its key); "gpt-4o" is an OpenAI model with
    128000 tokens and "claude-3-sonnet-20240229" an Anthropic model with
    200000. *)
Theorem get_model_config_total :
  (forall model_name, exists cfg, get_model_config model_name = Ok cfg) /\
  (forall model_name, MODEL_CONFIGS !! model_name = None ->
     get_model_config model_name = Ok default_config) /\
  (forall model_name cfg, MODEL_CONFIGS !! model_name = Some cfg ->
     get_model_config model_name = Ok cfg) /\
  (forall model_name cfg, (model_name, cfg) ∈ MODEL_CONFIGS_items ->
     get_model_config model_name = Ok cfg) /\
  (provider <$> MODEL_CONFIGS !! "gpt-4o-mini" = Some OPENAI) /\
  (exists cfg, get_model_config "gpt-4o" = Ok cfg /\
     provider cfg = OPENAI /\ max_tokens cfg = 128000) /\
  (exists cfg, get_model_config "claude-3-sonnet-20240229" = Ok cfg /\
     provider cfg = ANTHROPIC /\ max_tokens cfg = 200000).
Proof.
  repeat split.
  - intros model_name. destruct (MODEL_CONFIGS !! model_name) as [cfg|] eqn:E.
    + exists cfg. by apply get_model_config_present.
    + exists default_config. by apply get_model_config_absent.
  - apply get_model_config_absent.
  - apply get_model_config_present.
  - intros model_name cfg Hin. apply get_model_config_present.
    apply elem_of_list_to_map_1; [apply MODEL_CONFIGS_keys_NoDup | done].
  - eexists. split; [vm_compute; reflexivity | done].
  - eexists. split; [vm_compute; reflexivity | done].
Qed.

(** *** The constructor of the OpenAI wrapper *)

(** The constructor in closed form, for an API key that is set and a
    base URL that is not, when the [openai] package was imported. *)
Lemma OpenAIClientWrapper_init_no_base_url
    (api_key base_url : option string) (p : Process) :
  truthy (py_or api_key (environ p !! "OPENAI_API_KEY")) = true ->
  truthy (py_or base_url (environ p !! "OPENAI_API_BASE")) = false ->
  AsyncOpenAI_imported p = true ->
  exists p',
    OpenAIClientWrapper_init api_key base_url p =
      (Ok (mkOpenAIClientWrapper (next_id p)
             (py_or api_key (environ p !! "OPENAI_API_KEY"))
             (py_or base_url (environ p !! "OPENAI_API_BASE")) None None), p').
Proof.
  intros Hkey Hbase Himp.
  unfold OpenAIClientWrapper_init, record_constructor_call, new_object,
    environ_get, AsyncOpenAI_call.
  unfold_monad.
  repeat (first [rewrite Hkey | rewrite Hbase | rewrite Himp]; simpl).
  eauto.
Qed.

(** Without the package the same construction raises before an instance
    exists. *)
Lemma OpenAIClientWrapper_init_not_imported
    (api_key base_url : option string) (p : Process) :
  truthy (py_or api_key (environ p !! "OPENAI_API_KEY")) = true ->
  AsyncOpenAI_imported p = false ->
  exists p', OpenAIClientWrapper_init api_key base_url p = (Raise TypeError, p').
Proof.
  intros Hkey Himp.
  unfold OpenAIClientWrapper_init, record_constructor_call, new_object,
    environ_get, AsyncOpenAI_call.
  unfold_monad.
  repeat (first [rewrite Hkey | rewrite Himp]; simpl).
  destruct (truthy (py_or base_url _)); simpl;
    repeat (first [rewrite Hkey | rewrite Himp]; simpl); eauto.
Qed.

(** C2: built with an API key (argument or environment) that is not
    empty and with no base URL (argument and environment both absent or
    empty), the wrapper the constructor returns has [completion_client]
    and [embedding_client] set to [None], and it does return one when the
    [openai] package is there; on that instance every call of
    [create_chat_completion] and of [create_embedding] raises
    [ValueError("OpenAI API key is not configured")] without reaching the
    network. *)
Theorem OpenAIClientWrapper_without_base_url_has_no_clients
    (api_key base_url : option string) (p : Process) :
  truthy (py_or api_key (environ p !! "OPENAI_API_KEY")) = true ->
  truthy (py_or base_url (environ p !! "OPENAI_API_BASE")) = false ->
  (AsyncOpenAI_imported p = true ->
     exists self p', OpenAIClientWrapper_init api_key base_url p = (Ok self, p')) /\
  (forall self p',
     OpenAIClientWrapper_init api_key base_url p = (Ok self, p') ->
     completion_client self = None /\
     embedding_client self = None /\
     (forall (Any F N : Type)
             (chat_completions_create : AsyncOpenAI -> @ChatRequest Any -> M N ChatCompletion)
             model prompt response_format functions function_call (n : N),
        create_chat_completion chat_completions_create self model prompt
          response_format functions function_call n =
        (Raise (ValueError "OpenAI API key is not configured"), n)) /\
     (forall (F N : Type)
             (embeddings_create : AsyncOpenAI -> string -> list string -> M N (list (list F)))
             query_vec (n : N),
        create_embedding embeddings_create self query_vec n =
        (Raise (ValueError "OpenAI API key is not configured"), n))).
Proof.
  intros Hkey Hbase. split.
  - intros Himp.
    destruct (OpenAIClientWrapper_init_no_base_url api_key base_url p Hkey Hbase Himp)
      as [p' Hinit].
    eauto.
  - intros self p' Hinit.
    assert (Hnone : completion_client self = None /\ embedding_client self = None).
    { destruct (AsyncOpenAI_imported p) eqn:Himp.
      - destruct (OpenAIClientWrapper_init_no_base_url api_key base_url p Hkey Hbase Himp)
          as [p'' Hclosed].
        rewrite Hclosed in Hinit. injection Hinit as <- _. split; reflexivity.
      - destruct (OpenAIClientWrapper_init_not_imported api_key base_url p Hkey Himp)
          as [p'' Hclosed].
        rewrite Hclosed in Hinit. discriminate. }
    destruct Hnone as [Hc He]. repeat split; try assumption.
    + intros. unfold create_chat_completion. rewrite Hc. reflexivity.
    + intros. unfold create_embedding. rewrite He. reflexivity.
Qed.

Lemma OpenAIClientWrapper_without_base_url_witness :
  truthy (py_or None (environ test_process !! "OPENAI_API_KEY")) = true /\
  truthy (py_or None (environ test_process !! "OPENAI_API_BASE")) = false /\
  exists self p',
    OpenAIClientWrapper_init None None test_process = (Ok self, p') /\
    completion_client self = None.
Proof.
  assert (Hkey : truthy (py_or None (environ test_process !! "OPENAI_API_KEY")) = true)
    by (vm_compute; reflexivity).
  assert (Hbase : truthy (py_or None (environ test_process !! "OPENAI_API_BASE")) = false)
    by (vm_compute; reflexivity).
  split; [exact Hkey | split; [exact Hbase |]].
  destruct (OpenAIClientWrapper_without_base_url_has_no_clients
              None None test_process Hkey Hbase) as [Hret Hnone].
  destruct (Hret eq_refl) as (self & p' & Hinit).
  exists self, p'. split; [exact Hinit |].
  exact (proj1 (Hnone self p' Hinit)).
Defined.

(** *** The client cache *)

(** A cached client is returned as it is; nothing in the process
    changes. *)
Lemma get_model_client_hit
    (provider : ModelProvider + string) (key : ModelProvider)
    (client : Client) (p : Process) :
  provider_enum_of provider = Ok key ->
  _model_clients p !! key = Some client ->
  get_model_client provider p = (Ok client, p).
Proof.
  intros Hkey Hhit. unfold get_model_client. unfold_monad.
  destruct provider as [q | s]; simpl in Hkey.
  - injection Hkey as ->. rewrite Hhit.
    rewrite bool_decide_true by eauto. simpl. rewrite Hhit. reflexivity.
  - rewrite Hkey. rewrite Hhit.
    rewrite bool_decide_true by eauto. simpl. rewrite Hhit. reflexivity.
Qed.

(** The constructors leave the cache alone and call exactly one wrapper
    constructor. *)
Lemma OpenAIClientWrapper_init_frame
    (api_key base_url : option string) (p p' : Process)
    (r : outcome OpenAIClientWrapper) :
  OpenAIClientWrapper_init api_key base_url p = (r, p') ->
  _model_clients p' = _model_clients p /\
  constructor_calls p' = OPENAI :: constructor_calls p.
Proof.
  unfold OpenAIClientWrapper_init, record_constructor_call, new_object,
    environ_get, AsyncOpenAI_call.
  unfold_monad. intros H.
  repeat match type of H with
         | context [if ?b then _ else _] => destruct b; simpl in H
         end;
    injection H as <- <-; split; reflexivity.
Qed.

Lemma AnthropicClientWrapper_init_frame
    (api_key : option string) (p p' : Process)
    (r : outcome AnthropicClientWrapper) :
  AnthropicClientWrapper_init api_key p = (r, p') ->
  _model_clients p' = _model_clients p /\
  constructor_calls p' = ANTHROPIC :: constructor_calls p.
Proof.
  unfold AnthropicClientWrapper_init, record_constructor_call, new_object,
    environ_get, AsyncAnthropic_call.
  unfold_monad. intros H.
  repeat match type of H with
         | context [if ?b then _ else _] => destruct b; simpl in H
         end;
    injection H as <- <-; split; reflexivity.
Qed.

#[local] Arguments OpenAIClientWrapper_init : simpl never.
#[local] Arguments AnthropicClientWrapper_init : simpl never.

(** A call that returns a client leaves that client in the cache under
    the call's key, and called the key's constructor at most once. *)
Lemma get_model_client_returns
    (provider : ModelProvider + string) (client : Client) (p p1 : Process) :
  get_model_client provider p = (Ok client, p1) ->
  exists key,
    provider_enum_of provider = Ok key /\
    _model_clients p1 !! key = Some client /\
    (constructions key p1 <= S (constructions key p))%nat /\
    (is_Some (_model_clients p !! key) -> p1 = p).
Proof.
  unfold get_model_client. intros H.
  destruct (provider_enum_of provider) as [key | e |] eqn:Hkey.
  2,3: destruct provider as [q | s]; simpl in Hkey; [discriminate |];
       unfold bind at 1 in H; unfold lift in H; rewrite Hkey in H; discriminate.
  exists key. split; [reflexivity |].
  assert (Hbody :
    (let! p0 := get in
     let! _ :=
       if negb (bool_decide (is_Some (_model_clients p0 !! key))) then
         let! client0 :=
           match key with
           | OPENAI =>
               let! k := environ_get "OPENAI_API_KEY" in
               let! w := OpenAIClientWrapper_init k None in
               ret (OpenAIClient w)
           | ANTHROPIC =>
               let! k := environ_get "ANTHROPIC_API_KEY" in
               let! w := AnthropicClientWrapper_init k in
               ret (AnthropicClient w)
           end in
         modify (set_model_clients <[key := client0]>)
       else ret tt in
     let! p' := get in
     match _model_clients p' !! key with
     | Some c => ret c
     | None => raise (KeyError (ModelProvider_value key))
     end) p = (Ok client, p1)).
  { destruct provider as [q | s]; simpl in Hkey.
    - injection Hkey as ->. exact H.
    - unfold bind at 1 in H. unfold lift in H. rewrite Hkey in H. exact H. }
  clear H. unfold bind at 1 in Hbody. unfold get at 1 in Hbody.
  destruct (_model_clients p !! key) as [c0 |] eqn:Hcache.
  - unfold_monad. rewrite Hcache in Hbody. simpl in Hbody.
    injection Hbody as <- <-.
    repeat split; [assumption | lia].
  - unfold bind at 1 in Hbody.
    rewrite bool_decide_false in Hbody by (intros [? ?]; discriminate).
    cbn [negb] in Hbody. unfold bind at 1 in Hbody.
    destruct key; unfold environ_get in Hbody; unfold_monad.
    + destruct (OpenAIClientWrapper_init (environ p !! "OPENAI_API_KEY") None p)
        as [[w | e |] p'] eqn:Hinit; try discriminate.
      apply OpenAIClientWrapper_init_frame in Hinit as [Hc Hn].
      unfold set_model_clients at 1 in Hbody. cbn [_model_clients] in Hbody.
      rewrite lookup_insert_eq in Hbody.
      injection Hbody as <- <-. cbn [set_model_clients _model_clients].
      rewrite lookup_insert_eq.
      repeat split; [| intros [? ?]; discriminate].
      unfold constructions. simpl. rewrite Hn. rewrite filter_cons_True by done.
      simpl. lia.
    + destruct (AnthropicClientWrapper_init (environ p !! "ANTHROPIC_API_KEY") p)
        as [[w | e |] p'] eqn:Hinit; try discriminate.
      apply AnthropicClientWrapper_init_frame in Hinit as [Hc Hn].
      unfold set_model_clients at 1 in Hbody. cbn [_model_clients] in Hbody.
      rewrite lookup_insert_eq in Hbody.
      injection Hbody as <- <-. cbn [set_model_clients _model_clients].
      rewrite lookup_insert_eq.
      repeat split; [| intros [? ?]; discriminate].
      unfold constructions. simpl. rewrite Hn. rewrite filter_cons_True by done.
      simpl. lia.
Qed.

(** C6: when a call of [get_model_client] returns a client, the next
    call for the same provider (given as the enum member or as its
    string) returns that same instance and leaves the whole process as it
    was, so it calls no constructor and allocates no object; the first
    call itself called the provider's constructor at most once. *)
Theorem get_model_client_same_instance
    (provider provider' : ModelProvider + string)
    (client : Client) (p p1 : Process) :
  get_model_client provider p = (Ok client, p1) ->
  provider_enum_of provider' = provider_enum_of provider ->
  get_model_client provider' p1 = (Ok client, p1) /\
  (forall key, provider_enum_of provider = Ok key ->
     (constructions key p1 <= S (constructions key p))%nat).
Proof.
  intros Hfirst Hsame.
  destruct (get_model_client_returns provider client p p1 Hfirst)
    as (key & Hkey & Hcached & Hcount & _).
  split.
  - apply get_model_client_hit with (key := key); [congruence | assumption].
  - intros key' Hkey'. rewrite Hkey in Hkey'. injection Hkey' as <-. exact Hcount.
Qed.

Lemma get_model_client_same_instance_witness :
  exists client p1,
    get_model_client (inl OPENAI) test_process = (Ok client, p1) /\
    get_model_client (inr "openai") p1 = (Ok client, p1) /\
    constructions OPENAI p1 = 1%nat.
Proof.
  eexists _, _.
  assert (Hfirst : get_model_client (inl OPENAI) test_process =
                   (Ok (OpenAIClient (mkOpenAIClientWrapper 0 (Some "test-key") None None None)),
                    set_model_clients
                      <[OPENAI := OpenAIClient (mkOpenAIClientWrapper 0 (Some "test-key") None None None)]>
                      (mkProcess {["OPENAI_API_KEY" := "test-key"]} true true ∅ 3 [OPENAI])))
    by (vm_compute; reflexivity).
  split; [exact Hfirst |]. split.
  - exact (proj1 (get_model_client_same_instance (inl OPENAI) (inr "openai") _ _ _
                    Hfirst eq_refl)).
  - reflexivity.
Defined.

End LlmsSpec.

(** * Theorems about extraction.py *)
Module ExtractionSpec.
Import Json Llms Extraction.

(** ** Grouping of the tokens *)

Lemma strip_prefix_append (p s : string) : strip_prefix p (p ++ s) = Some s.
Proof.
  induction p as [| a p IH]; simpl; [reflexivity |].
  rewrite Ascii.eqb_refl. exact IH.
Qed.

Lemma group_tokens_continuations
    (continuations rest current_entity entities : list string) :
  group_tokens (map (String.append "##") continuations ++ rest)
    current_entity entities =
  group_tokens rest (current_entity ++ continuations) entities.
Proof.
  revert current_entity.
  induction continuations as [| c cs IH]; intros current_entity.
  - simpl. rewrite app_nil_r. reflexivity.
  - cbn [map app group_tokens]. rewrite strip_prefix_append.
    rewrite IH. rewrite <- app_assoc. reflexivity.
Qed.

Lemma group_tokens_words (words : list pieces) :
  Forall unmarked words ->
  forall first continuations entities,
    close_entity
      (group_tokens (words ≫= tokens_of) (first :: continuations) entities) =
    entities ++ join (first :: continuations) :: map whole_word words.
Proof.
  induction 1 as [| w words Hw _ IH]; intros first continuations entities.
  - reflexivity.
  - destruct w as [head cs]. unfold unmarked in Hw. cbn [fst] in Hw.
    cbn [mbind list_bind tokens_of fst snd app group_tokens].
    rewrite Hw. rewrite group_tokens_continuations.
    change ([head] ++ cs) with (head :: cs).
    rewrite IH. rewrite <- app_assoc. reflexivity.
Qed.

Lemma group_entities_close (results : list NerResult) :
  group_entities results = close_entity (group_tokens (map word results) [] []).
Proof.
  unfold group_entities, close_entity.
  destruct (group_tokens (map word results) [] []) as [current entities].
  reflexivity.
Qed.

(** Continuation tokens join the entity before them: when the words of
    the results are the tokens of a list of words, the entities are
    those words, whole and in order. *)
Lemma group_entities_whole_words (results : list NerResult) (words : list pieces) :
  Forall unmarked words ->
  map word results = words ≫= tokens_of ->
  group_entities results = map whole_word words.
Proof.
  intros Hwords Htokens. rewrite group_entities_close, Htokens.
  destruct Hwords as [| w words Hw Hwords]; [reflexivity |].
  destruct w as [head cs]. unfold unmarked in Hw. cbn [fst] in Hw.
  cbn [mbind list_bind tokens_of fst snd app group_tokens].
  rewrite Hw. rewrite group_tokens_continuations.
  change ([head] ++ cs) with (head :: cs).
  rewrite (group_tokens_words words Hwords). reflexivity.
Qed.

(** ** The code on any collaborators *)

Section OnAnyCollaborators.

Context {W TopicModel NerModel Tokenizer Pipeline F : Type}.
Context `{ListOfSet}.
Variable env : @Outside W TopicModel NerModel Tokenizer Pipeline F.

#[local] Abbreviation State := (@State W TopicModel NerModel Tokenizer).

Lemma call_inv {A} (ev : Event) (op : M W A) (st st' : State) (r : outcome A) :
  call ev op st = (r, st') ->
  exists w, op (world st) = (r, w) /\ st' = after_call ev w st.
Proof.
  unfold call. destruct (op (world st)) as [r' w] eqn:Hop.
  intros [= <- <-]. eauto.
Qed.

Lemma call_after {A} (ev : Event) (op : M W A) (st : State) (r : outcome A) (w : W) :
  op (world st) = (r, w) -> call ev op st = (r, after_call ev w st).
Proof. intros Hop. unfold call. rewrite Hop. reflexivity. Qed.

(** *** Entities *)


(** With the key of the text in hand, [extract_entities] is its
    body after the first line. *)
Lemma extract_entities_with_key (text key : string) (st : State) :
  _entity_cache_key env text = Ok key ->
  extract_entities env text st =
    match _entity_cache st !! key with
    | Some (e :: cached) => ret (e :: cached)
    | _ =>
        try_except
          (let! ner := get_ner_model env in
           let! results := call (pipeline_call text) (pipeline_run env ner text) in
           let entities := group_entities results in
           let deduped := list_set entities in
           let! _ :=
             modify (fun st =>
               set_entity_cache (<[key := deduped]> (_entity_cache st)) st) in
           ret deduped)
          (fun _ => ret [])
    end st.
Proof.
  intros Hkey. unfold extract_entities.
  unfold bind at 1. unfold lift at 1. rewrite Hkey.
  unfold bind at 1. unfold get at 1. reflexivity.
Qed.

(** What computing the key raises, [extract_entities] raises, before
    it has done anything. *)
Lemma extract_entities_key_raises (text : string) (st : State) (e : exn) :
  _entity_cache_key env text = Raise e ->
  extract_entities env text st = (Raise e, st).
Proof.
  intros Hkey. unfold extract_entities.
  unfold bind at 1. unfold lift at 1. rewrite Hkey. reflexivity.
Qed.

(** A text with a surrogate has no key: encoding it raises. *)
Lemma entity_cache_key_of_surrogate (text : string) :
  has_surrogate text = true ->
  _entity_cache_key env text = Raise UnicodeEncodeError.
Proof.
  intros Hs. unfold _entity_cache_key, str_encode. rewrite Hs. reflexivity.
Qed.

Lemma extract_entities_returns (text key : string) (st st1 : State)
    (ner : Pipeline) (results : list NerResult) (w2 : W) :
  _entity_cache_key env text = Ok key ->
  entity_cache_miss key st ->
  get_ner_model env st = (Ok ner, st1) ->
  pipeline_run env ner text (world st1) = (Ok results, w2) ->
  extract_entities env text st =
    (Ok (list_set (group_entities results)),
     set_entity_cache
       (<[key := list_set (group_entities results)]> (_entity_cache st1))
       (after_call (pipeline_call text) w2 st1)).
Proof.
  intros Hkey Hmiss Hner Hrun. rewrite (extract_entities_with_key _ _ _ Hkey).
  destruct (_entity_cache st !! key) as [[| e cached] |] eqn:Hc;
    [| exfalso; exact (Hmiss e cached Hc) |];
    unfold try_except, bind; rewrite Hner; unfold call; rewrite Hrun;
    reflexivity.
Qed.

Lemma extract_entities_model_failure (text key : string) (st st1 : State)
    (e : exn) :
  _entity_cache_key env text = Ok key ->
  entity_cache_miss key st ->
  get_ner_model env st = (Raise e, st1) ->
  extract_entities env text st = (Ok [], st1).
Proof.
  intros Hkey Hmiss Hner. rewrite (extract_entities_with_key _ _ _ Hkey).
  destruct (_entity_cache st !! key) as [[| e' cached] |] eqn:Hc;
    [| exfalso; exact (Hmiss e' cached Hc) |];
    unfold try_except, bind; rewrite Hner; reflexivity.
Qed.

Lemma extract_entities_pipeline_failure (text key : string) (st st1 : State)
    (ner : Pipeline) (e : exn) (w2 : W) :
  _entity_cache_key env text = Ok key ->
  entity_cache_miss key st ->
  get_ner_model env st = (Ok ner, st1) ->
  pipeline_run env ner text (world st1) = (Raise e, w2) ->
  extract_entities env text st = (Ok [], after_call (pipeline_call text) w2 st1).
Proof.
  intros Hkey Hmiss Hner Hrun. rewrite (extract_entities_with_key _ _ _ Hkey).
  destruct (_entity_cache st !! key) as [[| e' cached] |] eqn:Hc;
    [| exfalso; exact (Hmiss e' cached Hc) |];
    unfold try_except, bind; rewrite Hner; unfold call; rewrite Hrun;
    reflexivity.
Qed.

Lemma extract_entities_never_raises (text key : string) (st st' : State)
    (e : exn) :
  _entity_cache_key env text = Ok key ->
  extract_entities env text st <> (Raise e, st').
Proof.
  intros Hkey. rewrite (extract_entities_with_key _ _ _ Hkey).
  destruct (_entity_cache st !! key) as [[| e' cached] |];
    try discriminate;
    unfold try_except;
    match goal with
    | |- context [match ?body st with _ => _ end] =>
        destruct (body st) as [[entities | e'' |] st'']
    end; discriminate.
Qed.

(** C9, as amended: [extract_entities] computes the cache key of the
    text before its [try], so what that raises, the function raises,
    having done nothing: a text with a surrogate code point cannot be
    encoded and gives a [UnicodeEncodeError]. Once the key is computed
    the function never raises, whatever the models and the pipeline do:
    on a cache miss, when the pipeline returns its results, the entities
    are the grouping of the results' words, listed without duplicates
    (and the list is cached under the text's key), and when loading the
    models or running the pipeline raises, the result is the empty list.
    The grouping appends each continuation token (a word that starts
    with [##]) to the entity before it, so the results of a list of
    words are those words, whole and in order, and the tokens "Trek",
    "##520" are the one entity "Trek520". *)
Theorem extract_entities_groups_dedups_never_raises
    (text : string) (st : State) :
  (forall e st',
     extract_entities env text st = (Raise e, st') <->
     _entity_cache_key env text = Raise e /\ st' = st) /\
  (has_surrogate text = true ->
   extract_entities env text st = (Raise UnicodeEncodeError, st)) /\
  (has_surrogate text = false ->
   _entity_cache_key env text = md5_hexdigest env text) /\
  (forall key st1 ner results w2,
     _entity_cache_key env text = Ok key ->
     entity_cache_miss key st ->
     get_ner_model env st = (Ok ner, st1) ->
     pipeline_run env ner text (world st1) = (Ok results, w2) ->
     exists entities st',
       extract_entities env text st = (Ok entities, st') /\
       entities = list_set (group_entities results) /\
       NoDup entities /\
       (forall x, x ∈ entities <-> x ∈ group_entities results) /\
       _entity_cache st' !! key = Some entities) /\
  (forall key st1 e,
     _entity_cache_key env text = Ok key ->
     entity_cache_miss key st ->
     get_ner_model env st = (Raise e, st1) ->
     extract_entities env text st = (Ok [], st1)) /\
  (forall key st1 ner e w2,
     _entity_cache_key env text = Ok key ->
     entity_cache_miss key st ->
     get_ner_model env st = (Ok ner, st1) ->
     pipeline_run env ner text (world st1) = (Raise e, w2) ->
     extract_entities env text st = (Ok [], after_call (pipeline_call text) w2 st1)) /\
  (forall results words,
     Forall unmarked words ->
     map word results = words ≫= tokens_of ->
     group_entities results = map whole_word words) /\
  (forall label label',
     group_entities [mkNerResult "Trek" label; mkNerResult "##520" label'] =
     ["Trek520"]).
Proof.
  split; [| split; [| split; [| split; [| split; [| split; [| split]]]]]].
  - intros e st'. split.
    + destruct (_entity_cache_key env text) as [key | e0 |] eqn:Hkey.
      * intros Hraise. exfalso.
        exact (extract_entities_never_raises _ _ _ _ _ Hkey Hraise).
      * rewrite (extract_entities_key_raises _ _ _ Hkey).
        intros [= <- <-]. split; reflexivity.
      * unfold extract_entities. unfold bind at 1. unfold lift at 1.
        rewrite Hkey. discriminate.
    + intros [Hkey ->]. apply extract_entities_key_raises. exact Hkey.
  - intros Hs. apply extract_entities_key_raises.
    apply entity_cache_key_of_surrogate. exact Hs.
  - intros Hs. unfold _entity_cache_key, str_encode. rewrite Hs. reflexivity.
  - intros key st1 ner results w2 Hkey Hmiss Hner Hrun.
    eexists _, _.
    split; [exact (extract_entities_returns _ _ _ _ _ _ _ Hkey Hmiss Hner Hrun) |].
    split; [reflexivity |]. split; [apply list_set_NoDup |].
    split; [apply elem_of_list_set |].
    cbn [set_entity_cache _entity_cache]. apply lookup_insert_eq.
  - intros key st1 e. apply extract_entities_model_failure.
  - intros key st1 ner e w2. apply extract_entities_pipeline_failure.
  - apply group_entities_whole_words.
  - intros label label'. reflexivity.
Qed.

(** *** Topics, with BERTopic *)

Lemma transform_calls_after_call (ev : Event) (w : W) (st : State) :
  transform_calls (after_call ev w st) =
    (transform_calls st + if is_transform_call ev then 1 else 0)%nat.
Proof.
  unfold transform_calls, after_call. cbn [trace].
  rewrite List.filter_app, length_app.
  simpl. destruct (is_transform_call ev); reflexivity.
Qed.

Lemma get_topic_model_frame (st st' : State) (r : outcome TopicModel) :
  get_topic_model env st = (r, st') ->
  _bertopic_cache st' = _bertopic_cache st /\
  transform_calls st' = transform_calls st.
Proof.
  unfold get_topic_model. unfold bind at 1. unfold get at 1.
  destruct (_topic_model st) as [model |].
  - intros [= <- <-]. split; reflexivity.
  - unfold bind at 1.
    destruct (call _ _ st) as [r1 st1] eqn:Hcall.
    apply call_inv in Hcall as (w & _ & ->).
    destruct r1 as [model | e |]; unfold_monad; intros [= <- <-];
      (split; [reflexivity |]).
    + change (transform_calls
                (after_call (BERTopic_load_call (topic_model_path (settings env))
                               "all-MiniLM-L6-v2") w st) = transform_calls st).
      rewrite transform_calls_after_call. simpl. lia.
    + rewrite transform_calls_after_call. simpl. lia.
    + rewrite transform_calls_after_call. simpl. lia.
Qed.

Lemma collect_topics_frame (model : TopicModel) (_num_topics : Z)
    (indices : list Z) :
  forall (i : Z) (topics : list string) (st st' : State)
         (r : outcome (list string)),
    collect_topics env model _num_topics indices i topics st = (r, st') ->
    _bertopic_cache st' = _bertopic_cache st /\
    transform_calls st' = transform_calls st.
Proof.
  induction indices as [| topic_idx rest IH]; intros i topics st st' r.
  - intros [= <- <-]. split; reflexivity.
  - cbn [collect_topics].
    destruct (negb (_num_topics =? 0) && (_num_topics <=? i)).
    { intros [= <- <-]. split; reflexivity. }
    destruct (negb (topic_idx =? -1)); [| apply IH].
    unfold bind at 1.
    destruct (call _ _ st) as [r1 st1] eqn:Hcall.
    apply call_inv in Hcall as (w & _ & ->).
    assert (Hframe :
      _bertopic_cache (after_call (get_topic_call topic_idx) w st) =
        _bertopic_cache st /\
      transform_calls (after_call (get_topic_call topic_idx) w st) =
        transform_calls st).
    { split; [reflexivity |]. rewrite transform_calls_after_call. simpl. lia. }
    destruct Hframe as [Hc' Ht'].
    destruct r1 as [topic_info | e |].
    + intros Hrest. apply IH in Hrest as [Hc Ht]. split; congruence.
    + intros [= <- <-]. split; assumption.
    + intros [= <- <-]. split; assumption.
Qed.

(** A call that finds its key returns the cached list and changes
    nothing. *)
Lemma extract_topics_bertopic_hit (text : string) (num_topics : option Z)
    (st : State) (cached : list string) :
  _bertopic_cache st !! bertopic_cache_key env text num_topics = Some cached ->
  extract_topics_bertopic env text num_topics st = (Ok cached, st).
Proof.
  intros Hhit. unfold extract_topics_bertopic. unfold bind at 1. unfold get at 1.
  unfold bertopic_cache_key in Hhit. rewrite Hhit. reflexivity.
Qed.

(** A call that misses and returns has run the model once and has
    added its result to the cache under its key. *)
Lemma extract_topics_bertopic_miss (text : string) (num_topics : option Z)
    (st st1 : State) (topics : list string) :
  _bertopic_cache st !! bertopic_cache_key env text num_topics = None ->
  extract_topics_bertopic env text num_topics st = (Ok topics, st1) ->
  _bertopic_cache st1 =
    <[bertopic_cache_key env text num_topics := topics]> (_bertopic_cache st) /\
  transform_calls st1 = S (transform_calls st).
Proof.
  intros Hmiss. unfold extract_topics_bertopic. unfold bind at 1. unfold get at 1.
  unfold bertopic_cache_key in *. rewrite Hmiss.
  unfold bind at 1.
  destruct (get_topic_model env st) as [[model | e |] sa] eqn:Hmodel;
    try discriminate.
  apply get_topic_model_frame in Hmodel as [Hca Hta].
  unfold bind at 1.
  destruct (call _ _ sa) as [r1 sb] eqn:Hcall.
  apply call_inv in Hcall as (w & _ & Hsb).
  destruct r1 as [indices | e |]; try discriminate.
  unfold bind at 1.
  destruct (collect_topics env model _ indices 0 [] sb) as [[ts | e |] sc] eqn:Hcollect;
    try discriminate.
  apply collect_topics_frame in Hcollect as [Hcc Htc].
  unfold_monad. intros [= <- <-]. cbn [set_bertopic_cache _bertopic_cache].
  split.
  - rewrite Hcc, Hsb. cbn [after_call _bertopic_cache]. rewrite Hca. reflexivity.
  - change (transform_calls sc = S (transform_calls st)).
    rewrite Htc, Hsb, transform_calls_after_call, Hta. simpl. lia.
Qed.

(** C7: after a call of [extract_topics_bertopic] that missed the
    cache and returned, the topic model has been run exactly once more;
    the same call again (same text, same count) returns the same list
    from the cache and leaves everything as it is, so the model is not
    run again; a call for the same text with another count, not cached
    either, runs the model a second time, and the two results are two
    entries of the cache. *)
Theorem extract_topics_bertopic_runs_model_once_per_key
    (text : string) (num_topics : option Z) (st st1 : State)
    (topics : list string) :
  _bertopic_cache st !! bertopic_cache_key env text num_topics = None ->
  extract_topics_bertopic env text num_topics st = (Ok topics, st1) ->
  transform_calls st1 = S (transform_calls st) /\
  extract_topics_bertopic env text num_topics st1 = (Ok topics, st1) /\
  (forall num_topics' topics' st2,
     bertopic_cache_key env text num_topics' <> bertopic_cache_key env text num_topics ->
     _bertopic_cache st !! bertopic_cache_key env text num_topics' = None ->
     extract_topics_bertopic env text num_topics' st1 = (Ok topics', st2) ->
     transform_calls st2 = S (S (transform_calls st)) /\
     _bertopic_cache st2 !! bertopic_cache_key env text num_topics = Some topics /\
     _bertopic_cache st2 !! bertopic_cache_key env text num_topics' = Some topics').
Proof.
  intros Hmiss Hfirst.
  destruct (extract_topics_bertopic_miss _ _ _ _ _ Hmiss Hfirst) as [Hcache Hcalls].
  split; [exact Hcalls |]. split.
  - apply extract_topics_bertopic_hit. rewrite Hcache. apply lookup_insert_eq.
  - intros num_topics' topics' st2 Hne Hmiss' Hsecond.
    assert (Hmiss1 : _bertopic_cache st1 !! bertopic_cache_key env text num_topics' = None).
    { rewrite Hcache. rewrite lookup_insert_ne by congruence. exact Hmiss'. }
    destruct (extract_topics_bertopic_miss _ _ _ _ _ Hmiss1 Hsecond)
      as [Hcache2 Hcalls2].
    split; [rewrite Hcalls2, Hcalls; reflexivity |].
    rewrite Hcache2, Hcache. split.
    + rewrite lookup_insert_ne by congruence. apply lookup_insert_eq.
    + apply lookup_insert_eq.
Qed.

(** *** The retry loop *)

(** Three attempts, spelled out. *)
Lemma AsyncRetrying_3 {S A} (body : M S A) (s : S) :
  AsyncRetrying 3 body s =
    match body s with
    | (Raise e1, s1) =>
        match body s1 with
        | (Raise e2, s2) =>
            match body s2 with
            | (Raise e3, s3) => (Raise (RetryError e3), s3)
            | r => r
            end
        | r => r
        end
    | r => r
    end.
Proof.
  unfold AsyncRetrying. cbn [pred retry_attempts].
  destruct (body s) as [[a | e1 |] s1]; reflexivity.
Qed.

(** *** Topics, with the LLM *)

Lemma chat_calls_after_call (ev : Event) (w : W) (st : State) :
  chat_calls (after_call ev w st) =
    (chat_calls st + if is_chat_call ev then 1 else 0)%nat.
Proof.
  unfold chat_calls, after_call. cbn [trace].
  rewrite List.filter_app, length_app.
  simpl. destruct (is_chat_call ev); reflexivity.
Qed.

(** An attempt calls the client once and touches nothing else. *)
Lemma topics_attempt_state (_num_topics : Z) (prompt : string)
    (st st' : State) (r : outcome json) :
  topics_attempt env _num_topics prompt st = (r, st') ->
  exists w, st' = after_call (topics_call env prompt) w st.
Proof.
  unfold topics_attempt. unfold bind at 1.
  destruct (call _ _ st) as [r1 st1] eqn:Hcall.
  apply call_inv in Hcall as (w & _ & ->).
  destruct r1 as [response | e |]; [| intros [= <- <-]; eauto ..].
  unfold bind, try_except_only, lift, ret.
  destruct (decode_topics response) as [topics | e |].
  - destruct (json_truthy topics); intros [= <- <-]; eauto.
  - destruct (JSONDecodeError_or_KeyError e); [| intros [= <- <-]; eauto].
    cbn [json_truthy]. intros [= <- <-]; eauto.
  - intros [= <- <-]; eauto.
Qed.

(** When the client's call raises, so does the attempt. *)
Lemma topics_attempt_call_raises (_num_topics : Z) (prompt : string)
    (st : State) (e : exn) (w : W) :
  create_chat_completion env (generation_model (settings env)) prompt
    [("type", "json_object")] (world st) = (Raise e, w) ->
  topics_attempt env _num_topics prompt st =
    (Raise e, after_call (topics_call env prompt) w st).
Proof.
  intros Hcall. unfold topics_attempt. unfold bind at 1.
  rewrite (call_after _ _ _ _ _ Hcall). reflexivity.
Qed.

(** When the response cannot be decoded or has no field [topics], the
    attempt completes with the empty list. *)
Lemma topics_attempt_swallows (_num_topics : Z) (prompt : string)
    (st : State) (response : ChatResponse) (e : exn) (w : W) :
  create_chat_completion env (generation_model (settings env)) prompt
    [("type", "json_object")] (world st) = (Ok response, w) ->
  decode_topics response = Raise e ->
  JSONDecodeError_or_KeyError e = true ->
  topics_attempt env _num_topics prompt st =
    (Ok (JList []), after_call (topics_call env prompt) w st).
Proof.
  intros Hcall Hdecode Hcaught. unfold topics_attempt. unfold bind at 1.
  rewrite (call_after _ _ _ _ _ Hcall).
  unfold bind, try_except_only, lift, ret. rewrite Hdecode, Hcaught.
  reflexivity.
Qed.

(** C1, as amended: in [extract_topics_llm] a response that is not
    JSON, or whose document has no field [topics], does not cause a
    retry: the attempt completes with the empty list, which is returned
    after that one call of the client. Only an attempt that raises is
    tried again (it does when the client's call raises); the loop makes
    at most 3 calls, and when 3 attempts in a row raise, a [RetryError]
    that carries the exception of the last one propagates. *)
Theorem extract_topics_llm_retries_only_raising_attempts
    (text : string) (num_topics : option Z) (st : State) :
  let _num_topics := default (top_k_topics (settings env)) num_topics in
  let prompt := topics_prompt env _num_topics text in
  (forall response e w,
     create_chat_completion env (generation_model (settings env)) prompt
       [("type", "json_object")] (world st) = (Ok response, w) ->
     decode_topics response = Raise e ->
     JSONDecodeError_or_KeyError e = true ->
     extract_topics_llm env text num_topics st =
       (Ok (JList []), after_call (topics_call env prompt) w st)) /\
  (forall e1 e2 e3 st1 st2 st3,
     topics_attempt env _num_topics prompt st = (Raise e1, st1) ->
     topics_attempt env _num_topics prompt st1 = (Raise e2, st2) ->
     topics_attempt env _num_topics prompt st2 = (Raise e3, st3) ->
     extract_topics_llm env text num_topics st = (Raise (RetryError e3), st3) /\
     chat_calls st3 = (chat_calls st + 3)%nat) /\
  (forall e1 e2 e3 w1 w2 w3,
     create_chat_completion env (generation_model (settings env)) prompt
       [("type", "json_object")] (world st) = (Raise e1, w1) ->
     create_chat_completion env (generation_model (settings env)) prompt
       [("type", "json_object")] w1 = (Raise e2, w2) ->
     create_chat_completion env (generation_model (settings env)) prompt
       [("type", "json_object")] w2 = (Raise e3, w3) ->
     extract_topics_llm env text num_topics st =
       (Raise (RetryError e3),
        after_call (topics_call env prompt) w3
          (after_call (topics_call env prompt) w2
             (after_call (topics_call env prompt) w1 st)))) /\
  (forall r st',
     extract_topics_llm env text num_topics st = (r, st') ->
     (chat_calls st < chat_calls st' <= chat_calls st + 3)%nat).
Proof.
  intros _num_topics prompt.
  split; [| split; [| split]].
  - intros response e w Hcall Hdecode Hcaught.
    unfold extract_topics_llm. rewrite AsyncRetrying_3.
    fold _num_topics. fold prompt.
    rewrite (topics_attempt_swallows _ _ _ _ _ _ Hcall Hdecode Hcaught).
    reflexivity.
  - intros e1 e2 e3 st1 st2 st3 H1 H2 H3. split.
    + unfold extract_topics_llm. rewrite AsyncRetrying_3.
      fold _num_topics. fold prompt. rewrite H1, H2, H3. reflexivity.
    + apply topics_attempt_state in H1 as [w1 ->].
      apply topics_attempt_state in H2 as [w2 ->].
      apply topics_attempt_state in H3 as [w3 ->].
      rewrite !chat_calls_after_call. simpl. lia.
  - intros e1 e2 e3 w1 w2 w3 H1 H2 H3.
    unfold extract_topics_llm. rewrite AsyncRetrying_3.
    fold _num_topics. fold prompt.
    rewrite (topics_attempt_call_raises _ _ _ _ _ H1).
    rewrite (topics_attempt_call_raises _ _ (after_call _ w1 st) _ _ H2).
    rewrite (topics_attempt_call_raises _ _ (after_call _ w2 _) _ _ H3).
    reflexivity.
  - intros r st'. unfold extract_topics_llm. rewrite AsyncRetrying_3.
    fold _num_topics. fold prompt.
    destruct (topics_attempt env _num_topics prompt st) as [r1 s1] eqn:H1.
    pose proof (topics_attempt_state _ _ _ _ _ H1) as [w1 ->].
    assert (Hone : (chat_calls st <
                    chat_calls (after_call (topics_call env prompt) w1 st) <=
                    chat_calls st + 3)%nat)
      by (rewrite chat_calls_after_call; simpl; lia).
    destruct r1 as [a | e1 |]; [intros [= <- <-]; exact Hone | | intros [= <- <-]; exact Hone].
    destruct (topics_attempt env _num_topics prompt (after_call _ w1 st))
      as [r2 s2] eqn:H2.
    pose proof (topics_attempt_state _ _ _ _ _ H2) as [w2 ->].
    assert (Htwo : (chat_calls st <
                    chat_calls (after_call (topics_call env prompt) w2
                                  (after_call (topics_call env prompt) w1 st)) <=
                    chat_calls st + 3)%nat)
      by (rewrite !chat_calls_after_call; simpl; lia).
    destruct r2 as [a | e2 |]; [intros [= <- <-]; exact Htwo | | intros [= <- <-]; exact Htwo].
    destruct (topics_attempt env _num_topics prompt (after_call _ w2 _))
      as [r3 s3] eqn:H3.
    pose proof (topics_attempt_state _ _ _ _ _ H3) as [w3 ->].
    destruct r3 as [a | e3 |]; intros [= <- <-];
      rewrite !chat_calls_after_call; simpl; lia.
Qed.

(** *** Discrete memories: the calls of each phase *)

Lemma calls_only_refl (p : Event -> bool) (st : State) : calls_only p st st.
Proof. exists []. split; [symmetry; apply app_nil_r | constructor]. Qed.

Lemma calls_only_trans (p : Event -> bool) (st1 st2 st3 : State) :
  calls_only p st1 st2 -> calls_only p st2 st3 -> calls_only p st1 st3.
Proof.
  intros (a & Ha & Hpa) (b & Hb & Hpb). exists (a ++ b). split.
  - rewrite Hb, Ha, app_assoc. reflexivity.
  - apply Forall_app. split; assumption.
Qed.

Lemma calls_only_after_call (p : Event -> bool) (ev : Event) (w : W) (st : State) :
  p ev = true -> calls_only p st (after_call ev w st).
Proof.
  intros Hp. exists [ev]. split; [reflexivity |].
  constructor; [exact Hp | constructor].
Qed.

Lemma calls_only_weaken (p q : Event -> bool) (st st' : State) :
  (forall ev, p ev = true -> q ev = true) ->
  calls_only p st st' -> calls_only q st st'.
Proof.
  intros Hpq (a & Ha & Hpa). exists a. split; [exact Ha |].
  eapply Forall_impl; [exact Hpa |]. exact Hpq.
Qed.

Lemma extraction_attempt_state (memory : MemoryRecord) (new : list json)
    (st st' : State) (r : outcome (list json)) :
  extraction_attempt env memory new st = (r, st') ->
  exists w, st' = after_call (extraction_call env memory) w st.
Proof.
  unfold extraction_attempt. unfold bind at 1.
  destruct (call _ _ st) as [r1 st1] eqn:Hcall.
  apply call_inv in Hcall as (w & _ & ->).
  destruct r1 as [response | e |]; [| intros [= <- <-]; eauto ..].
  unfold bind, lift, ret.
  destruct (decode_memories response); intros [= <- <-]; eauto.
Qed.

Lemma extraction_attempt_malformed (memory : MemoryRecord) (new : list json)
    (st : State) (response : ChatResponse) (e : exn) (w : W) :
  answers env memory (world st) response w ->
  decode_memories response = Raise e ->
  extraction_attempt env memory new st =
    (Raise e, after_call (extraction_call env memory) w st).
Proof.
  intros Hcall Hdecode. unfold extraction_attempt. unfold bind at 1.
  rewrite (call_after _ _ _ _ _ Hcall).
  unfold bind, lift. rewrite Hdecode. reflexivity.
Qed.

Lemma extraction_attempt_valid (memory : MemoryRecord) (new : list json)
    (st : State) (response : ChatResponse) (items : list json) (w : W) :
  answers env memory (world st) response w ->
  decode_memories response = Ok items ->
  extraction_attempt env memory new st =
    (Ok (new ++ items), after_call (extraction_call env memory) w st).
Proof.
  intros Hcall Hdecode. unfold extraction_attempt. unfold bind at 1.
  rewrite (call_after _ _ _ _ _ Hcall).
  unfold bind, lift. rewrite Hdecode. reflexivity.
Qed.

(** The retry loop of a record calls the client and nothing else. *)
Lemma extraction_retry_calls (memory : MemoryRecord) (new : list json)
    (st st' : State) (r : outcome (list json)) :
  AsyncRetrying 3 (extraction_attempt env memory new) st = (r, st') ->
  calls_only is_chat_call st st'.
Proof.
  rewrite AsyncRetrying_3.
  destruct (extraction_attempt env memory new st) as [r1 s1] eqn:H1.
  pose proof (extraction_attempt_state _ _ _ _ _ H1) as [w1 ->].
  assert (Hone : calls_only is_chat_call st
                   (after_call (extraction_call env memory) w1 st))
    by (apply calls_only_after_call; reflexivity).
  destruct r1 as [a | e1 |]; [intros [= <- <-]; exact Hone | | intros [= <- <-]; exact Hone].
  destruct (extraction_attempt env memory new (after_call _ w1 st))
    as [r2 s2] eqn:H2.
  pose proof (extraction_attempt_state _ _ _ _ _ H2) as [w2 ->].
  assert (Htwo : calls_only is_chat_call st
                   (after_call (extraction_call env memory) w2
                      (after_call (extraction_call env memory) w1 st))).
  { eapply calls_only_trans; [exact Hone |].
    apply calls_only_after_call; reflexivity. }
  destruct r2 as [a | e2 |]; [intros [= <- <-]; exact Htwo | | intros [= <- <-]; exact Htwo].
  destruct (extraction_attempt env memory new (after_call _ w2 _))
    as [r3 s3] eqn:H3.
  pose proof (extraction_attempt_state _ _ _ _ _ H3) as [w3 ->].
  assert (Hthree : calls_only is_chat_call st
                     (after_call (extraction_call env memory) w3
                        (after_call (extraction_call env memory) w2
                           (after_call (extraction_call env memory) w1 st)))).
  { eapply calls_only_trans; [exact Htwo |].
    apply calls_only_after_call; reflexivity. }
  destruct r3 as [a | e3 |]; intros [= <- <-]; exact Hthree.
Qed.

(** The loop over the records calls the client and the adapter's
    deletion, and nothing else. *)
Lemma process_memories_calls (memories : list MemoryRecord) :
  forall (new : list json) (updated : list MemoryRecord) (st st' : State)
         (r : outcome (list json * list MemoryRecord)),
    process_memories env memories new updated st = (r, st') ->
    calls_only (fun ev => is_chat_call ev || is_delete_call ev) st st'.
Proof.
  induction memories as [| memory rest IH]; intros new updated st st' r.
  - intros [= <- <-]. apply calls_only_refl.
  - cbn [process_memories].
    destruct (String.eqb (text memory) EmptyString).
    + unfold bind at 1.
      destruct (call _ _ st) as [r1 st1] eqn:Hcall.
      apply call_inv in Hcall as (w & _ & ->).
      assert (Hdel : calls_only (fun ev => is_chat_call ev || is_delete_call ev)
                       st (after_call (delete_memories_call [id memory]) w st))
        by (apply calls_only_after_call; reflexivity).
      destruct r1 as [[] | e |]; [| intros [= <- <-]; exact Hdel ..].
      intros Hrest. apply IH in Hrest.
      eapply calls_only_trans; eassumption.
    + unfold bind at 1.
      destruct (AsyncRetrying 3 _ st) as [r1 st1] eqn:Hretry.
      apply extraction_retry_calls in Hretry.
      assert (Hchat : calls_only (fun ev => is_chat_call ev || is_delete_call ev)
                        st st1).
      { eapply calls_only_weaken; [| exact Hretry].
        intros ev ->. reflexivity. }
      destruct r1 as [new' | e |]; [| intros [= <- <-]; exact Hchat ..].
      intros Hrest. apply IH in Hrest.
      eapply calls_only_trans; eassumption.
Qed.

(** The loop over a batch in two parts. *)
Lemma process_memories_app (before after : list MemoryRecord) :
  forall (new : list json) (updated : list MemoryRecord) (st : State),
    process_memories env (before ++ after) new updated st =
    (let! '(new', updated') := process_memories env before new updated in
     process_memories env after new' updated') st.
Proof.
  induction before as [| memory rest IH]; intros new updated st.
  - reflexivity.
  - cbn [app process_memories].
    destruct (String.eqb (text memory) EmptyString).
    + rewrite bind_assoc. apply bind_ext. intros _ s'. apply IH.
    + rewrite bind_assoc. apply bind_ext. intros new' s'. apply IH.
Qed.

(** The paging loop calls the adapter's search and nothing else. *)
Lemma search_loop_calls (fuel : nat) :
  forall (memories : list MemoryRecord) (offset : nat) (st st' : State)
         (r : outcome (list MemoryRecord)),
    search_loop env fuel memories offset st = (r, st') ->
    calls_only is_search_call st st'.
Proof.
  induction fuel as [| fuel IH]; intros memories offset st st' r.
  - intros [= <- <-]. apply calls_only_refl.
  - cbn [search_loop]. unfold bind at 1.
    destruct (call _ _ st) as [r1 st1] eqn:Hcall.
    apply call_inv in Hcall as (w & _ & ->).
    assert (Hone : calls_only is_search_call st
                     (after_call (search_memories_call EmptyString "message" "f" 25 offset) w st))
      by (apply calls_only_after_call; reflexivity).
    destruct r1 as [page | e |]; [| intros [= <- <-]; exact Hone ..].
    destruct (length page <? 25)%nat.
    + intros [= <- <-]. exact Hone.
    + intros Hrest. apply IH in Hrest.
      eapply calls_only_trans; eassumption.
Qed.

Lemma select_memories_calls (fuel : nat) (memories : option (list MemoryRecord))
    (st st' : State) (r : outcome (list MemoryRecord)) :
  select_memories env fuel memories st = (r, st') ->
  calls_only is_search_call st st'.
Proof.
  unfold select_memories. destruct memories as [[| m ms] |].
  - apply search_loop_calls.
  - intros [= <- <-]. apply calls_only_refl.
  - apply search_loop_calls.
Qed.

(** Calls that all satisfy [p] hold none that satisfies [q], when no
    call satisfies both. *)
Lemma filter_other_calls (p q : Event -> bool) (added : list Event) :
  (forall ev, p ev = true -> q ev = false) ->
  Forall (fun ev => p ev = true) added ->
  List.filter q added = [].
Proof.
  intros Hpq Hadded.
  induction Hadded as [| ev l Hev _ IH]; [reflexivity |].
  cbn [List.filter]. rewrite (Hpq ev Hev). exact IH.
Qed.

(** The deletions of a loop over the records that completes: one for
    each record without text, in the order of the records. *)
Lemma process_memories_deletes (memories : list MemoryRecord) :
  forall (new : list json) (updated : list MemoryRecord) (st st' : State)
         (result : list json * list MemoryRecord),
    process_memories env memories new updated st = (Ok result, st') ->
    exists added,
      trace st' = trace st ++ added /\
      List.filter is_delete_call added =
        map (fun m => delete_memories_call [id m])
            (List.filter (fun m => String.eqb (text m) EmptyString) memories).
Proof.
  induction memories as [| memory rest IH]; intros new updated st st' result.
  - intros [= <- <-]. exists []. rewrite app_nil_r. split; reflexivity.
  - cbn [process_memories List.filter].
    destruct (String.eqb (text memory) EmptyString) eqn:Htext.
    + unfold bind at 1.
      destruct (call _ _ st) as [r1 st1] eqn:Hcall.
      apply call_inv in Hcall as (w & _ & ->).
      destruct r1 as [[] | e |]; [| discriminate ..].
      intros Hrest. apply IH in Hrest as (added & Htrace & Hdeleted).
      exists (delete_memories_call [id memory] :: added). split.
      * rewrite Htrace. unfold after_call. cbn [trace].
        rewrite <- app_assoc. reflexivity.
      * cbn [List.filter is_delete_call map]. rewrite Hdeleted. reflexivity.
    + unfold bind at 1.
      destruct (AsyncRetrying 3 _ st) as [r1 st1] eqn:Hretry.
      apply extraction_retry_calls in Hretry as (added1 & Htrace1 & Hall1).
      destruct r1 as [new1 | e |]; [| discriminate ..].
      intros Hrest. apply IH in Hrest as (added & Htrace & Hdeleted).
      exists (added1 ++ added). split.
      * rewrite Htrace, Htrace1, <- app_assoc. reflexivity.
      * rewrite List.filter_app, Hdeleted.
        rewrite (filter_other_calls is_chat_call is_delete_call added1);
          [reflexivity | | exact Hall1].
        intros ev. destruct ev; simpl; congruence.
Qed.

(** *** Discrete memories: a record whose responses are all malformed *)

Lemma text_not_empty (memory : MemoryRecord) :
  text memory <> EmptyString -> String.eqb (text memory) EmptyString = false.
Proof. intros Hne. apply String.eqb_neq. exact Hne. Qed.

(** C3, as amended: when the responses for a record of the batch are
    malformed on all three attempts (each is answered, and what is
    answered does not decode to a dict with a list under [memories]),
    [extract_discrete_memories] raises (tenacity's [RetryError] around
    the third attempt's exception) right after the third call of the
    client, and from its start to that point it has called neither
    [update_memories] nor [index_long_term_memories]: no flag is
    written, for the failing record or any other of the batch, and no
    new memory is indexed. Storage is not left untouched, though: the
    records before the failing one that have no text were deleted, one
    [delete_memories] call each and in their order. These deletions, the
    searches of the selection and the calls of the client are all the
    calls made. *)
Theorem extract_discrete_memories_malformed_commits_nothing
    (fuel : nat) (memories : option (list MemoryRecord)) (deduplicate : bool)
    (st_init st0 st1 : State) (before after : list MemoryRecord)
    (memory : MemoryRecord) (new : list json) (updated : list MemoryRecord)
    (r1 r2 r3 : ChatResponse) (e1 e2 e3 : exn) (w1 w2 w3 : W) :
  select_memories env fuel memories st_init =
    (Ok (before ++ memory :: after), st0) ->
  process_memories env before [] [] st0 = (Ok (new, updated), st1) ->
  text memory <> EmptyString ->
  answers env memory (world st1) r1 w1 -> decode_memories r1 = Raise e1 ->
  answers env memory w1 r2 w2 -> decode_memories r2 = Raise e2 ->
  answers env memory w2 r3 w3 -> decode_memories r3 = Raise e3 ->
  let st3 :=
    after_call (extraction_call env memory) w3
      (after_call (extraction_call env memory) w2
         (after_call (extraction_call env memory) w1 st1)) in
  extract_discrete_memories env fuel memories deduplicate st_init =
    (Raise (RetryError e3), st3) /\
  (exists added,
     trace st3 = trace st_init ++ added /\
     Forall (fun ev => is_commit_call ev = false) added /\
     Forall (fun ev => is_search_call ev || is_chat_call ev || is_delete_call ev = true)
            added /\
     List.filter is_delete_call added =
       map (fun m => delete_memories_call [id m])
           (List.filter (fun m => String.eqb (text m) EmptyString) before)).
Proof.
  intros Hselect Hbefore Htext Ha1 Hd1 Ha2 Hd2 Ha3 Hd3 st3.
  assert (Hattempt1 := extraction_attempt_malformed memory new st1 r1 e1 w1 Ha1 Hd1).
  assert (Hattempt2 := extraction_attempt_malformed memory new
                         (after_call (extraction_call env memory) w1 st1) r2 e2 w2 Ha2 Hd2).
  assert (Hattempt3 := extraction_attempt_malformed memory new
                         (after_call (extraction_call env memory) w2
                            (after_call (extraction_call env memory) w1 st1))
                         r3 e3 w3 Ha3 Hd3).
  split.
  - unfold extract_discrete_memories. unfold bind at 1. rewrite Hselect.
    unfold bind at 1. rewrite process_memories_app.
    unfold bind at 1. rewrite Hbefore.
    cbn [process_memories]. rewrite (text_not_empty _ Htext).
    unfold bind at 1. rewrite AsyncRetrying_3.
    rewrite Hattempt1, Hattempt2, Hattempt3. reflexivity.
  - assert (Hcalls : calls_only
              (fun ev => is_search_call ev || is_chat_call ev || is_delete_call ev)
              st_init st3).
    { eapply calls_only_trans.
      { eapply calls_only_weaken; [| exact (select_memories_calls _ _ _ _ _ Hselect)].
        intros ev ->. reflexivity. }
      eapply calls_only_trans.
      { eapply calls_only_weaken; [| exact (process_memories_calls _ _ _ _ _ _ Hbefore)].
        intros ev Hev. destruct (is_search_call ev); [reflexivity | exact Hev]. }
      eapply calls_only_trans;
        [apply (calls_only_after_call _ (extraction_call env memory) w1 st1);
         reflexivity |].
      eapply calls_only_trans;
        [apply (calls_only_after_call _ (extraction_call env memory) w2);
         reflexivity |].
      apply calls_only_after_call; reflexivity. }
    destruct Hcalls as (added & Htrace & Hadded).
    exists added. split; [exact Htrace |]. split; [| split; [exact Hadded |]].
    + eapply Forall_impl; [exact Hadded |].
      intros ev Hev. destruct ev; simpl in *; try reflexivity; discriminate.
    + destruct (select_memories_calls _ _ _ _ _ Hselect)
        as (searches & Htrace0 & Hsearches).
      destruct (process_memories_deletes _ _ _ _ _ _ Hbefore)
        as (deletions & Htrace1 & Hdeletions).
      assert (Hadded' :
        added = searches ++ deletions
                ++ [extraction_call env memory; extraction_call env memory;
                    extraction_call env memory]).
      { apply (app_inv_head (trace st_init)). rewrite <- Htrace.
        unfold st3, after_call. cbn [trace].
        rewrite Htrace1, Htrace0, <- !app_assoc. reflexivity. }
      rewrite Hadded', !List.filter_app, Hdeletions.
      rewrite (filter_other_calls is_search_call is_delete_call searches);
        [| intros ev; destruct ev; simpl; congruence | exact Hsearches].
      cbn [List.filter extraction_call is_delete_call app].
      rewrite app_nil_r. reflexivity.
Qed.

(** *** Discrete memories: a record without text *)

(** C5: when the loop of [extract_discrete_memories] comes to a
    record with empty text, it calls the adapter's [delete_memories] on
    the list of that record's id and goes on to the next record with
    [new_discrete_memories] and [updated_memories] as they were: between
    the record before and the record after there is that one call, no
    call of the client, nothing added to the memories to index, and no
    copy of the record among those whose flag is written. A batch that
    is this one record ends there, with the deletion as its only
    call. *)
Theorem extract_discrete_memories_deletes_record_without_text
    (fuel : nat) (memories : option (list MemoryRecord)) (deduplicate : bool)
    (st_init st0 st1 : State) (before after : list MemoryRecord)
    (memory : MemoryRecord) (new : list json) (updated : list MemoryRecord)
    (w2 : W) :
  select_memories env fuel memories st_init =
    (Ok (before ++ memory :: after), st0) ->
  process_memories env before [] [] st0 = (Ok (new, updated), st1) ->
  text memory = EmptyString ->
  delete_memories env [id memory] (world st1) = (Ok tt, w2) ->
  let st2 := after_call (delete_memories_call [id memory]) w2 st1 in
  process_memories env (memory :: after) new updated st1 =
    process_memories env after new updated st2 /\
  extract_discrete_memories env fuel memories deduplicate st_init =
    (let! '(new', updated') := process_memories env after new updated in
     flush env new' updated' deduplicate) st2 /\
  (before = [] -> after = [] ->
   extract_discrete_memories env fuel memories deduplicate st_init =
     (Ok tt, after_call (delete_memories_call [id memory]) w2 st0)).
Proof.
  intros Hselect Hbefore Htext Hdelete st2.
  assert (Hstep : process_memories env (memory :: after) new updated st1 =
                  process_memories env after new updated st2).
  { cbn [process_memories]. rewrite Htext. cbn [String.eqb].
    unfold bind at 1. rewrite (call_after _ _ _ _ _ Hdelete). reflexivity. }
  assert (Hwhole :
    extract_discrete_memories env fuel memories deduplicate st_init =
    (let! '(new', updated') := process_memories env after new updated in
     flush env new' updated' deduplicate) st2).
  { unfold extract_discrete_memories. unfold bind at 1. rewrite Hselect.
    unfold bind at 1. rewrite process_memories_app.
    unfold bind at 1. rewrite Hbefore. rewrite Hstep. reflexivity. }
  split; [exact Hstep |]. split; [exact Hwhole |].
  intros -> ->. rewrite Hwhole. subst st2.
  cbn [process_memories] in Hbefore. injection Hbefore as <- <- <-.
  reflexivity.
Qed.

(** *** Discrete memories: a valid response on the third attempt *)




(** *** Discrete memories: the selection *)

Lemma search_calls_from_S (offset n : nat) :
  search_calls_from offset (S n) =
  search_call offset :: search_calls_from (offset + 25) n.
Proof.
  unfold search_calls_from. cbn [seq map].
  rewrite Nat.mul_0_r, Nat.add_0_r. f_equal.
  rewrite <- seq_shift, map_map. apply map_ext. intros k.
  f_equal. lia.
Qed.

Lemma search_loop_pages (full_pages : list (list MemoryRecord))
    (last_page : list MemoryRecord) (w' : W) :
  Forall (fun page => (25 <= length page)%nat) full_pages ->
  (length last_page < 25)%nat ->
  forall (fuel offset : nat) (memories : list MemoryRecord) (st : State),
    serves env (world st) offset (full_pages ++ [last_page]) w' ->
    (length full_pages < fuel)%nat ->
    search_loop env fuel memories offset st =
      (Ok (memories ++ concat full_pages ++ last_page),
       after_calls (search_calls_from offset (S (length full_pages))) w' st).
Proof.
  intros Hfull Hlast.
  induction Hfull as [| page pages Hpage _ IH];
    intros fuel offset memories st Hserves Hfuel.
  - destruct fuel as [| fuel]; [cbn in Hfuel; lia |].
    cbn [app serves] in Hserves. destruct Hserves as (w1 & Hsearch & ->).
    cbn [search_loop]. unfold bind at 1.
    rewrite (call_after _ _ _ _ _ Hsearch).
    apply Nat.ltb_lt in Hlast. rewrite Hlast.
    cbn [length]. rewrite search_calls_from_S. reflexivity.
  - destruct fuel as [| fuel]; [cbn in Hfuel; lia |].
    cbn [app serves] in Hserves. destruct Hserves as (w1 & Hsearch & Hrest).
    cbn [search_loop]. unfold bind at 1.
    rewrite (call_after _ _ _ _ _ Hsearch).
    apply Nat.ltb_ge in Hpage. rewrite Hpage.
    rewrite (IH fuel (offset + 25)%nat (memories ++ page)
               (after_call (search_memories_call EmptyString "message" "f" 25 offset) w1 st)
               Hrest ltac:(cbn [length] in Hfuel; lia)).
    cbn [concat length]. rewrite (search_calls_from_S offset (S (length pages))).
    unfold after_calls, after_call. cbn [trace _topic_model _ner_model
      _ner_tokenizer _entity_cache _bertopic_cache].
    rewrite <- !app_assoc. reflexivity.
Qed.

Lemma search_calls_calls_only (p : Event -> bool) (st st' : State) :
  (forall ev, p ev = true -> is_search_call ev = false) ->
  calls_only p st st' -> search_calls st' = search_calls st.
Proof.
  intros Hp (added & Htrace & Hadded). unfold search_calls.
  rewrite Htrace, List.filter_app, length_app.
  assert (Hnone : List.filter is_search_call added = []).
  { clear Htrace. induction Hadded as [| ev added Hev _ IH]; [reflexivity |].
    cbn [List.filter]. rewrite (Hp ev Hev). exact IH. }
  rewrite Hnone. cbn [length]. lia.
Qed.

Lemma outside_trace {A} (op : M W A) (st st' : State) (r : outcome A) :
  outside op st = (r, st') -> trace st' = trace st.
Proof.
  unfold outside. destruct (op (world st)) as [r' w].
  intros [= <- <-]. reflexivity.
Qed.

Lemma new_memory_record_trace (new_memory : json) (st st' : State)
    (r : outcome MemoryRecord) :
  new_memory_record env new_memory st = (r, st') -> trace st' = trace st.
Proof.
  unfold new_memory_record. unfold bind at 1.
  destruct (outside (new_ulid env) st) as [r1 st1] eqn:Hulid.
  apply outside_trace in Hulid.
  destruct r1 as [ulid | e |]; [| intros [= <- <-]; exact Hulid ..].
  unfold bind, lift.
  repeat match goal with
         | |- context [match ?o with Ok _ => _ | Raise _ => _ | Diverge => _ end] =>
             destruct o
         end;
    intros [= <- <-]; exact Hulid.
Qed.

Lemma new_memory_records_trace (new : list json) :
  forall (st st' : State) (r : outcome (list MemoryRecord)),
    new_memory_records env new st = (r, st') -> trace st' = trace st.
Proof.
  induction new as [| new_memory rest IH]; intros st st' r.
  - intros [= <- <-]. reflexivity.
  - cbn [new_memory_records]. unfold bind at 1.
    destruct (new_memory_record env new_memory st) as [r1 st1] eqn:Hrecord.
    apply new_memory_record_trace in Hrecord.
    destruct r1 as [record | e |]; [| intros [= <- <-]; exact Hrecord ..].
    unfold bind at 1.
    destruct (new_memory_records env rest st1) as [r2 st2] eqn:Hrest.
    apply IH in Hrest.
    destruct r2 as [records | e |]; unfold ret; intros [= <- <-]; congruence.
Qed.

Lemma flush_index_calls (new : list json) (deduplicate : bool)
    (st st' : State) (r : outcome unit) :
  match new with
  | [] => ret tt
  | _ :: _ =>
      let! long_term_memories := new_memory_records env new in
      call (index_long_term_memories_call long_term_memories deduplicate)
           (index_long_term_memories env long_term_memories deduplicate)
  end st = (r, st') ->
  calls_only is_commit_call st st'.
Proof.
  destruct new as [| n ns].
  - intros [= <- <-]. apply calls_only_refl.
  - unfold bind at 1.
    destruct (new_memory_records env (n :: ns) st) as [r2 st2] eqn:Hrecords.
    apply new_memory_records_trace in Hrecords.
    assert (H12 : calls_only is_commit_call st st2).
    { exists []. split; [rewrite Hrecords, app_nil_r; reflexivity | constructor]. }
    destruct r2 as [records | e |]; [| intros [= <- <-]; exact H12 ..].
    intros Hcall. apply call_inv in Hcall as (w & _ & ->).
    eapply calls_only_trans; [exact H12 |].
    apply calls_only_after_call. reflexivity.
Qed.

(** The flush calls the bulk update and the indexing, and nothing
    else. *)
Lemma flush_calls (new : list json) (updated : list MemoryRecord)
    (deduplicate : bool) (st st' : State) (r : outcome unit) :
  flush env new updated deduplicate st = (r, st') ->
  calls_only is_commit_call st st'.
Proof.
  unfold flush. unfold bind at 1. destruct updated as [| u us].
  - unfold ret at 1. apply flush_index_calls.
  - destruct (call _ _ st) as [r1 st1] eqn:Hcall.
    apply call_inv in Hcall as (w & _ & ->).
    assert (Hu : calls_only is_commit_call st
                   (after_call (update_memories_call (u :: us)) w st))
      by (apply calls_only_after_call; reflexivity).
    destruct r1 as [[] | e |]; [| intros [= <- <-]; exact Hu ..].
    intros Hrest. apply flush_index_calls in Hrest.
    eapply calls_only_trans; eassumption.
Qed.

Lemma search_calls_after_calls (offset n : nat) (w : W) (st : State) :
  search_calls (after_calls (search_calls_from offset n) w st) =
    (search_calls st + n)%nat.
Proof.
  unfold search_calls, after_calls. cbn [trace].
  rewrite List.filter_app, length_app. f_equal.
  unfold search_calls_from.
  assert (Hall : forall l : list nat,
             List.filter is_search_call
               (map (fun k => search_call (offset + 25 * k)) l) =
             map (fun k => search_call (offset + 25 * k)) l).
  { induction l as [| k l IH]; [reflexivity |].
    cbn [map List.filter search_call is_search_call]. f_equal. exact IH. }
  rewrite Hall, length_map, length_seq. reflexivity.
Qed.

Lemma chat_or_delete_is_no_search (ev : Event) :
  is_chat_call ev || is_delete_call ev = true -> is_search_call ev = false.
Proof. destruct ev; simpl; congruence. Qed.

Lemma commit_is_no_search (ev : Event) :
  is_commit_call ev = true -> is_search_call ev = false.
Proof. destruct ev; simpl; congruence. Qed.

(** C10: given no records ([None] or an empty list),
    [extract_discrete_memories] searches the adapter for the messages
    not yet extracted, 25 at a time and from offset 0 on in steps of 25.
    When the adapter answers env by pages of at least 25 records and then by
    one of fewer than 25, the selection makes one search per page, stops
    at the short page, and holds the pages' records in order; the rest
    of the function works on those records and makes no further search,
    so that the whole run has searched exactly once per page. *)
Theorem extract_discrete_memories_pages_by_25
    (fuel : nat) (memories : option (list MemoryRecord)) (deduplicate : bool)
    (st : State) (full_pages : list (list MemoryRecord))
    (last_page : list MemoryRecord) (w' : W) :
  memories = None \/ memories = Some [] ->
  Forall (fun page => (25 <= length page)%nat) full_pages ->
  (length last_page < 25)%nat ->
  serves env (world st) 0 (full_pages ++ [last_page]) w' ->
  (length full_pages < fuel)%nat ->
  let selected := concat full_pages ++ last_page in
  let st_selected :=
    after_calls (search_calls_from 0 (S (length full_pages))) w' st in
  select_memories env fuel memories st = (Ok selected, st_selected) /\
  extract_discrete_memories env fuel memories deduplicate st =
    (let! '(new, updated) := process_memories env selected [] [] in
     flush env new updated deduplicate) st_selected /\
  (forall r st',
     extract_discrete_memories env fuel memories deduplicate st = (r, st') ->
     search_calls st' = (search_calls st + S (length full_pages))%nat).
Proof.
  intros Hnone Hfull Hlast Hserves Hfuel selected st_selected.
  assert (Hselect : select_memories env fuel memories st =
                    (Ok selected, st_selected)).
  { unfold select_memories.
    destruct Hnone as [-> | ->];
      exact (search_loop_pages full_pages last_page w' Hfull Hlast
               fuel 0%nat [] st Hserves Hfuel). }
  assert (Hwhole :
    extract_discrete_memories env fuel memories deduplicate st =
    (let! '(new, updated) := process_memories env selected [] [] in
     flush env new updated deduplicate) st_selected).
  { unfold extract_discrete_memories. unfold bind at 1. rewrite Hselect.
    reflexivity. }
  split; [exact Hselect |]. split; [exact Hwhole |].
  intros r st'. rewrite Hwhole. unfold bind at 1.
  destruct (process_memories env selected [] [] st_selected)
    as [r1 st1] eqn:Hprocess.
  apply process_memories_calls in Hprocess.
  assert (H1 : search_calls st1 = (search_calls st + S (length full_pages))%nat).
  { rewrite (search_calls_calls_only _ _ _ chat_or_delete_is_no_search Hprocess).
    apply search_calls_after_calls. }
  destruct r1 as [[new updated] | e |]; [| intros [= <- <-]; exact H1 ..].
  intros Hflush. apply flush_calls in Hflush.
  rewrite (search_calls_calls_only _ _ _ commit_is_no_search Hflush).
  exact H1.
Qed.

End OnAnyCollaborators.

(** ** The code on the doubles *)

Import Doubles.

Lemma extract_topics_bertopic_runs_model_once_per_key_witness :
  exists st1 st2,
    _bertopic_cache (fresh caching_world)
      !! bertopic_cache_key doubles "Testing caching" (Some 2) = None /\
    extract_topics_bertopic doubles "Testing caching" (Some 2)
      (fresh caching_world) = (Ok ["technology"], st1) /\
    transform_calls st1 = 1%nat /\
    extract_topics_bertopic doubles "Testing caching" (Some 2) st1 =
      (Ok ["technology"], st1) /\
    extract_topics_bertopic doubles "Testing caching" (Some 3) st1 =
      (Ok ["technology"], st2) /\
    transform_calls st2 = 2%nat.
Proof.
  eexists _, _.
  assert (Hmiss : _bertopic_cache (fresh caching_world)
                    !! bertopic_cache_key doubles "Testing caching" (Some 2) = None)
    by reflexivity.
  assert (Hfirst : extract_topics_bertopic doubles "Testing caching" (Some 2)
                     (fresh caching_world) =
                   (Ok ["technology"],
                    (extract_topics_bertopic doubles "Testing caching" (Some 2)
                       (fresh caching_world)).2))
    by (vm_compute; reflexivity).
  destruct (extract_topics_bertopic_runs_model_once_per_key doubles
              "Testing caching" (Some 2) (fresh caching_world) _ ["technology"]
              Hmiss Hfirst) as (Hcalls & Hagain & Hother).
  assert (Hsecond : extract_topics_bertopic doubles "Testing caching" (Some 3)
                      (extract_topics_bertopic doubles "Testing caching" (Some 2)
                         (fresh caching_world)).2 =
                    (Ok ["technology"],
                     (extract_topics_bertopic doubles "Testing caching" (Some 3)
                        (extract_topics_bertopic doubles "Testing caching" (Some 2)
                           (fresh caching_world)).2).2))
    by (vm_compute; reflexivity).
  destruct (Hother (Some 3) ["technology"] _ ltac:(discriminate) eq_refl Hsecond)
    as (Hcalls2 & _ & _).
  split; [exact Hmiss |]. split; [exact Hfirst |].
  split; [exact Hcalls |]. split; [exact Hagain |].
  split; [exact Hsecond | exact Hcalls2].
Defined.

(** *** A response that is not JSON, in [extract_topics_llm] *)

(** C1, as stated, fails: on a response that is not JSON
    [extract_topics_llm] makes no second attempt and raises nothing; it
    returns the empty list after one call of the client, and the responses
    a retry would have got are still to come. The same holds for a
    document without [topics]. *)
Lemma extract_topics_llm_returns_empty_list_without_retry :
  json_loads (Some "not json") = Raise JSONDecodeError /\
  (exists st',
     extract_topics_llm doubles "a text" None (fresh topics_world) =
       (Ok (JList []), st') /\
     chat_calls st' = 1%nat /\
     responses (world st') =
       [response_with "{}"; response_with (json_text "{'topics': ['a', 'b']}")]) /\
  json_loads (Some "{}") = Ok (JDict []) /\
  (exists st',
     extract_topics_llm doubles "a text" None
       (fresh (mkWorld [response_with "{}";
                        response_with (json_text "{'topics': ['a', 'b']}")]
                 [] 0 [] (Ok []))) =
       (Ok (JList []), st') /\
     chat_calls st' = 1%nat /\
     responses (world st') =
       [response_with (json_text "{'topics': ['a', 'b']}")]).
Proof.
  split; [vm_compute; reflexivity |].
  split; [eexists; split; [vm_compute; reflexivity | split; reflexivity] |].
  split; [vm_compute; reflexivity |].
  eexists; split; [vm_compute; reflexivity | split; reflexivity].
Qed.

(** *** Discrete memories on the doubles *)

Lemma extract_discrete_memories_malformed_commits_nothing_witness :
  exists st3,
    text window_seats <> EmptyString /\
    extract_discrete_memories doubles 1 (Some [no_text; window_seats]) true
      (fresh malformed_world) = (Raise (RetryError AssertionError), st3) /\
    trace st3 =
      [delete_memories_call ["m0"];
       extraction_call doubles window_seats;
       extraction_call doubles window_seats;
       extraction_call doubles window_seats] /\
    stored (world st3) = [window_seats].
Proof.
  eexists.
  assert (Htext : text window_seats <> EmptyString) by discriminate.
  split; [exact Htext |].
  pose proof (extract_discrete_memories_malformed_commits_nothing doubles
                1 (Some [no_text; window_seats]) true
                (fresh malformed_world) (fresh malformed_world)
                (process_memories doubles [no_text] [] [] (fresh malformed_world)).2
                [no_text] [] window_seats [] []
                (ChatResponse_init [ChoiceObject (Some "not json")] {["total_tokens" := 0]})
                (ChatResponse_init [ChoiceObject (Some "{bad}")] {["total_tokens" := 0]})
                (ChatResponse_init [ChoiceObject (Some "[1]")] {["total_tokens" := 0]})
                JSONDecodeError JSONDecodeError AssertionError
                (mkWorld [response_with "{bad}"; response_with "[1]"]
                   [window_seats] 0 [] (Ok []))
                (mkWorld [response_with "[1]"] [window_seats] 0 [] (Ok []))
                (mkWorld [] [window_seats] 0 [] (Ok []))
                eq_refl ltac:(vm_compute; reflexivity) Htext
                ltac:(vm_compute; reflexivity) ltac:(vm_compute; reflexivity)
                ltac:(vm_compute; reflexivity) ltac:(vm_compute; reflexivity)
                ltac:(vm_compute; reflexivity) ltac:(vm_compute; reflexivity))
    as [Hraises _].
  split; [exact Hraises |]. split; reflexivity.
Defined.

(** C3, as stated, fails: it has no storage write committed when a
    record's responses are malformed three times. On a batch of a record
    without text and then a record whose three responses are malformed,
    the function raises, and by then the first record has been deleted
    from the store. *)
Lemma extract_discrete_memories_failure_keeps_earlier_deletions :
  stored (world (fresh malformed_world)) = [no_text; window_seats] /\
  exists st3,
    extract_discrete_memories doubles 1 (Some [no_text; window_seats]) true
      (fresh malformed_world) = (Raise (RetryError AssertionError), st3) /\
    trace st3 =
      [delete_memories_call ["m0"];
       extraction_call doubles window_seats;
       extraction_call doubles window_seats;
       extraction_call doubles window_seats] /\
    stored (world st3) = [window_seats].
Proof.
  split; [reflexivity |].
  eexists. split; [vm_compute; reflexivity |]. split; reflexivity.
Qed.

(** *** A text that cannot be encoded, in [extract_entities] *)

(** C9, as stated, fails: it has [extract_entities] never raise. The
    escape of U+D800 alone in a JSON string decodes to a text of that one
    surrogate, and on that text the function raises a
    [UnicodeEncodeError]: the cache key is computed before the [try]. *)
Lemma extract_entities_raises_on_lone_surrogate :
  json_loads (Some MoreDoubles.lone_surrogate_document) =
    Ok (JStr MoreDoubles.lone_surrogate) /\
  has_surrogate MoreDoubles.lone_surrogate = true /\
  extract_entities doubles MoreDoubles.lone_surrogate
    (fresh MoreDoubles.trek_world) =
    (Raise UnicodeEncodeError, fresh MoreDoubles.trek_world).
Proof.
  split; [vm_compute; reflexivity |].
  split; [reflexivity |].
  vm_compute. reflexivity.
Qed.

Lemma extract_discrete_memories_deletes_record_without_text_witness :
  exists st',
    text no_text = EmptyString /\
    extract_discrete_memories doubles 1 (Some [no_text]) true
      (fresh no_text_world) = (Ok tt, st') /\
    trace st' = [delete_memories_call ["m0"]] /\
    stored (world st') = [].
Proof.
  eexists.
  split; [reflexivity |].
  pose proof (extract_discrete_memories_deletes_record_without_text doubles
                1 (Some [no_text]) true
                (fresh no_text_world) (fresh no_text_world) (fresh no_text_world)
                [] [] no_text [] [] (mkWorld [] [] 0 [] (Ok []))
                eq_refl eq_refl eq_refl ltac:(vm_compute; reflexivity))
    as (_ & _ & Hone).
  split; [exact (Hone eq_refl eq_refl) |]. split; reflexivity.
Defined.


Lemma extract_discrete_memories_pages_by_25_witness :
  length thirty_messages = 30%nat /\
  exists st_selected,
    select_memories doubles 2 None (fresh thirty_world) =
      (Ok thirty_messages, st_selected) /\
    trace st_selected =
      [search_memories_call EmptyString "message" "f" 25 0;
       search_memories_call EmptyString "message" "f" 25 25] /\
    forall r st',
      extract_discrete_memories doubles 2 None true (fresh thirty_world) = (r, st') ->
      search_calls st' = 2%nat.
Proof.
  split; [reflexivity |].
  assert (Hserves : serves doubles (world (fresh thirty_world)) 0
                      ([take 25 thirty_messages] ++ [drop 25 thirty_messages])
                      thirty_world).
  { cbn [app serves]. exists thirty_world. split; [vm_compute; reflexivity |].
    exists thirty_world. split; [vm_compute; reflexivity | reflexivity]. }
  destruct (extract_discrete_memories_pages_by_25 doubles 2 None true
              (fresh thirty_world) [take 25 thirty_messages]
              (drop 25 thirty_messages) thirty_world
              (or_introl eq_refl)
              ltac:(repeat constructor)
              ltac:(vm_compute; lia)
              Hserves ltac:(cbn; lia))
    as (Hselect & _ & Hcount).
  eexists. split; [exact Hselect |]. split; [reflexivity | exact Hcount].
Defined.

End ExtractionSpec.

(** * More about llms.py *)
Module LlmsMore.
Import Llms LlmsSpec LlmsRuns.

#[local] Arguments OpenAIClientWrapper_init : simpl never.
#[local] Arguments AnthropicClientWrapper_init : simpl never.

(** ** Credentials *)

(** The constructors without a key. *)
Lemma OpenAIClientWrapper_init_without_key
    (api_key base_url : option string) (p : Process) :
  truthy (py_or api_key (environ p !! "OPENAI_API_KEY")) = false ->
  exists p',
    OpenAIClientWrapper_init api_key base_url p =
      (Raise (ValueError "OpenAI API key is required"), p') /\
    _model_clients p' = _model_clients p.
Proof.
  intros Hkey.
  unfold OpenAIClientWrapper_init, record_constructor_call, new_object,
    environ_get, AsyncOpenAI_call.
  unfold_monad. repeat (rewrite Hkey; simpl). eauto.
Qed.

Lemma AnthropicClientWrapper_init_without_key
    (api_key : option string) (p : Process) :
  truthy (py_or api_key (environ p !! "ANTHROPIC_API_KEY")) = false ->
  exists p',
    AnthropicClientWrapper_init api_key p =
      (Raise (ValueError "Anthropic API key is required"), p') /\
    _model_clients p' = _model_clients p.
Proof.
  intros Hkey.
  unfold AnthropicClientWrapper_init, record_constructor_call, new_object,
    environ_get, AsyncAnthropic_call.
  unfold_monad. repeat (rewrite Hkey; simpl). eauto.
Qed.

Lemma py_or_same (x : option string) : py_or x x = x.
Proof. unfold py_or. destruct (truthy x); reflexivity. Qed.

(** X1: without a credential in the environment for a provider that
    has no client in the cache, [get_model_client] raises the
    constructor's [ValueError] ("OpenAI API key is required", "Anthropic
    API key is required"), whether or not the SDK is installed; the
    constructor was called once and the cache is as it was, so nothing
    is cached for the provider. *)
Theorem get_model_client_without_credential
    (provider : ModelProvider + string) (key : ModelProvider) (p : Process) :
  provider_enum_of provider = Ok key ->
  _model_clients p !! key = None ->
  truthy (environ p !! match key with
                       | OPENAI => "OPENAI_API_KEY"
                       | ANTHROPIC => "ANTHROPIC_API_KEY"
                       end) = false ->
  exists p',
    get_model_client provider p =
      (Raise (ValueError match key with
                         | OPENAI => "OpenAI API key is required"
                         | ANTHROPIC => "Anthropic API key is required"
                         end), p') /\
    _model_clients p' = _model_clients p /\
    constructions key p' = S (constructions key p).
Proof.
  intros Hkey Hmiss Henv.
  assert (Hbody :
    get_model_client provider p =
    (let! p0 := get in
     let! _ :=
       if negb (bool_decide (is_Some (_model_clients p0 !! key))) then
         let! client0 :=
           match key with
           | OPENAI =>
               let! k := environ_get "OPENAI_API_KEY" in
               let! w := OpenAIClientWrapper_init k None in
               ret (OpenAIClient w)
           | ANTHROPIC =>
               let! k := environ_get "ANTHROPIC_API_KEY" in
               let! w := AnthropicClientWrapper_init k in
               ret (AnthropicClient w)
           end in
         modify (set_model_clients <[key := client0]>)
       else ret tt in
     let! p' := get in
     match _model_clients p' !! key with
     | Some c => ret c
     | None => raise (KeyError (ModelProvider_value key))
     end) p).
  { unfold get_model_client. destruct provider as [q | s]; simpl in Hkey.
    - injection Hkey as ->. reflexivity.
    - unfold bind at 1. unfold lift. rewrite Hkey. reflexivity. }
  rewrite Hbody. clear Hbody.
  unfold bind at 1. unfold get at 1. unfold bind at 1.
  rewrite Hmiss.
  rewrite bool_decide_false by (intros [? ?]; discriminate).
  cbn [negb]. unfold bind at 1.
  destruct key; unfold environ_get; unfold_monad.
  - destruct (OpenAIClientWrapper_init_without_key
                (environ p !! "OPENAI_API_KEY") None p) as (p' & Hinit & Hcache).
    { rewrite py_or_same. exact Henv. }
    rewrite Hinit. exists p'. split; [reflexivity |]. split; [exact Hcache |].
    apply OpenAIClientWrapper_init_frame in Hinit as [_ Hn].
    unfold constructions. rewrite Hn. rewrite filter_cons_True by done.
    reflexivity.
  - destruct (AnthropicClientWrapper_init_without_key
                (environ p !! "ANTHROPIC_API_KEY") p) as (p' & Hinit & Hcache).
    { rewrite py_or_same. exact Henv. }
    rewrite Hinit. exists p'. split; [reflexivity |]. split; [exact Hcache |].
    apply AnthropicClientWrapper_init_frame in Hinit as [_ Hn].
    unfold constructions. rewrite Hn. rewrite filter_cons_True by done.
    reflexivity.
Qed.

Lemma get_model_client_without_credential_witness :
  exists p',
    get_model_client (inr "anthropic") bare_process =
      (Raise (ValueError "Anthropic API key is required"), p') /\
    _model_clients p' = ∅.
Proof.
  destruct (get_model_client_without_credential (inr "anthropic") ANTHROPIC
              bare_process eq_refl eq_refl eq_refl) as (p' & Hrun & Hcache & _).
  exists p'. split; [exact Hrun | exact Hcache].
Defined.

(** X2: built with an API key and a base URL (each from the argument
    or the environment) in a process where the [openai] package is
    installed, the OpenAI wrapper has a completion client and an
    embedding client, two distinct objects made from that key and that
    base URL; its [create_chat_completion] then passes the request to the
    SDK and its outcome is the SDK's. *)
Theorem OpenAIClientWrapper_with_base_url_has_clients
    (api_key base_url : option string) (p : Process) :
  truthy (py_or api_key (environ p !! "OPENAI_API_KEY")) = true ->
  truthy (py_or base_url (environ p !! "OPENAI_API_BASE")) = true ->
  AsyncOpenAI_imported p = true ->
  exists self p' completion embedding,
    OpenAIClientWrapper_init api_key base_url p = (Ok self, p') /\
    completion_client self = Some completion /\
    embedding_client self = Some embedding /\
    ao_id completion <> ao_id embedding /\
    ao_api_key completion = py_or api_key (environ p !! "OPENAI_API_KEY") /\
    ao_base_url completion = py_or base_url (environ p !! "OPENAI_API_BASE") /\
    ao_api_key embedding = py_or api_key (environ p !! "OPENAI_API_KEY") /\
    ao_base_url embedding = py_or base_url (environ p !! "OPENAI_API_BASE") /\
    (forall (Any N : Type)
            (chat_completions_create : AsyncOpenAI -> @ChatRequest Any -> M N ChatCompletion)
            model prompt (n n' : N) (e : exn),
       chat_completions_create completion
         (mkChatRequest model [("user", prompt)] None None None) n = (Raise e, n') ->
       create_chat_completion chat_completions_create self model prompt
         None None None n = (Raise e, n')).
Proof.
  intros Hkey Hbase Himp.
  unfold OpenAIClientWrapper_init, record_constructor_call, new_object,
    environ_get, AsyncOpenAI_call.
  unfold_monad.
  repeat (first [rewrite Hkey | rewrite Hbase | rewrite Himp]; simpl).
  eexists _, _, _, _. split; [reflexivity |]. cbn.
  repeat split; try reflexivity.
  - cbn [ao_id]. lia.
  - intros Any N sdk model prompt n n' e Hsdk.
    unfold create_chat_completion. cbn. unfold bind. rewrite Hsdk. reflexivity.
Qed.

Lemma OpenAIClientWrapper_with_base_url_witness :
  exists self p',
    OpenAIClientWrapper_init None None full_process = (Ok self, p') /\
    (ao_base_url <$> completion_client self) =
      Some (Some "http://localhost:8080/v1") /\
    (ao_api_key <$> embedding_client self) = Some (Some "sk-test").
Proof.
  destruct (OpenAIClientWrapper_with_base_url_has_clients None None full_process
              ltac:(vm_compute; reflexivity) ltac:(vm_compute; reflexivity) eq_refl)
    as (self & p' & c & e & Hinit & Hc & He & _ & _ & Hcb & Hek & _).
  exists self, p'. split; [exact Hinit |].
  rewrite Hc, He. cbn [fmap option_fmap option_map]. rewrite Hcb, Hek.
  split; vm_compute; reflexivity.
Defined.

(** ** The cache over any sequence of calls *)

(** A call leaves the entries of the cache as they are. *)
Lemma get_model_client_keeps_entries
    (provider : ModelProvider + string) (p p1 : Process) (r : outcome Client)
    (key : ModelProvider) (client : Client) :
  get_model_client provider p = (r, p1) ->
  _model_clients p !! key = Some client ->
  _model_clients p1 !! key = Some client.
Proof.
  intros Hcall Hcached. unfold get_model_client in Hcall.
  unfold bind at 1 in Hcall.
  destruct (match provider with inl q => ret q | inr s => lift (ModelProvider_of_value s) end p)
    as [[k | e |] p0] eqn:Hk.
  2,3: injection Hcall as <- <-; destruct provider as [q | s];
       unfold ret, lift in Hk; injection Hk as _ <-; exact Hcached.
  assert (p0 = p) as ->
    by (destruct provider as [q | s]; unfold ret, lift in Hk; injection Hk as _ <-;
        reflexivity).
  clear Hk. unfold bind at 1 in Hcall. unfold get at 1 in Hcall.
  unfold bind at 1 in Hcall.
  destruct (_model_clients p !! k) as [c0 |] eqn:Hc0.
  - rewrite bool_decide_true in Hcall by eauto. cbn [negb] in Hcall.
    unfold ret at 1 in Hcall. unfold bind, get in Hcall.
    rewrite Hc0 in Hcall. injection Hcall as <- <-. exact Hcached.
  - rewrite bool_decide_false in Hcall by (intros [? ?]; discriminate).
    cbn [negb] in Hcall. unfold bind at 1 in Hcall.
    assert (Hne : k <> key) by (intros ->; congruence).
    destruct k; unfold environ_get in Hcall; unfold_monad.
    + destruct (OpenAIClientWrapper_init (environ p !! "OPENAI_API_KEY") None p)
        as [[w | e |] p'] eqn:Hinit;
        apply OpenAIClientWrapper_init_frame in Hinit as [Hc _].
      * unfold set_model_clients at 1 in Hcall. cbn [_model_clients] in Hcall.
        rewrite lookup_insert_eq in Hcall. injection Hcall as <- <-.
        cbn [set_model_clients _model_clients].
        rewrite lookup_insert_ne by exact Hne. rewrite Hc. exact Hcached.
      * injection Hcall as <- <-. rewrite Hc. exact Hcached.
      * injection Hcall as <- <-. rewrite Hc. exact Hcached.
    + destruct (AnthropicClientWrapper_init (environ p !! "ANTHROPIC_API_KEY") p)
        as [[w | e |] p'] eqn:Hinit;
        apply AnthropicClientWrapper_init_frame in Hinit as [Hc _].
      * unfold set_model_clients at 1 in Hcall. cbn [_model_clients] in Hcall.
        rewrite lookup_insert_eq in Hcall. injection Hcall as <- <-.
        cbn [set_model_clients _model_clients].
        rewrite lookup_insert_ne by exact Hne. rewrite Hc. exact Hcached.
      * injection Hcall as <- <-. rewrite Hc. exact Hcached.
      * injection Hcall as <- <-. rewrite Hc. exact Hcached.
Qed.

Lemma get_model_clients_keep_entries (providers : list (ModelProvider + string)) :
  forall (p p' : Process) (results : list (outcome Client))
         (key : ModelProvider) (client : Client),
    get_model_clients providers p = (results, p') ->
    _model_clients p !! key = Some client ->
    _model_clients p' !! key = Some client.
Proof.
  induction providers as [| provider rest IH]; intros p p' results key client.
  - intros [= <- <-]. auto.
  - cbn [get_model_clients].
    destruct (get_model_client provider p) as [r p1] eqn:Hfirst.
    destruct (get_model_clients rest p1) as [rs p2] eqn:Hrest.
    intros [= <- <-] Hcached.
    eapply IH; [exact Hrest |].
    eapply get_model_client_keeps_entries; eassumption.
Qed.

(** In a run that starts with the provider's client in the cache, every
    call for the provider that returns returns that client. *)
Lemma get_model_clients_from_cache (providers : list (ModelProvider + string)) :
  forall (p p' : Process) (results : list (outcome Client))
         (key : ModelProvider) (client client' : Client)
         (j : nat) (b : ModelProvider + string),
    get_model_clients providers p = (results, p') ->
    _model_clients p !! key = Some client ->
    providers !! j = Some b ->
    provider_enum_of b = Ok key ->
    results !! j = Some (Ok client') ->
    client' = client.
Proof.
  induction providers as [| provider rest IH];
    intros p p' results key client client' j b; [intros _ _ [=] |].
  cbn [get_model_clients].
  destruct (get_model_client provider p) as [r p1] eqn:Hfirst.
  destruct (get_model_clients rest p1) as [rs p2] eqn:Hrest.
  intros [= <- <-] Hcached Hb Hkey Hres.
  destruct j as [| j]; cbn in Hb, Hres.
  - injection Hb as ->. injection Hres as ->.
    rewrite (get_model_client_hit b key client p Hkey Hcached) in Hfirst.
    congruence.
  - eapply IH; [exact Hrest | | exact Hb | exact Hkey | exact Hres].
    eapply get_model_client_keeps_entries; eassumption.
Qed.

(** X3: in any sequence of calls of [get_model_client], from any state
    of the process and whatever the other calls do (other providers,
    failures, unknown names), any two calls for the same provider that
    return a client return the same instance. *)
Theorem get_model_clients_same_instance
    (providers : list (ModelProvider + string)) (p p' : Process)
    (results : list (outcome Client)) (i j : nat)
    (a b : ModelProvider + string) (c1 c2 : Client) :
  get_model_clients providers p = (results, p') ->
  providers !! i = Some a ->
  providers !! j = Some b ->
  provider_enum_of a = provider_enum_of b ->
  results !! i = Some (Ok c1) ->
  results !! j = Some (Ok c2) ->
  c1 = c2.
Proof.
  assert (Hordered : forall providers p p' results i j a b c1 c2,
    (i <= j)%nat ->
    get_model_clients providers p = (results, p') ->
    providers !! i = Some a ->
    providers !! j = Some b ->
    provider_enum_of a = provider_enum_of b ->
    results !! i = Some (Ok c1) ->
    results !! j = Some (Ok c2) ->
    c1 = c2).
  { clear. intros providers.
    induction providers as [| provider rest IH];
      intros p p' results i j a b c1 c2 Hij; [intros _ [=] |].
    cbn [get_model_clients].
    destruct (get_model_client provider p) as [r p1] eqn:Hfirst.
    destruct (get_model_clients rest p1) as [rs p2] eqn:Hrest.
    intros [= <- <-] Ha Hb Hsame Hr1 Hr2.
    destruct i as [| i]; cbn in Ha, Hr1.
    - injection Ha as ->. injection Hr1 as ->.
      destruct j as [| j]; cbn in Hb, Hr2; [congruence |].
      destruct (get_model_client_returns a c1 p p1 Hfirst)
        as (key & Hkey & Hcached & _).
      symmetry.
      eapply (get_model_clients_from_cache rest p1 p2 rs key c1 c2 j b);
        [exact Hrest | exact Hcached | exact Hb | congruence | exact Hr2].
    - destruct j as [| j]; [lia |]. cbn in Hb, Hr2.
      eapply (IH p1 p2 rs i j a b c1 c2); try eassumption. lia. }
  intros Hrun Ha Hb Hsame Hr1 Hr2.
  destruct (Nat.le_ge_cases i j) as [Hij | Hij].
  - eapply (Hordered providers p p' results i j a b c1 c2); eassumption.
  - symmetry.
    eapply (Hordered providers p p' results j i b a c2 c1); try eassumption.
    congruence.
Qed.

Lemma get_model_clients_same_instance_witness :
  exists c1 c2,
    (get_model_clients
       [inl OPENAI; inr "mistral"; inr "anthropic"; inr "openai"; inl ANTHROPIC]
       full_process).1 !! 0%nat = Some (Ok c1) /\
    (get_model_clients
       [inl OPENAI; inr "mistral"; inr "anthropic"; inr "openai"; inl ANTHROPIC]
       full_process).1 !! 3%nat = Some (Ok c2) /\
    c1 = c2.
Proof.
  eexists _, _.
  assert (H0 : (get_model_clients
                  [inl OPENAI; inr "mistral"; inr "anthropic"; inr "openai"; inl ANTHROPIC]
                  full_process).1 !! 0%nat =
               Some (Ok (OpenAIClient
                           (mkOpenAIClientWrapper 0 (Some "sk-test")
                              (Some "http://localhost:8080/v1")
                              (Some (mkAsyncOpenAI 3 (Some "sk-test")
                                       (Some "http://localhost:8080/v1")))
                              (Some (mkAsyncOpenAI 4 (Some "sk-test")
                                       (Some "http://localhost:8080/v1")))))))
    by (vm_compute; reflexivity).
  assert (H3 : (get_model_clients
                  [inl OPENAI; inr "mistral"; inr "anthropic"; inr "openai"; inl ANTHROPIC]
                  full_process).1 !! 3%nat =
               Some (Ok (OpenAIClient
                           (mkOpenAIClientWrapper 0 (Some "sk-test")
                              (Some "http://localhost:8080/v1")
                              (Some (mkAsyncOpenAI 3 (Some "sk-test")
                                       (Some "http://localhost:8080/v1")))
                              (Some (mkAsyncOpenAI 4 (Some "sk-test")
                                       (Some "http://localhost:8080/v1")))))))
    by (vm_compute; reflexivity).
  split; [exact H0 |]. split; [exact H3 |].
  exact (get_model_clients_same_instance
           [inl OPENAI; inr "mistral"; inr "anthropic"; inr "openai"; inl ANTHROPIC]
           full_process _ _ 0 3 (inl OPENAI) (inr "openai") _ _
           (surjective_pairing _) eq_refl eq_refl eq_refl H0 H3).
Defined.

(** ** The calls of the OpenAI wrapper *)










End LlmsMore.

(** * More about llms.py: the Anthropic wrapper *)
Module AnthropicMore.
Import Json Llms AnthropicCalls Doubles MoreDoubles.

Lemma append_not_same (p s : string) :
  s <> EmptyString -> (p ++ s)%string <> p.
Proof.
  intros Hs. induction p as [| a p IH]; cbn [String.append].
  - exact Hs.
  - intros [= Heq]. exact (IH Heq).
Qed.

(** X6: [create_chat_completion] of an Anthropic wrapper that has a
    client, called without functions, sends the SDK one request: the
    model, [max_tokens] 1024 whatever the model, and one message of role
    user whose content is the prompt, followed by the instruction to
    answer with a JSON object exactly when the response format has type
    [json_object]. The response it returns has one choice, a dict that
    holds the text of the first part of the SDK's content (the empty
    string when there is none), and as [total_tokens] the sum of the
    usage's input and output tokens, each counted 0 when missing. With
    functions and a function call, a first function without
    [parameters] raises before any request is sent. *)
Theorem anthropic_create_chat_completion_normalises
    (json_dumps_indent_2 : json -> string) (self : AnthropicClientWrapper)
    (sdk : AsyncAnthropic) (message : Message) (model prompt : string)
    (response_format : option (list (string * string))) :
  aw_client self = Some sdk ->
  (exists r sent,
     create_chat_completion (recording_messages message) json_dumps_indent_2
       self model prompt response_format None None [] =
       (Ok r, [mkMessagesRequest model [("user", sent)] 1024]) /\
     (sent = prompt \/
      sent = (prompt ++ line_feed ++ line_feed
              ++ "You must respond with a valid JSON object.")%string) /\
     (sent <> prompt <->
      exists d, response_format = Some d /\
                items_get d "type" = Some "json_object") /\
     choices r = [ChoiceDict (first_text message)] /\
     total_tokens r = usage_total message) /\
  (forall f fs c cs e,
     json_getitem f "parameters" = Raise e ->
     create_chat_completion (recording_messages message) json_dumps_indent_2
       self model prompt response_format (Some (f :: fs)) (Some (c :: cs)) [] =
       (Raise e, [])).
Proof.
  intros Hsdk. split.
  - unfold create_chat_completion. rewrite Hsdk.
    cbn [nonempty with_function_schema].
    unfold bind at 1. unfold lift at 1. unfold bind at 1.
    unfold recording_messages at 1. unfold ret. cbn [app].
    eexists _, _. split; [reflexivity |].
    assert (Hinstruction :
      (line_feed ++ line_feed ++ "You must respond with a valid JSON object.")%string
        <> EmptyString) by discriminate.
    split; [| split; [| split]].
    + unfold with_json_instruction.
      destruct (nonempty response_format) as [d |]; [| left; reflexivity].
      destruct (items_get d "type") as [t |]; [| left; reflexivity].
      destruct (String.eqb t "json_object"); [right | left]; reflexivity.
    + unfold with_json_instruction. split.
      * destruct response_format as [[| item d] |]; cbn [nonempty];
          try (intros Hne; exfalso; apply Hne; reflexivity).
        destruct (items_get (item :: d) "type") as [t |] eqn:Htype;
          [| intros Hne; exfalso; apply Hne; reflexivity].
        destruct (String.eqb t "json_object") eqn:Ht;
          [| intros Hne; exfalso; apply Hne; reflexivity].
        apply String.eqb_eq in Ht. subst t. intros _. eauto.
      * intros (d & -> & Htype).
        destruct d as [| item d]; [discriminate |].
        cbn [nonempty]. rewrite Htype. cbn [String.eqb Ascii.eqb Bool.eqb].
        apply append_not_same. exact Hinstruction.
    + reflexivity.
    + unfold total_tokens, ChatResponse_init. cbn [usage].
      rewrite bool_decide_false.
      * rewrite lookup_singleton_eq. reflexivity.
      * intros Hempty.
        apply (f_equal (fun m : gmap string Z => m !! "total_tokens")) in Hempty.
        rewrite lookup_singleton_eq, lookup_empty in Hempty. discriminate.
  - intros f fs c cs e Hparameters.
    unfold create_chat_completion. rewrite Hsdk.
    cbn [nonempty with_function_schema]. rewrite Hparameters.
    reflexivity.
Qed.

Lemma anthropic_create_chat_completion_normalises_witness :
  exists r,
    create_chat_completion (recording_messages topics_message) no_dumps
      anthropic_wrapper "claude-3-opus-20240229" "Hello"
      (Some [("type", "json_object")]) None None [] =
      (Ok r,
       [mkMessagesRequest "claude-3-opus-20240229"
          [("user",
            ("Hello" ++ line_feed ++ line_feed
             ++ "You must respond with a valid JSON object.")%string)]
          1024]) /\
    choices r = [ChoiceDict (json_text "{'topics': ['a']}")] /\
    total_tokens r = 15.
Proof.
  destruct (anthropic_create_chat_completion_normalises no_dumps
              anthropic_wrapper (mkAsyncAnthropic 1 (Some "ak-test"))
              topics_message "claude-3-opus-20240229" "Hello"
              (Some [("type", "json_object")]) eq_refl)
    as ((r & sent & Hrun & _ & _ & Hchoices & Htotal) & _).
  exists r. split; [| split].
  - rewrite Hrun. vm_compute in Hrun. injection Hrun as _ <-. reflexivity.
  - rewrite Hchoices. reflexivity.
  - rewrite Htotal. reflexivity.
Defined.

End AnthropicMore.

(** * More about extraction.py *)
Module ExtractionMore.
Import Json Llms Extraction ExtractionSpec ExtractionRuns.

Section OnAnyCollaborators.

Context {W TopicModel NerModel Tokenizer Pipeline F : Type}.
Context `{ListOfSet}.
Variable env : @Outside W TopicModel NerModel Tokenizer Pipeline F.

#[local] Abbreviation State := (@State W TopicModel NerModel Tokenizer).

(** ** The cache of the entities *)

Lemma list_set_nil (l : list string) : list_set l = [] <-> l = [].
Proof.
  split.
  - intros Hnil. destruct l as [| x l]; [reflexivity |].
    assert (Hx : x ∈ list_set (x :: l))
      by (apply elem_of_list_set, elem_of_cons; left; reflexivity).
    rewrite Hnil in Hx. destruct (proj1 (elem_of_nil x) Hx).
  - intros ->. destruct (list_set []) as [| x l] eqn:Hset; [reflexivity |].
    assert (Hx : x ∈ list_set [])
      by (rewrite Hset; apply elem_of_cons; left; reflexivity).
    apply (proj1 (elem_of_list_set [] x)) in Hx.
    destruct (proj1 (elem_of_nil x) Hx).
Qed.

(** A cached list with an element is returned, and nothing changes. *)
Lemma extract_entities_hit (text key : string) (st : State) (e : string)
    (cached : list string) :
  _entity_cache_key env text = Ok key ->
  _entity_cache st !! key = Some (e :: cached) ->
  extract_entities env text st = (Ok (e :: cached), st).
Proof.
  intros Hkey Hhit. rewrite (extract_entities_with_key env _ _ _ Hkey).
  rewrite Hhit. reflexivity.
Qed.

(** X7: after a call of [extract_entities] that ran the pipeline, the
    entities are in the cache under the key of the text, its digest.
    When there is at least one entity, the next call for that text, or
    for any text with the same digest, returns the same list and changes
    nothing: the pipeline is not run. When there is none, the empty list
    is in the cache but is not used: the next call loads the pipeline and
    runs it again, and returns the entities of that second run. *)
Theorem extract_entities_caches_only_nonempty_results
    (text key : string) (st st1 : State) (ner : Pipeline)
    (results : list NerResult) (w2 : W) :
  _entity_cache_key env text = Ok key ->
  entity_cache_miss key st ->
  get_ner_model env st = (Ok ner, st1) ->
  pipeline_run env ner text (world st1) = (Ok results, w2) ->
  exists st',
    extract_entities env text st =
      (Ok (list_set (group_entities results)), st') /\
    _entity_cache st' !! key = Some (list_set (group_entities results)) /\
    (group_entities results <> [] ->
     forall text',
       _entity_cache_key env text' = _entity_cache_key env text ->
       extract_entities env text' st' =
         (Ok (list_set (group_entities results)), st')) /\
    (group_entities results = [] ->
     forall ner' st1' results' w',
       get_ner_model env st' = (Ok ner', st1') ->
       pipeline_run env ner' text (world st1') = (Ok results', w') ->
       extract_entities env text st' =
         (Ok (list_set (group_entities results')),
          set_entity_cache
            (<[key := list_set (group_entities results')]> (_entity_cache st1'))
            (after_call (pipeline_call text) w' st1'))).
Proof.
  intros Hkey Hmiss Hner Hrun.
  eexists.
  split; [exact (extract_entities_returns env _ _ _ _ _ _ _ Hkey Hmiss Hner Hrun) |].
  assert (Hcached :
    _entity_cache
      (set_entity_cache
         (<[key := list_set (group_entities results)]> (_entity_cache st1))
         (after_call (pipeline_call text) w2 st1))
      !! key = Some (list_set (group_entities results)))
    by (cbn [set_entity_cache _entity_cache]; apply lookup_insert_eq).
  split; [exact Hcached |]. split.
  - intros Hsome text' Hdigest.
    destruct (list_set (group_entities results)) as [| e cached] eqn:Hset.
    + apply (proj1 (list_set_nil _)) in Hset. contradiction.
    + apply (extract_entities_hit text' key); [| exact Hcached].
      rewrite Hdigest. exact Hkey.
  - intros Hnone ner' st1' results' w' Hner' Hrun'.
    apply (extract_entities_returns env text key _ st1' ner' results' w');
      [exact Hkey | | exact Hner' | exact Hrun'].
    intros e cached Hhit. rewrite Hcached in Hhit.
    apply (proj2 (list_set_nil _)) in Hnone. congruence.
Qed.

(** ** Topics, with BERTopic *)

(** The state after a miss of [extract_topics_bertopic] whose loop
    ended in [sc] with [topics]. *)
Lemma extract_topics_bertopic_run (text : string) (num_topics : option Z)
    (st sa sc : State) (model : TopicModel) (indices : list Z) (wb : W)
    (r : outcome (list string)) :
  _bertopic_cache st !! bertopic_cache_key env text num_topics = None ->
  get_topic_model env st = (Ok model, sa) ->
  transform env model [text] (world sa) = (Ok indices, wb) ->
  collect_topics env model (default (top_k_topics (settings env)) num_topics)
    indices 0 [] (after_call (transform_call [text]) wb sa) = (r, sc) ->
  extract_topics_bertopic env text num_topics st =
    match r with
    | Ok topics =>
        (Ok topics,
         set_bertopic_cache
           (<[bertopic_cache_key env text num_topics := topics]>
              (_bertopic_cache sc)) sc)
    | Raise e => (Raise e, sc)
    | Diverge => (Diverge, sc)
    end.
Proof.
  intros Hmiss Hmodel Htransform Hcollect.
  unfold extract_topics_bertopic. unfold bind at 1. unfold get at 1.
  unfold bertopic_cache_key in Hmiss. rewrite Hmiss.
  unfold bind at 1. rewrite Hmodel.
  unfold bind at 1. rewrite (call_after _ _ _ _ _ Htransform).
  unfold bind at 1. rewrite Hcollect.
  destruct r; reflexivity.
Qed.

(** X8: a call of [extract_topics_bertopic] that misses the cache,
    for a text the model assigns one topic to. When the topic is the
    outlier -1 the result is the empty list, it is cached, and the same
    call again returns it without running the model. When the requested
    count is negative the result is empty whatever the topic, and the
    terms of the topic are not asked for. Otherwise (a count of 0 or
    more) the result is all the terms of the topic, in the model's order,
    however many the count is: the count does not shorten the list. *)
Theorem extract_topics_bertopic_one_topic
    (text : string) (num_topics : option Z) (st sa : State)
    (model : TopicModel) (topic : Z) (wb : W) :
  _bertopic_cache st !! bertopic_cache_key env text num_topics = None ->
  get_topic_model env st = (Ok model, sa) ->
  transform env model [text] (world sa) = (Ok [topic], wb) ->
  let _num_topics := default (top_k_topics (settings env)) num_topics in
  let sb := after_call (transform_call [text]) wb sa in
  (topic = -1 \/ _num_topics < 0 ->
   exists st',
     extract_topics_bertopic env text num_topics st = (Ok [], st') /\
     trace st' = trace sb /\
     extract_topics_bertopic env text num_topics st' = (Ok [], st')) /\
  (topic <> -1 -> 0 <= _num_topics ->
   forall topic_info wc,
     get_topic env model topic (world sb) = (Ok topic_info, wc) ->
     exists st',
       extract_topics_bertopic env text num_topics st =
         (Ok (map fst topic_info), st') /\
       trace st' = trace sb ++ [get_topic_call topic]).
Proof.
  intros Hmiss Hmodel Htransform _num_topics sb. split.
  - intros Hskip.
    assert (Hcollect : collect_topics env model _num_topics [topic] 0 [] sb =
                       (Ok [], sb)).
    { cbn [collect_topics].
      destruct (negb (_num_topics =? 0) && (_num_topics <=? 0)) eqn:Hbreak;
        [reflexivity |].
      destruct Hskip as [-> | Hneg]; [reflexivity |].
      apply andb_false_iff in Hbreak as [Hz | Hle].
      - apply negb_false_iff, Z.eqb_eq in Hz. lia.
      - apply Z.leb_gt in Hle. lia. }
    rewrite (extract_topics_bertopic_run _ _ _ _ _ _ _ _ _ Hmiss Hmodel
               Htransform Hcollect).
    eexists. split; [reflexivity |]. split; [reflexivity |].
    apply extract_topics_bertopic_hit.
    cbn [set_bertopic_cache _bertopic_cache]. apply lookup_insert_eq.
  - intros Htopic Hcount topic_info wc Hget.
    assert (Hcollect : collect_topics env model _num_topics [topic] 0 [] sb =
                       (Ok (map fst topic_info),
                        after_call (get_topic_call topic) wc sb)).
    { cbn [collect_topics].
      replace (negb (_num_topics =? 0) && (_num_topics <=? 0)) with false.
      2: { symmetry. apply andb_false_iff.
           destruct (Z.eq_dec _num_topics 0) as [Hz | Hz].
           - left. apply negb_false_iff, Z.eqb_eq. exact Hz.
           - right. apply Z.leb_gt. lia. }
      replace (negb (topic =? -1)) with true
        by (symmetry; apply negb_true_iff, Z.eqb_neq; exact Htopic).
      unfold bind at 1. rewrite (call_after _ _ _ _ _ Hget). reflexivity. }
    rewrite (extract_topics_bertopic_run _ _ _ _ _ _ _ _ _ Hmiss Hmodel
               Htransform Hcollect).
    eexists. split; reflexivity.
Qed.

(** ** Topics, with the LLM *)

Lemma topics_attempt_list (_num_topics : Z) (prompt : string) (st : State)
    (response : ChatResponse) (items : list json) (w : W) :
  answers_topics env prompt (world st) response w ->
  decode_topics response = Ok (JList items) ->
  topics_attempt env _num_topics prompt st =
    (Ok (JList (slice_to _num_topics items)),
     after_call (topics_call env prompt) w st).
Proof.
  intros Hcall Hdecode. unfold topics_attempt. unfold bind at 1.
  rewrite (call_after _ _ _ _ _ Hcall).
  unfold bind, try_except_only, lift, ret. rewrite Hdecode.
  destruct items as [| x items]; cbn [json_truthy json_slice_to].
  - unfold slice_to. destruct (0 <=? _num_topics); rewrite take_nil; reflexivity.
  - reflexivity.
Qed.

Lemma slice_to_length {A} (n : Z) (l : list A) :
  length (slice_to n l) =
    if 0 <=? n then Nat.min (Z.to_nat n) (length l)
    else (length l - Z.to_nat (- n))%nat.
Proof.
  unfold slice_to. destruct (0 <=? n); rewrite length_take; lia.
Qed.

(** X9: when the first response of the client holds a list under
    [topics], [extract_topics_llm] returns after that one call, without
    retrying, also when the list is empty. It returns the first
    [_num_topics] items of the list, in order (so at most [_num_topics]
    of them, and all of them when there are no more than that), for a
    count of 0 or more; for a negative count it returns the list without
    its last [-_num_topics] items. *)
Theorem extract_topics_llm_truncates_to_count
    (text : string) (num_topics : option Z) (st : State)
    (response : ChatResponse) (items : list json) (w : W) :
  let _num_topics := default (top_k_topics (settings env)) num_topics in
  let prompt := topics_prompt env _num_topics text in
  answers_topics env prompt (world st) response w ->
  decode_topics response = Ok (JList items) ->
  exists returned,
    extract_topics_llm env text num_topics st =
      (Ok (JList returned), after_call (topics_call env prompt) w st) /\
    (exists dropped, items = returned ++ dropped) /\
    (0 <= _num_topics ->
     length returned = Nat.min (Z.to_nat _num_topics) (length items)) /\
    (_num_topics < 0 ->
     length returned = (length items - Z.to_nat (- _num_topics))%nat).
Proof.
  intros _num_topics prompt Hcall Hdecode.
  exists (slice_to _num_topics items). split; [| split; [| split]].
  - unfold extract_topics_llm. rewrite AsyncRetrying_3.
    fold _num_topics. fold prompt.
    rewrite (topics_attempt_list _ _ _ _ _ _ Hcall Hdecode). reflexivity.
  - unfold slice_to. destruct (0 <=? _num_topics);
      eexists; symmetry; apply take_drop.
  - intros Hpos. rewrite slice_to_length.
    apply Z.leb_le in Hpos. rewrite Hpos. reflexivity.
  - intros Hneg. rewrite slice_to_length.
    apply Z.leb_gt in Hneg. rewrite Hneg. reflexivity.
Qed.

Lemma decode_topics_not_object (response : ChatResponse) (v : json) :
  response_document response = Ok v ->
  is_dict v = false ->
  decode_topics response = Raise TypeError.
Proof.
  unfold response_document, decode_topics, outcome_bind.
  destruct (first_message_content response) as [content | e |]; try discriminate.
  intros -> Hv. destruct v; try reflexivity. discriminate.
Qed.

Lemma topics_attempt_not_object (_num_topics : Z) (prompt : string) (st : State)
    (response : ChatResponse) (v : json) (w : W) :
  answers_topics env prompt (world st) response w ->
  response_document response = Ok v ->
  is_dict v = false ->
  topics_attempt env _num_topics prompt st =
    (Raise TypeError, after_call (topics_call env prompt) w st).
Proof.
  intros Hcall Hdoc Hv. unfold topics_attempt. unfold bind at 1.
  rewrite (call_after _ _ _ _ _ Hcall).
  unfold bind, try_except_only, lift.
  rewrite (decode_topics_not_object _ _ Hdoc Hv). reflexivity.
Qed.

(** X10: a response whose content is valid JSON but no object (a
    list, a string, a number, [null]) is not handled like invalid JSON in
    [extract_topics_llm]: indexing it by "topics" raises a [TypeError],
    which the [except] clause does not name, so the attempt fails and is
    retried; after three such responses a [RetryError] around the
    [TypeError] propagates, and the client was called three times. *)
Theorem extract_topics_llm_retries_documents_that_are_no_object
    (text : string) (num_topics : option Z) (st : State)
    (r1 r2 r3 : ChatResponse) (v1 v2 v3 : json) (w1 w2 w3 : W) :
  let _num_topics := default (top_k_topics (settings env)) num_topics in
  let prompt := topics_prompt env _num_topics text in
  answers_topics env prompt (world st) r1 w1 ->
  response_document r1 = Ok v1 -> is_dict v1 = false ->
  answers_topics env prompt w1 r2 w2 ->
  response_document r2 = Ok v2 -> is_dict v2 = false ->
  answers_topics env prompt w2 r3 w3 ->
  response_document r3 = Ok v3 -> is_dict v3 = false ->
  extract_topics_llm env text num_topics st =
    (Raise (RetryError TypeError),
     after_call (topics_call env prompt) w3
       (after_call (topics_call env prompt) w2
          (after_call (topics_call env prompt) w1 st))).
Proof.
  intros _num_topics prompt Ha1 Hd1 Hv1 Ha2 Hd2 Hv2 Ha3 Hd3 Hv3.
  unfold extract_topics_llm. rewrite AsyncRetrying_3.
  fold _num_topics. fold prompt.
  rewrite (topics_attempt_not_object _ _ st _ _ _ Ha1 Hd1 Hv1).
  rewrite (topics_attempt_not_object _ _ (after_call _ w1 st) _ _ _ Ha2 Hd2 Hv2).
  rewrite (topics_attempt_not_object _ _ (after_call _ w2 _) _ _ _ Ha3 Hd3 Hv3).
  reflexivity.
Qed.

(** ** What the retry loop keeps *)

(** What every attempt keeps, the loop keeps. *)
Lemma retry_attempts_keeps {S A} (R : S -> S -> Prop) (body : M S A) :
  (forall s1 s2 s3, R s1 s2 -> R s2 s3 -> R s1 s3) ->
  (forall s r s', body s = (r, s') -> R s s') ->
  forall (remaining : nat) (s : S) (r : outcome A) (s' : S),
    retry_attempts remaining body s = (r, s') -> R s s'.
Proof.
  intros Htrans Hbody.
  induction remaining as [| k IH]; intros s r s'; cbn [retry_attempts];
    destruct (body s) as [r1 s1] eqn:H1; apply Hbody in H1;
    destruct r1 as [a | e |]; try (intros [= <- <-]; exact H1).
  intros Hrest. apply IH in Hrest. eapply Htrans; eassumption.
Qed.

(** What the loop raises is a [RetryError]. *)
Lemma retry_attempts_raises {S A} (body : M S A) :
  forall (remaining : nat) (s : S) (e : exn) (s' : S),
    retry_attempts remaining body s = (Raise e, s') ->
    exists e', e = RetryError e' /\ exists s0, body s0 = (Raise e', s').
Proof.
  induction remaining as [| k IH]; intros s e s'; cbn [retry_attempts];
    destruct (body s) as [r1 s1] eqn:H1;
    destruct r1 as [a | e1 |]; try discriminate.
  - intros [= <- <-]. eauto.
  - apply IH.
Qed.

Lemma filter_calls_only (p q : Event -> bool) (st st' : State) :
  (forall ev, p ev = true -> q ev = false) ->
  calls_only p st st' ->
  List.filter q (trace st') = List.filter q (trace st).
Proof.
  intros Hp (added & -> & Hadded).
  rewrite List.filter_app.
  assert (Hnone : List.filter q added = []).
  { induction Hadded as [| ev l Hev _ IH]; [reflexivity |].
    cbn [List.filter]. rewrite (Hp ev Hev). exact IH. }
  rewrite Hnone, app_nil_r. reflexivity.
Qed.

(** [extract_topics_llm] calls the client and nothing else, and leaves
    the cache of the entities as it is. *)
Lemma extract_topics_llm_calls (text : string) (num_topics : option Z)
    (st st' : State) (r : outcome json) :
  extract_topics_llm env text num_topics st = (r, st') ->
  calls_only is_chat_call st st' /\ _entity_cache st' = _entity_cache st.
Proof.
  unfold extract_topics_llm, AsyncRetrying.
  apply (retry_attempts_keeps
           (fun s s' : State =>
              calls_only is_chat_call s s' /\ _entity_cache s' = _entity_cache s)).
  - intros s1 s2 s3 [H12 E12] [H23 E23]. split.
    + eapply calls_only_trans; eassumption.
    + congruence.
  - intros s r0 s' Hattempt.
    apply topics_attempt_state in Hattempt as [w ->]. split.
    + apply calls_only_after_call. reflexivity.
    + reflexivity.
Qed.

(** ** Discrete memories: what is flagged, deleted and indexed *)

Lemma has_text_false (memory : MemoryRecord) :
  String.eqb (text memory) EmptyString = true -> has_text memory = false.
Proof. unfold has_text. intros ->. reflexivity. Qed.





(** X14: [extract_discrete_memories] writes the flags before it
    builds the new records. When the response for a record holds a
    memory from which [text] cannot be read (a dict without the key: a
    [KeyError]; an item that is no dict: a [TypeError]), the function
    raises that error after [update_memories] has stored the record as
    extracted and a ULID was drawn, and [index_long_term_memories] is not
    called: the record is flagged "t" although none of its memories was
    indexed. *)
Theorem extract_discrete_memories_flags_before_it_builds_the_new_records
    (fuel : nat) (memory : MemoryRecord) (deduplicate : bool) (st : State)
    (response : ChatResponse) (item : json) (rest : list json) (e : exn)
    (w wu wid : W) (ulid : string) :
  text memory <> EmptyString ->
  answers env memory (world st) response w ->
  decode_memories response = Ok (item :: rest) ->
  json_getitem item "text" = Raise e ->
  update_memories env [flagged memory] w = (Ok tt, wu) ->
  new_ulid env wu = (Ok ulid, wid) ->
  exists st',
    extract_discrete_memories env fuel (Some [memory]) deduplicate st =
      (Raise e, st') /\
    world st' = wid /\
    trace st' =
      trace st ++ [extraction_call env memory;
                   update_memories_call [flagged memory]].
Proof.
  intros Htext Hanswer Hdecode Hitem Hupdate Hulid.
  eexists. split; [| split].
  - unfold extract_discrete_memories, select_memories.
    unfold bind at 1. unfold ret at 1. unfold bind at 1.
    cbn [process_memories]. rewrite (text_not_empty _ Htext).
    unfold bind at 1. rewrite AsyncRetrying_3.
    rewrite (extraction_attempt_valid _ _ _ _ _ _ _ Hanswer Hdecode).
    unfold ret at 1. cbn [app].
    unfold flush. unfold bind at 1.
    fold (flagged memory).
    rewrite (call_after (update_memories_call [flagged memory])
               (update_memories env [flagged memory])
               (after_call (extraction_call env memory) w st) (Ok tt) wu Hupdate).
    unfold bind at 1. cbn [new_memory_records]. unfold bind at 1.
    unfold new_memory_record. unfold bind at 1.
    unfold outside at 1. cbn [world after_call]. rewrite Hulid.
    unfold bind at 1. unfold lift at 1. rewrite Hitem. reflexivity.
  - reflexivity.
  - cbn [trace after_call]. rewrite <- app_assoc. reflexivity.
Qed.

(** ** A client whose responses cannot be read *)

Lemma retry_attempts_never_completes {S A} (body : M S A) :
  (forall s a s', body s <> (Ok a, s')) ->
  forall (remaining : nat) (s : S) (a : A) (s' : S),
    retry_attempts remaining body s <> (Ok a, s').
Proof.
  intros Hbody.
  induction remaining as [| k IH]; intros s a s'; cbn [retry_attempts];
    destruct (body s) as [r1 s1] eqn:H1;
    destruct r1 as [a1 | e |]; try discriminate;
    try (exfalso; exact (Hbody _ _ _ H1)).
  apply IH.
Qed.

(** What the method of the Anthropic wrapper returns has a dict as its
    choice, on which the module's [.message] raises. *)
Lemma anthropic_client_response
    (messages_create :
       AsyncAnthropic -> AnthropicCalls.MessagesRequest -> M W AnthropicCalls.Message)
    (json_dumps_indent_2 : json -> string) (self : AnthropicClientWrapper)
    (model prompt : string) (response_format : list (string * string))
    (w : W) (response : ChatResponse) (w' : W) :
  anthropic_client messages_create json_dumps_indent_2 self model prompt
    response_format w = (Ok response, w') ->
  first_message_content response = Raise AttributeError.
Proof.
  unfold anthropic_client, AnthropicCalls.create_chat_completion.
  destruct (aw_client self) as [client |]; [| discriminate].
  cbn [nonempty AnthropicCalls.with_function_schema].
  unfold bind at 1. unfold lift at 1. unfold bind at 1.
  destruct (messages_create client _ w) as [[message | e |] w1];
    [| discriminate ..].
  unfold ret. intros [= <- <-]. reflexivity.
Qed.

Section UnreadableResponses.

(** The client's responses are such that [response.choices[0].message]
    raises an [AttributeError]. *)
Variable client : string -> string -> list (string * string) -> M W ChatResponse.
Hypothesis client_responses :
  forall model prompt response_format w response w',
    client model prompt response_format w = (Ok response, w') ->
    first_message_content response = Raise AttributeError.

Lemma topics_attempt_unreadable (_num_topics : Z) (prompt : string)
    (st st' : State) (topics : json) :
  topics_attempt (with_client env client) _num_topics prompt st <> (Ok topics, st').
Proof.
  unfold topics_attempt. unfold bind at 1.
  destruct (call _ _ st) as [r1 st1] eqn:Hcall.
  apply call_inv in Hcall as (w & Hclient & ->).
  destruct r1 as [response | e |]; [| discriminate ..].
  cbn [create_chat_completion with_client] in Hclient.
  apply client_responses in Hclient.
  unfold bind, try_except_only, lift, decode_topics, outcome_bind.
  rewrite Hclient. cbn [JSONDecodeError_or_KeyError]. discriminate.
Qed.

Lemma extraction_attempt_unreadable (memory : MemoryRecord) (new : list json)
    (st st' : State) (new' : list json) :
  extraction_attempt (with_client env client) memory new st <> (Ok new', st').
Proof.
  unfold extraction_attempt. unfold bind at 1.
  destruct (call _ _ st) as [r1 st1] eqn:Hcall.
  apply call_inv in Hcall as (w & Hclient & ->).
  destruct r1 as [response | e |]; [| discriminate ..].
  cbn [create_chat_completion with_client] in Hclient.
  apply client_responses in Hclient.
  unfold bind, lift, decode_memories, outcome_bind.
  rewrite Hclient. discriminate.
Qed.

Lemma topics_attempt_answered_unreadable (_num_topics : Z) (prompt : string)
    (st : State) (response : ChatResponse) (w : W) :
  client (generation_model (settings env)) prompt [("type", "json_object")]
    (world st) = (Ok response, w) ->
  topics_attempt (with_client env client) _num_topics prompt st =
    (Raise AttributeError,
     after_call (topics_call (with_client env client) prompt) w st).
Proof.
  intros Hclient. unfold topics_attempt. unfold bind at 1.
  cbn [create_chat_completion with_client settings].
  rewrite (call_after _ _ _ _ _ Hclient).
  apply client_responses in Hclient.
  unfold bind, try_except_only, lift, decode_topics, outcome_bind.
  rewrite Hclient. reflexivity.
Qed.

Lemma process_memories_unreadable (memories : list MemoryRecord) :
  Exists (fun m => has_text m = true) memories ->
  forall (new : list json) (updated : list MemoryRecord) (st st' : State)
         (result : list json * list MemoryRecord),
    process_memories (with_client env client) memories new updated st
      <> (Ok result, st').
Proof.
  induction memories as [| memory rest IH]; intros Hsome new updated st st' result.
  - inversion Hsome.
  - cbn [process_memories].
    destruct (String.eqb (text memory) EmptyString) eqn:Htext.
    + assert (Hrest : Exists (fun m => has_text m = true) rest).
      { inversion Hsome as [? ? Hm | ? ? Hm]; [| exact Hm].
        rewrite (has_text_false _ Htext) in Hm. discriminate. }
      unfold bind at 1.
      destruct (call _ _ st) as [[[] | e |] st1]; [| discriminate ..].
      apply (IH Hrest).
    + unfold bind at 1.
      destruct (AsyncRetrying 3 _ st) as [[new1 | e |] st1] eqn:Hretry;
        [| discriminate ..].
      exfalso. unfold AsyncRetrying in Hretry.
      exact (retry_attempts_never_completes _
               (fun s a s' => extraction_attempt_unreadable memory new s s' a)
               _ _ _ _ Hretry).
Qed.

End UnreadableResponses.

(** X15: with the Anthropic wrapper as its client,
    [extract_topics_llm] cannot return topics. The wrapper's responses
    carry a dict as their choice, so [response.choices[0].message] raises
    an [AttributeError], which the [except] clause does not name: every
    attempt fails. When the SDK answers every request, the function has
    asked it three times and raises a [RetryError] around the
    [AttributeError]. *)
Theorem extract_topics_llm_fails_with_the_anthropic_wrapper
    (messages_create :
       AsyncAnthropic -> AnthropicCalls.MessagesRequest -> M W AnthropicCalls.Message)
    (json_dumps_indent_2 : json -> string) (self : AnthropicClientWrapper)
    (sdk : AsyncAnthropic) (text : string) (num_topics : option Z) (st : State) :
  aw_client self = Some sdk ->
  (forall request w, exists message w',
      messages_create sdk request w = (Ok message, w')) ->
  let env' :=
    with_client env (anthropic_client messages_create json_dumps_indent_2 self) in
  exists st',
    extract_topics_llm env' text num_topics st =
      (Raise (RetryError AttributeError), st') /\
    chat_calls st' = (chat_calls st + 3)%nat.
Proof.
  intros Hsdk Hanswers env'.
  assert (Hclient : forall model prompt response_format w,
             exists response w',
               anthropic_client messages_create json_dumps_indent_2 self
                 model prompt response_format w = (Ok response, w')).
  { intros model prompt response_format w.
    unfold anthropic_client, AnthropicCalls.create_chat_completion.
    rewrite Hsdk. cbn [nonempty AnthropicCalls.with_function_schema].
    unfold bind at 1. unfold lift at 1. unfold bind at 1.
    destruct (Hanswers
                (AnthropicCalls.mkMessagesRequest model
                   [("user",
                     AnthropicCalls.with_json_instruction prompt
                       (Some response_format))] 1024) w)
      as (message & w' & ->).
    unfold ret. eauto. }
  assert (Hattempt : forall _num_topics prompt (s : State),
             exists w,
               topics_attempt env' _num_topics prompt s =
                 (Raise AttributeError, after_call (topics_call env' prompt) w s)).
  { intros _num_topics prompt s.
    destruct (Hclient (generation_model (settings env)) prompt
                [("type", "json_object")] (world s)) as (response & w & Hrun).
    exists w.
    exact (topics_attempt_answered_unreadable _
             (anthropic_client_response messages_create json_dumps_indent_2 self)
             _ _ _ _ _ Hrun). }
  unfold extract_topics_llm. rewrite AsyncRetrying_3.
  destruct (Hattempt (default (top_k_topics (settings env')) num_topics)
              (topics_prompt env' (default (top_k_topics (settings env')) num_topics) text)
              st) as (w1 & ->).
  destruct (Hattempt (default (top_k_topics (settings env')) num_topics)
              (topics_prompt env' (default (top_k_topics (settings env')) num_topics) text)
              (after_call (topics_call env' (topics_prompt env' (default (top_k_topics (settings env')) num_topics) text)) w1 st))
    as (w2 & ->).
  destruct (Hattempt (default (top_k_topics (settings env')) num_topics)
              (topics_prompt env' (default (top_k_topics (settings env')) num_topics) text)
              (after_call (topics_call env' (topics_prompt env' (default (top_k_topics (settings env')) num_topics) text)) w2
                 (after_call (topics_call env' (topics_prompt env' (default (top_k_topics (settings env')) num_topics) text)) w1 st)))
    as (w3 & ->).
  eexists. split; [reflexivity |].
  rewrite !chat_calls_after_call. cbn [topics_call is_chat_call]. lia.
Qed.

(** X16: with the Anthropic wrapper as its client,
    [extract_discrete_memories] never completes on a batch in which a
    record has text, whatever the SDK and the adapter do: no attempt for
    such a record can read the wrapper's response. The run ends in an
    error after calls of the client and deletions only, so that no
    record is flagged and no memory indexed. *)
Theorem extract_discrete_memories_fails_with_the_anthropic_wrapper
    (messages_create :
       AsyncAnthropic -> AnthropicCalls.MessagesRequest -> M W AnthropicCalls.Message)
    (json_dumps_indent_2 : json -> string) (self : AnthropicClientWrapper)
    (fuel : nat) (memory : MemoryRecord) (memories : list MemoryRecord)
    (deduplicate : bool) (st st' : State) (r : outcome unit) :
  Exists (fun m => has_text m = true) (memory :: memories) ->
  let env' :=
    with_client env (anthropic_client messages_create json_dumps_indent_2 self) in
  extract_discrete_memories env' fuel (Some (memory :: memories)) deduplicate st
    = (r, st') ->
  r <> Ok tt /\
  calls_only (fun ev => is_chat_call ev || is_delete_call ev) st st'.
Proof.
  intros Hsome env'. unfold extract_discrete_memories, select_memories.
  unfold bind at 1. unfold ret at 1. unfold bind at 1.
  destruct (process_memories env' (memory :: memories) [] [] st)
    as [r1 st1] eqn:Hprocess.
  pose proof (process_memories_calls env' _ _ _ _ _ _ Hprocess) as Hcalls.
  destruct r1 as [result | e |].
  - exfalso.
    exact (process_memories_unreadable _
             (anthropic_client_response messages_create json_dumps_indent_2 self)
             _ Hsome _ _ _ _ _ Hprocess).
  - intros [= <- <-]. split; [discriminate | exact Hcalls].
  - intros [= <- <-]. split; [discriminate | exact Hcalls].
Qed.

(** ** The search that selects the records *)

(** X17: the search of [extract_discrete_memories] has no bound on
    the number of pages: it goes on as long as the adapter returns pages
    of 25 records or more. Against an adapter that always does (one that
    does not honour the offset, on a store of 25 eligible records or
    more), the loop never ends: whatever number of pages the model is
    allowed, the function has searched that often and is still
    running. *)
Theorem extract_discrete_memories_search_has_no_page_bound
    (fuel : nat) (memories : option (list MemoryRecord)) (deduplicate : bool)
    (st : State) :
  memories = None \/ memories = Some [] ->
  (forall offset w, exists page w',
      search_memories env EmptyString "message" "f" 25 offset w = (Ok page, w')
      /\ (25 <= length page)%nat) ->
  exists st',
    extract_discrete_memories env fuel memories deduplicate st = (Diverge, st') /\
    search_calls st' = (search_calls st + fuel)%nat /\
    calls_only is_search_call st st'.
Proof.
  intros Hnone Hfull.
  assert (Hloop : forall fuel collected offset (s : State),
             exists s',
               search_loop env fuel collected offset s = (Diverge, s') /\
               search_calls s' = (search_calls s + fuel)%nat /\
               calls_only is_search_call s s').
  { clear fuel. induction fuel as [| fuel IH]; intros collected offset s.
    - exists s. cbn [search_loop]. unfold lift.
      split; [reflexivity |]. split; [lia | apply calls_only_refl].
    - destruct (Hfull offset (world s)) as (page & w' & Hsearch & Hlen).
      cbn [search_loop]. unfold bind at 1.
      rewrite (call_after _ _ _ _ _ Hsearch).
      apply Nat.ltb_ge in Hlen. rewrite Hlen.
      destruct (IH (collected ++ page) (offset + 25)%nat
                  (after_call (search_memories_call EmptyString "message" "f" 25 offset) w' s))
        as (s' & Hrun & Hcount & Hcalls).
      exists s'. split; [exact Hrun |]. split.
      + rewrite Hcount. unfold search_calls, after_call. cbn [trace].
        rewrite List.filter_app, length_app.
        cbn [List.filter is_search_call length]. lia.
      + eapply calls_only_trans; [| exact Hcalls].
        apply calls_only_after_call. reflexivity. }
  destruct (Hloop fuel [] 0%nat st) as (s' & Hrun & Hcount & Hcalls).
  exists s'. split; [| split; assumption].
  unfold extract_discrete_memories, select_memories. unfold bind at 1.
  destruct Hnone as [-> | ->]; rewrite Hrun; reflexivity.
Qed.

(** ** The client of a process without a base URL *)



(** ** The NER models are loaded once *)

(** With the model loaded, [get_ner_model] only builds the pipeline. *)
Lemma get_ner_model_loaded (st : State) (model : NerModel) :
  _ner_model st = Some model ->
  get_ner_model env st =
    outside (pipeline env (Some model) (_ner_tokenizer st)) st.
Proof.
  intros Hmodel. unfold get_ner_model.
  unfold bind at 1. unfold get at 1. rewrite Hmodel.
  unfold bind at 1. unfold ret at 1. unfold bind at 1. unfold get at 1.
  rewrite Hmodel. reflexivity.
Qed.

(** X19: the tokenizer and the model of the NER pipeline are
    loaded by the first call of [get_ner_model] that succeeds, one
    [from_pretrained] each, and never again: once the model is held, a
    call of [extract_entities], whatever its text and its outcome, leaves
    the held model as it is and makes no [from_pretrained] call (it runs
    the pipeline at most once). *)
Theorem extract_entities_loads_the_models_once
    (st st1 : State) (ner : Pipeline) :
  _ner_model st = None ->
  get_ner_model env st = (Ok ner, st1) ->
  _ner_model st1 <> None /\
  trace st1 =
    trace st ++ [from_pretrained_call (ner_model (settings env));
                 from_pretrained_call (ner_model (settings env))] /\
  forall (s : State) (text : string) (r : outcome (list string)) (s' : State),
    _ner_model s <> None ->
    extract_entities env text s = (r, s') ->
    _ner_model s' = _ner_model s /\
    (trace s' = trace s \/ trace s' = trace s ++ [pipeline_call text]).
Proof.
  intros Hnone Hload.
  split; [| split].
  - revert Hload. unfold get_ner_model.
    unfold bind at 1. unfold get at 1. rewrite Hnone.
    unfold bind at 1. unfold bind at 1.
    destruct (call _ _ st) as [r1 s1] eqn:Htokenizer.
    apply call_inv in Htokenizer as (w1 & _ & ->).
    destruct r1 as [tokenizer | e |]; [| discriminate ..].
    unfold bind at 1. unfold modify at 1. unfold bind at 1.
    destruct (call _ _ _) as [r2 s2] eqn:Hmodel.
    apply call_inv in Hmodel as (w2 & _ & ->).
    destruct r2 as [model | e |]; [| discriminate ..].
    unfold modify at 1. unfold bind at 1. unfold get at 1.
    unfold outside. cbn [world set_ner_model set_ner_tokenizer after_call
      _ner_model _ner_tokenizer trace _topic_model _entity_cache _bertopic_cache].
    destruct (pipeline env _ _ w2) as [r3 w3].
    intros [= _ <-]. cbn [_ner_model]. discriminate.
  - revert Hload. unfold get_ner_model.
    unfold bind at 1. unfold get at 1. rewrite Hnone.
    unfold bind at 1. unfold bind at 1.
    destruct (call _ _ st) as [r1 s1] eqn:Htokenizer.
    apply call_inv in Htokenizer as (w1 & _ & ->).
    destruct r1 as [tokenizer | e |]; [| discriminate ..].
    unfold bind at 1. unfold modify at 1. unfold bind at 1.
    destruct (call _ _ _) as [r2 s2] eqn:Hmodel.
    apply call_inv in Hmodel as (w2 & _ & ->).
    destruct r2 as [model | e |]; [| discriminate ..].
    unfold modify at 1. unfold bind at 1. unfold get at 1.
    unfold outside. cbn [world set_ner_model set_ner_tokenizer after_call
      _ner_model _ner_tokenizer trace _topic_model _entity_cache _bertopic_cache].
    destruct (pipeline env _ _ w2) as [r3 w3].
    intros [= _ <-]. cbn [trace]. rewrite <- app_assoc. reflexivity.
  - intros s text r s' Hheld.
    destruct (_ner_model s) as [model |] eqn:Hmodel; [clear Hheld | contradiction].
    destruct (_entity_cache_key env text) as [key | e0 |] eqn:Hkey;
      [| unfold extract_entities; unfold bind at 1; unfold lift at 1;
         rewrite Hkey; intros [= <- <-];
         (split; [exact Hmodel | left; reflexivity]) ..].
    rewrite (extract_entities_with_key env _ _ _ Hkey).
    assert (Hbody : forall r0 s0,
      try_except
        (let! ner0 := get_ner_model env in
         let! results := call (pipeline_call text) (pipeline_run env ner0 text) in
         let! _ :=
           modify (fun st0 =>
             set_entity_cache
               (<[key := list_set (group_entities results)]>
                  (_entity_cache st0)) st0) in
         ret (list_set (group_entities results)))
        (fun _ => ret []) s = (r0, s0) ->
      _ner_model s0 = Some model /\
      (trace s0 = trace s \/ trace s0 = trace s ++ [pipeline_call text])).
    { intros r0 s0. unfold try_except. unfold bind at 1.
      rewrite (get_ner_model_loaded _ _ Hmodel). unfold outside.
      destruct (pipeline env (Some model) (_ner_tokenizer s) (world s))
        as [[ner0 | e |] w1].
      - unfold bind at 1. unfold call. cbn [world].
        destruct (pipeline_run env ner0 text w1) as [[results | e |] w2];
          unfold bind, modify, ret; cbn [trace];
          intros [= <- <-]; cbn [_ner_model set_entity_cache trace];
          (split; [exact Hmodel | right; reflexivity]).
      - unfold ret. intros [= <- <-]. cbn [_ner_model trace].
        split; [exact Hmodel | left; reflexivity].
      - intros [= <- <-]. cbn [_ner_model trace].
        split; [exact Hmodel | left; reflexivity]. }
    destruct (_entity_cache s !! key) as [[| e cached] |].
    + apply Hbody.
    + unfold ret. intros [= <- <-]. split; [exact Hmodel | left; reflexivity].
    + apply Hbody.
Qed.

End OnAnyCollaborators.

(** ** The orchestrator *)

Section Orchestrator.

Context {W TopicModel NerModel Tokenizer Pipeline F Any : Type}.
Context `{ListOfSet}.
Variable json_list_set : json -> outcome json.
Variable chat_completions_create :
  AsyncOpenAI -> @ChatRequest Any -> M W ChatCompletion.
Variable messages_create :
  AsyncAnthropic -> AnthropicCalls.MessagesRequest -> M W AnthropicCalls.Message.
Variable json_dumps_indent_2 : json -> string.
Variable env : @Outside W TopicModel NerModel Tokenizer Pipeline F.

#[local] Abbreviation State := (@State W TopicModel NerModel Tokenizer).

Lemma in_extraction_run {A} (m : M State A) (p : Process) (st : State) :
  in_extraction m (p, st) = ((m st).1, (p, (m st).2)).
Proof.
  unfold in_extraction. cbn [fst snd]. destruct (m st) as [r st']. reflexivity.
Qed.

Lemma in_llms_run {A} (m : M Process A) (p : Process) (st : State) :
  in_llms m (p, st) = ((m p).1, ((m p).2, st)).
Proof.
  unfold in_llms. cbn [fst snd]. destruct (m p) as [r p']. reflexivity.
Qed.

Lemma get_model_config_returns (model_name : string) :
  exists config, get_model_config model_name = Ok config.
Proof.
  destruct (MODEL_CONFIGS !! model_name) as [config |] eqn:Hin.
  - exists config. apply LlmsSpec.get_model_config_present. exact Hin.
  - exists default_config. apply LlmsSpec.get_model_config_absent. exact Hin.
Qed.

(** X11: with topic extraction by BERTopic and entity extraction both
    switched on, [handle_extraction] runs [extract_topics_bertopic], then
    [extract_entities], and returns their two lists without duplicates:
    each returned list has no element twice and has exactly the elements
    of the list the function gave (in an order the code does not fix).
    No client is asked for: the process of llms.py is as before. *)
Theorem handle_extraction_lists_without_duplicates
    (switches : Switches) (text : string) (p : Process) (st st1 st2 : State)
    (found_topics found_entities : list string) :
  enable_topic_extraction switches = true ->
  topic_model_source switches = "BERTopic" ->
  enable_ner switches = true ->
  extract_topics_bertopic env text None st = (Ok found_topics, st1) ->
  extract_entities env text st1 = (Ok found_entities, st2) ->
  exists topics entities,
    handle_extraction json_list_set chat_completions_create messages_create
      json_dumps_indent_2 env switches text (p, st) =
      (Ok (inl topics, entities), (p, st2)) /\
    NoDup topics /\ (forall x, x ∈ topics <-> x ∈ found_topics) /\
    NoDup entities /\ (forall x, x ∈ entities <-> x ∈ found_entities).
Proof.
  intros Htopics Hsource Hner Hrun1 Hrun2.
  unfold handle_extraction. rewrite Htopics, Hsource, Hner.
  cbn [String.eqb Ascii.eqb Bool.eqb].
  unfold bind at 1. unfold bind at 1.
  rewrite in_extraction_run, Hrun1. cbn [fst snd]. unfold ret at 1.
  unfold bind at 1. rewrite in_extraction_run, Hrun2. cbn [fst snd].
  destruct found_topics as [| t ts]; destruct found_entities as [| e es];
    unfold bind, ret; eexists _, _; (split; [reflexivity |]);
    repeat split;
    try apply NoDup_nil_2; try apply list_set_NoDup;
    try apply (proj1 (elem_of_list_set _ _));
    try apply (proj2 (elem_of_list_set _ _));
    try (intros Hx; exact Hx).
Qed.

(** X12: with topic extraction switched on and a topic model source
    other than "BERTopic", [handle_extraction] calls [extract_topics_llm]
    without a client, which asks [get_model_client] for one before its
    first attempt. When that call fails, [handle_extraction] fails with
    the same error: the error of [get_model_client] as it is (the
    [ValueError] of a missing API key, for one), nothing having been
    called; or, with a client in hand, the [RetryError] of the three
    attempts. In both cases the entities are not extracted, although they
    need no LLM: the NER pipeline is not run and the cache of the
    entities is as before. *)
Theorem handle_extraction_llm_failure_skips_entities
    (switches : Switches) (text : string) (p p1 : Process) (st st1 : State)
    (e : exn) :
  enable_topic_extraction switches = true ->
  topic_model_source switches <> "BERTopic" ->
  extract_topics_llm_without_client chat_completions_create messages_create
    json_dumps_indent_2 env text None (p, st) = (Raise e, (p1, st1)) ->
  handle_extraction json_list_set chat_completions_create messages_create
    json_dumps_indent_2 env switches text (p, st) = (Raise e, (p1, st1)) /\
  pipeline_calls st1 = pipeline_calls st /\
  _entity_cache st1 = _entity_cache st /\
  exists config,
    get_model_config (topic_model (settings env)) = Ok config /\
    ((get_model_client (inl (provider config)) p = (Raise e, p1) /\ st1 = st) \/
     (exists client e',
        get_model_client (inl (provider config)) p = (Ok client, p1) /\
        e = RetryError e')).
Proof.
  intros Htopics Hsource Hrun.
  split.
  { unfold handle_extraction. rewrite Htopics.
    apply String.eqb_neq in Hsource. rewrite Hsource.
    unfold bind at 1. unfold bind at 1. rewrite Hrun. reflexivity. }
  destruct (get_model_config_returns (topic_model (settings env)))
    as (config & Hconfig).
  revert Hrun. unfold extract_topics_llm_without_client.
  unfold bind at 1. unfold lift at 1. rewrite Hconfig.
  unfold bind at 1. rewrite in_llms_run.
  destruct (get_model_client (inl (provider config)) p) as [r pa] eqn:Hclient.
  cbn [fst snd]. destruct r as [client | e0 |].
  - rewrite in_extraction_run.
    destruct (extract_topics_llm
                (with_client env
                   (client_method chat_completions_create messages_create
                      json_dumps_indent_2 client))
                text None st) as [r2 st2] eqn:Htopics_run.
    cbn [fst snd]. intros [= -> <- <-].
    destruct (extract_topics_llm_calls _ _ _ _ _ _ Htopics_run)
      as [Hcalls Hcache].
    split; [| split; [exact Hcache |]].
    + unfold pipeline_calls. f_equal.
      apply (filter_calls_only is_chat_call); [| exact Hcalls].
      intros ev. destruct ev; simpl; congruence.
    + exists config. split; [reflexivity |]. right.
      unfold extract_topics_llm, AsyncRetrying in Htopics_run.
      apply retry_attempts_raises in Htopics_run as (e' & -> & _).
      eauto.
  - intros [= <- <- <-].
    split; [reflexivity |]. split; [reflexivity |].
    exists config. split; [reflexivity |]. left.
    split; [exact Hclient | reflexivity].
  - discriminate.
Qed.

End Orchestrator.

(** ** The code on the doubles *)

Import Doubles MoreDoubles LlmsRuns.

Lemma extract_entities_caches_only_nonempty_results_witness :
  exists st',
    extract_entities doubles "Trek 520 in Paris" (fresh trek_world) =
      (Ok ["Paris"; "Trek520"], st') /\
    pipeline_calls st' = 1%nat /\
    extract_entities doubles "Trek 520 in Paris" st' =
      (Ok ["Paris"; "Trek520"], st').
Proof.
  assert (Hmiss : entity_cache_miss "Trek 520 in Paris" (fresh trek_world)).
  { intros e cached. vm_compute. discriminate. }
  destruct (extract_entities_caches_only_nonempty_results doubles
              "Trek 520 in Paris" "Trek 520 in Paris" (fresh trek_world)
              (get_ner_model doubles (fresh trek_world)).2 tt trek_results
              trek_world eq_refl Hmiss
              ltac:(vm_compute; reflexivity) ltac:(vm_compute; reflexivity))
    as (st' & Hrun & _ & Hagain & _).
  assert (Hst : st' = (extract_entities doubles "Trek 520 in Paris"
                         (fresh trek_world)).2)
    by (rewrite Hrun; reflexivity).
  exists st'. split; [exact Hrun |]. split.
  - rewrite Hst. vm_compute. reflexivity.
  - apply Hagain; [vm_compute; discriminate | reflexivity].
Defined.

Lemma extract_topics_bertopic_one_topic_witness :
  exists st',
    extract_topics_bertopic doubles "Testing caching" (Some 0)
      (fresh caching_world) = (Ok ["technology"], st') /\
    trace st' =
      [BERTopic_load_call "MaartenGr/BERTopic_Wikipedia" "all-MiniLM-L6-v2";
       transform_call ["Testing caching"]; get_topic_call 1].
Proof.
  destruct (proj2 (extract_topics_bertopic_one_topic doubles "Testing caching"
                     (Some 0) (fresh caching_world)
                     (get_topic_model doubles (fresh caching_world)).2
                     tt 1 caching_world
                     eq_refl ltac:(vm_compute; reflexivity)
                     ltac:(vm_compute; reflexivity))
              ltac:(discriminate) ltac:(vm_compute; discriminate)
              [("technology", QArith_base.Qmake 4 5)] caching_world eq_refl)
    as (st' & Hrun & Htrace).
  exists st'. split; [exact Hrun |]. rewrite Htrace. reflexivity.
Defined.

Lemma extract_topics_llm_truncates_to_count_witness :
  exists st',
    extract_topics_llm doubles "a text" None
      (fresh (world_with
                [response_with (json_text "{'topics': ['a', 'b', 'c', 'd']}")] [])) =
      (Ok (JList [JStr "a"; JStr "b"; JStr "c"]), st') /\
    chat_calls st' = 1%nat.
Proof.
  pose (response :=
    ChatResponse_init
      [ChoiceObject (Some (json_text "{'topics': ['a', 'b', 'c', 'd']}"))]
      {["total_tokens" := 0]}).
  destruct (extract_topics_llm_truncates_to_count doubles "a text" None
              (fresh (world_with
                        [response_with (json_text "{'topics': ['a', 'b', 'c', 'd']}")] []))
              response
              [JStr "a"; JStr "b"; JStr "c"; JStr "d"]
              (world_with [] [])
              ltac:(vm_compute; reflexivity) ltac:(vm_compute; reflexivity))
    as (returned & Hrun & _ & _ & _).
  eexists. split.
  - rewrite Hrun. vm_compute in Hrun. injection Hrun as <-. reflexivity.
  - reflexivity.
Defined.

Lemma extract_topics_llm_retries_documents_that_are_no_object_witness :
  exists st',
    extract_topics_llm doubles "a text" None
      (fresh (world_with (replicate 3 (response_with "[1]")) [])) =
      (Raise (RetryError TypeError), st') /\
    chat_calls st' = 3%nat /\
    responses (world st') = [].
Proof.
  pose (response :=
    ChatResponse_init [ChoiceObject (Some "[1]")] {["total_tokens" := 0]}).
  eexists. split; [| split].
  - exact (extract_topics_llm_retries_documents_that_are_no_object doubles
             "a text" None
             (fresh (world_with (replicate 3 (response_with "[1]")) []))
             response response response
             (JList [JInt 1]) (JList [JInt 1]) (JList [JInt 1])
             (world_with (replicate 2 (response_with "[1]")) [])
             (world_with (replicate 1 (response_with "[1]")) [])
             (world_with [] [])
             ltac:(vm_compute; reflexivity) ltac:(vm_compute; reflexivity) eq_refl
             ltac:(vm_compute; reflexivity) ltac:(vm_compute; reflexivity) eq_refl
             ltac:(vm_compute; reflexivity) ltac:(vm_compute; reflexivity) eq_refl).
  - reflexivity.
  - reflexivity.
Defined.

Lemma handle_extraction_lists_without_duplicates_witness :
  exists st',
    extract_topics_bertopic doubles "Trek 520 in Paris" None (fresh trek_world) =
      (Ok ["technology"; "technology"],
       (extract_topics_bertopic doubles "Trek 520 in Paris" None
          (fresh trek_world)).2) /\
    handle_extraction (fun v => Ok v) empty_completions
      (constant_messages topics_message) no_dumps doubles bertopic_and_ner
      "Trek 520 in Paris" (bare_process, fresh trek_world) =
      (Ok (inl ["technology"], ["Paris"; "Trek520"]), (bare_process, st')).
Proof.
  assert (Htopics :
    extract_topics_bertopic doubles "Trek 520 in Paris" None (fresh trek_world) =
      (Ok ["technology"; "technology"],
       (extract_topics_bertopic doubles "Trek 520 in Paris" None
          (fresh trek_world)).2))
    by (vm_compute; reflexivity).
  assert (Hentities :
    extract_entities doubles "Trek 520 in Paris"
      (extract_topics_bertopic doubles "Trek 520 in Paris" None
         (fresh trek_world)).2 =
      (Ok ["Paris"; "Trek520"],
       (extract_entities doubles "Trek 520 in Paris"
          (extract_topics_bertopic doubles "Trek 520 in Paris" None
             (fresh trek_world)).2).2))
    by (vm_compute; reflexivity).
  destruct (handle_extraction_lists_without_duplicates (fun v => Ok v)
              empty_completions (constant_messages topics_message) no_dumps
              doubles bertopic_and_ner "Trek 520 in Paris" bare_process
              (fresh trek_world) _ _
              ["technology"; "technology"] ["Paris"; "Trek520"]
              eq_refl eq_refl eq_refl Htopics Hentities)
    as (topics & entities & Hrun & _).
  eexists. split; [exact Htopics |].
  rewrite Hrun. vm_compute in Hrun. injection Hrun as <- <-. reflexivity.
Defined.

Lemma handle_extraction_llm_failure_skips_entities_witness :
  get_model_config (topic_model (settings doubles)) = Ok default_config /\
  exists p1,
    get_model_client (inl OPENAI) bare_process =
      (Raise (ValueError "OpenAI API key is required"), p1) /\
    handle_extraction (fun v => Ok v) empty_completions
      (constant_messages topics_message) no_dumps doubles llm_and_ner
      "Trek 520 in Paris" (bare_process, fresh trek_world) =
      (Raise (ValueError "OpenAI API key is required"), (p1, fresh trek_world)).
Proof.
  split; [vm_compute; reflexivity |].
  assert (Hclient :
    get_model_client (inl OPENAI) bare_process =
      (Raise (ValueError "OpenAI API key is required"),
       (get_model_client (inl OPENAI) bare_process).2))
    by (vm_compute; reflexivity).
  assert (Htopics :
    extract_topics_llm_without_client empty_completions
      (constant_messages topics_message) no_dumps doubles
      "Trek 520 in Paris" None (bare_process, fresh trek_world) =
      (Raise (ValueError "OpenAI API key is required"),
       ((get_model_client (inl OPENAI) bare_process).2, fresh trek_world)))
    by (vm_compute; reflexivity).
  destruct (handle_extraction_llm_failure_skips_entities (fun v => Ok v)
              empty_completions (constant_messages topics_message) no_dumps
              doubles llm_and_ner "Trek 520 in Paris" bare_process _
              (fresh trek_world) _ _
              eq_refl ltac:(discriminate) Htopics)
    as (Hrun & _).
  eexists. split; [exact Hclient | exact Hrun].
Defined.


Lemma extract_discrete_memories_flags_before_it_builds_the_new_records_witness :
  exists st',
    extract_discrete_memories doubles 1 (Some [window_seats]) true
      (fresh (world_with
                [response_with (json_text "{'memories': [{'type': 'semantic'}]}")]
                [window_seats])) = (Raise (KeyError "text"), st') /\
    trace st' =
      [extraction_call doubles window_seats;
       update_memories_call
         [mkMemoryRecord "m1" "I always take a window seat" message [] [] "t"]] /\
    stored (world st') =
      [mkMemoryRecord "m1" "I always take a window seat" message [] [] "t"].
Proof.
  pose (response :=
    ChatResponse_init
      [ChoiceObject (Some (json_text "{'memories': [{'type': 'semantic'}]}"))]
      {["total_tokens" := 0]}).
  destruct (extract_discrete_memories_flags_before_it_builds_the_new_records
              doubles 1 window_seats true
              (fresh (world_with
                        [response_with
                           (json_text "{'memories': [{'type': 'semantic'}]}")]
                        [window_seats]))
              response
              (JDict [("type", JStr "semantic")]) [] (KeyError "text")
              (world_with [] [window_seats])
              (mkWorld []
                 [mkMemoryRecord "m1" "I always take a window seat" message [] [] "t"]
                 0 [] (Ok []))
              (mkWorld []
                 [mkMemoryRecord "m1" "I always take a window seat" message [] [] "t"]
                 1 [] (Ok []))
              "ulid-0"
              ltac:(discriminate)
              ltac:(vm_compute; reflexivity) ltac:(vm_compute; reflexivity)
              eq_refl
              ltac:(vm_compute; reflexivity) ltac:(vm_compute; reflexivity))
    as (st' & Hrun & Hworld & Htrace).
  exists st'. split; [exact Hrun |]. split; [exact Htrace |].
  rewrite Hworld. reflexivity.
Defined.

Lemma extract_topics_llm_fails_with_the_anthropic_wrapper_witness :
  AnthropicCalls.first_text topics_message = json_text "{'topics': ['a']}" /\
  exists st',
    extract_topics_llm
      (with_client doubles
         (anthropic_client (constant_messages topics_message) no_dumps
            anthropic_wrapper))
      "a text" None (fresh (world_with [] [])) =
      (Raise (RetryError AttributeError), st') /\
    chat_calls st' = 3%nat.
Proof.
  split; [reflexivity |].
  exact (extract_topics_llm_fails_with_the_anthropic_wrapper doubles
           (constant_messages topics_message) no_dumps anthropic_wrapper
           (mkAsyncAnthropic 1 (Some "ak-test")) "a text" None
           (fresh (world_with [] [])) eq_refl
           (fun request w =>
              ex_intro _ topics_message (ex_intro _ w eq_refl))).
Defined.

Lemma extract_discrete_memories_fails_with_the_anthropic_wrapper_witness :
  exists st',
    extract_discrete_memories
      (with_client doubles
         (anthropic_client (constant_messages topics_message) no_dumps
            anthropic_wrapper))
      1 (Some [no_text; window_seats]) true
      (fresh (world_with [] [no_text; window_seats])) =
      (Raise (RetryError AttributeError), st') /\
    calls_only (fun ev => is_chat_call ev || is_delete_call ev)
      (fresh (world_with [] [no_text; window_seats])) st' /\
    stored (world st') = [window_seats].
Proof.
  assert (Hrun :
    extract_discrete_memories
      (with_client doubles
         (anthropic_client (constant_messages topics_message) no_dumps
            anthropic_wrapper))
      1 (Some [no_text; window_seats]) true
      (fresh (world_with [] [no_text; window_seats])) =
      (Raise (RetryError AttributeError),
       (extract_discrete_memories
          (with_client doubles
             (anthropic_client (constant_messages topics_message) no_dumps
                anthropic_wrapper))
          1 (Some [no_text; window_seats]) true
          (fresh (world_with [] [no_text; window_seats]))).2))
    by (vm_compute; reflexivity).
  destruct (extract_discrete_memories_fails_with_the_anthropic_wrapper doubles
              (constant_messages topics_message) no_dumps anthropic_wrapper
              1 no_text [window_seats] true
              (fresh (world_with [] [no_text; window_seats])) _ _
              ltac:(right; left; reflexivity) Hrun)
    as (_ & Hcalls).
  eexists. split; [exact Hrun |]. split; [exact Hcalls |].
  vm_compute. reflexivity.
Defined.

Lemma extract_discrete_memories_search_has_no_page_bound_witness :
  exists st',
    extract_discrete_memories
      (with_search_memories doubles offset_blind_search) 3 None true
      (fresh (world_with [] [])) = (Diverge, st') /\
    search_calls st' = 3%nat.
Proof.
  destruct (extract_discrete_memories_search_has_no_page_bound
              (with_search_memories doubles offset_blind_search) 3 None true
              (fresh (world_with [] [])) (or_introl eq_refl)
              (fun offset w =>
                 ex_intro _ (replicate 25 window_seats)
                   (ex_intro _ w (conj eq_refl (le_n 25)))))
    as (st' & Hrun & Hcount & _).
  exists st'. split; [exact Hrun | exact Hcount].
Defined.


Lemma extract_entities_loads_the_models_once_witness :
  exists st1,
    get_ner_model doubles (fresh trek_world) = (Ok tt, st1) /\
    trace st1 =
      [from_pretrained_call "dbmdz/bert-large-cased-finetuned-conll03-english";
       from_pretrained_call "dbmdz/bert-large-cased-finetuned-conll03-english"] /\
    forall text r s',
      extract_entities doubles text st1 = (r, s') ->
      trace s' = trace st1 \/ trace s' = trace st1 ++ [pipeline_call text].
Proof.
  assert (Hload :
    get_ner_model doubles (fresh trek_world) =
      (Ok tt, (get_ner_model doubles (fresh trek_world)).2))
    by (vm_compute; reflexivity).
  destruct (extract_entities_loads_the_models_once doubles
              (fresh trek_world) _ tt eq_refl Hload)
    as (Hheld & Htrace & Hafter).
  eexists. split; [exact Hload |]. split; [exact Htrace |].
  intros text r s' Hrun.
  exact (proj2 (Hafter _ text r s' Hheld Hrun)).
Defined.

End ExtractionMore.
